(** * Kotlin code generator of sqlc: model construction and type resolution

    A shallow embedding of [internal/codegen/kotlin/gen.go] and the
    properties its specification states about it.

    Go strings are byte sequences; they are modelled as [string], whose
    characters ([ascii]) are bytes.  Go [int] values that count or index
    are [Z]; none of them can leave the 64-bit range here, because each is
    bounded by the length of a slice or is an [int32] widened to [int]. *)

From Stdlib Require Import ZArith Ascii String List Sorting.Sorted.
From stdpp Require Import base gmap list strings pretty sorting.

Local Open Scope Z_scope.

(** ** Bytes and character classes *)

Definition byte_between (lo hi c : ascii) : bool :=
  (N_of_ascii lo <=? N_of_ascii c)%N && (N_of_ascii c <=? N_of_ascii hi)%N.

Definition is_digit (c : ascii) : bool := byte_between "0" "9" c.
Definition is_lower (c : ascii) : bool := byte_between "a" "z" c.
Definition is_upper (c : ascii) : bool := byte_between "A" "Z" c.

(** The class [[a-zA-Z0-9_]]: the word characters of Go's regexp package
    (ASCII only), and the complement of the class in [ktIdentPattern]. *)
Definition is_word (c : ascii) : bool :=
  is_lower c || is_upper c || is_digit c || bool_decide (c = "_"%char).

Definition to_upper (c : ascii) : ascii :=
  if is_lower c then ascii_of_N (N_of_ascii c - 32) else c.

Definition to_lower (c : ascii) : ascii :=
  if is_upper c then ascii_of_N (N_of_ascii c + 32) else c.

Fixpoint string_map (f : ascii -> ascii) (s : string) : string :=
  match s with
  | EmptyString => EmptyString
  | String c s' => String (f c) (string_map f s')
  end.

Fixpoint string_filter (p : ascii -> bool) (s : string) : string :=
  match s with
  | EmptyString => EmptyString
  | String c s' => if p c then String c (string_filter p s') else string_filter p s'
  end.

Fixpoint string_forallb (p : ascii -> bool) (s : string) : bool :=
  match s with
  | EmptyString => true
  | String c s' => p c && string_forallb p s'
  end.

(** ** The Go standard library functions the generator calls

    Each is modelled on bytes.  [strings_ToUpper], [strings_ToLower] and
    [strings_Title] map ASCII letters and leave every byte above 127
    unchanged: they agree with Go on ASCII strings (Go maps letters outside
    ASCII as well). *)

Definition strings_ToUpper (s : string) : string := string_map to_upper s.
Definition strings_ToLower (s : string) : string := string_map to_lower s.

(** [strings.Replace(s, old, new, -1)] for a non-empty [old]: every
    non-overlapping occurrence of [old], from the left, becomes [new].
    [skip] counts the bytes of an occurrence still to be dropped. *)
Fixpoint strings_Replace_go (old new : string) (skip : nat) (s : string) : string :=
  match s with
  | EmptyString => EmptyString
  | String c s' =>
      match skip with
      | S k => strings_Replace_go old new k s'
      | O =>
          if String.prefix old s
          then new +:+ strings_Replace_go old new (String.length old - 1) s'
          else String c (strings_Replace_go old new O s')
      end
  end.

Definition strings_Replace (s old new : string) : string :=
  strings_Replace_go old new O s.

(** [strings.Split(s, sep)] for a non-empty [sep]; [cur] is the piece being
    read, reversed. *)
Fixpoint strings_Split_go (sep : string) (skip : nat) (cur : string) (s : string)
  : list string :=
  match s with
  | EmptyString => [String.rev cur]
  | String c s' =>
      match skip with
      | S k => strings_Split_go sep k cur s'
      | O =>
          if String.prefix sep s
          then String.rev cur :: strings_Split_go sep (String.length sep - 1) "" s'
          else strings_Split_go sep O (String c cur) s'
      end
  end.

Definition strings_Split (s sep : string) : list string :=
  strings_Split_go sep O "" s.

Fixpoint strings_Join (l : list string) (sep : string) : string :=
  match l with
  | [] => ""
  | [x] => x
  | x :: l' => x +:+ sep +:+ strings_Join l' sep
  end.

Definition strings_HasSuffix (s suffix : string) : bool :=
  String.prefix (String.rev suffix) (String.rev s).

(** [isSeparator] of Go's strings package, on bytes: ASCII letters, digits
    and the underscore are no separators, every other ASCII byte is; bytes
    above 127 are taken as parts of letters. *)
Definition isSeparator (c : ascii) : bool :=
  (N_of_ascii c <=? 127)%N && negb (is_word c).

(** [strings.Title]: the first letter of every word is upper-cased; [prev]
    is the byte before the current one (a space before the first). *)
Fixpoint strings_Title_go (prev : ascii) (s : string) : string :=
  match s with
  | EmptyString => EmptyString
  | String c s' =>
      String (if isSeparator prev then to_upper c else c) (strings_Title_go c s')
  end.

Definition strings_Title (s : string) : string := strings_Title_go " " s.

(** Does [s] consist of white space only, that is, is
    [len(strings.TrimSpace(s)) == 0]?  White space is what [unicode.IsSpace]
    accepts, read off the UTF-8 encoding. *)
Fixpoint only_space_go (fuel : nat) (s : list N) : bool :=
  match fuel with
  | O => false
  | S fuel' =>
      match s with
      | [] => true
      | 9 :: r | 10 :: r | 11 :: r | 12 :: r | 13 :: r | 32 :: r => only_space_go fuel' r
      | 194 :: 133 :: r | 194 :: 160 :: r => only_space_go fuel' r
      | 225 :: 154 :: 128 :: r => only_space_go fuel' r
      | 226 :: 128 :: b :: r =>
          ((128 <=? b) && (b <=? 138) || (b =? 168) || (b =? 169) || (b =? 175))%N
          && only_space_go fuel' r
      | 226 :: 129 :: 159 :: r => only_space_go fuel' r
      | 227 :: 128 :: 128 :: r => only_space_go fuel' r
      | _ => false
      end
  end%N.

Definition only_space (s : string) : bool :=
  let bytes := map N_of_ascii (list_ascii_of_string s) in
  only_space_go (S (length bytes)) bytes.

(** [fmt.Sprintf("%d", n)]. *)
Definition fmt_d (n : Z) : string := pretty n.

(** ** The request and response messages (package [plugin])

    The generator reads these protobuf messages; only the fields that
    [gen.go] reads are kept.  A [*plugin.Column] and a column's [Type] are
    never nil where the generator dereferences them, so they are plain
    records; a column's [Table] may be nil and is an [option]. *)

Module plugin.

Record Identifier := mkIdentifier {
  Identifier_Catalog : string;
  Identifier_Schema : string;
  Identifier_Name : string
}.

Record Column := mkColumn {
  Column_Name : string;
  Column_NotNull : bool;
  Column_IsArray : bool;
  Column_Comment : string;
  Column_Table : option Identifier;
  Column_Type : Identifier
}.

(** [plugin.Parameter]; [Number] is an [int32]. *)
Record Param := mkParam {
  Param_Number : Z;
  Param_Column : Column
}.

Record Query := mkQuery {
  Query_Text : string;
  Query_Name : string;
  Query_Cmd : string;
  Query_Columns : list Column;
  Query_Params : list Param;
  Query_Comments : list string;
  Query_Filename : string
}.

Record Enum := mkEnum {
  Enum_Name : string;
  Enum_Vals : list string;
  Enum_Comment : string
}.

Record Table := mkTable {
  Table_Rel : Identifier;
  Table_Columns : list Column;
  Table_Comment : string
}.

Record Schema := mkSchema {
  Schema_Name : string;
  Schema_Tables : list Table;
  Schema_Enums : list Enum
}.

Record Catalog := mkCatalog {
  Catalog_DefaultSchema : string;
  Catalog_Schemas : list Schema
}.

Record KotlinCode := mkKotlinCode {
  KotlinCode_EmitExactTableNames : bool;
  KotlinCode_InflectionExcludeTableNames : list string;
  KotlinCode_Package : string
}.

(** [Rename] is a Go [map[string]string]: a missing key reads as [""]. *)
Record Settings := mkSettings {
  Settings_Engine : string;
  Settings_Rename : gmap string string;
  Settings_Kotlin : KotlinCode
}.

Record CodeGenRequest := mkCodeGenRequest {
  CodeGenRequest_Settings : Settings;
  CodeGenRequest_Catalog : Catalog;
  CodeGenRequest_Queries : list Query;
  CodeGenRequest_SqlcVersion : string
}.

Record File := mkFile {
  File_Name : string;
  File_Contents : string
}.

Record CodeGenResponse := mkCodeGenResponse {
  CodeGenResponse_Files : list File
}.

#[global] Instance Identifier_eq_dec : EqDecision Identifier.
Proof. solve_decision. Defined.

#[global] Instance File_eq_dec : EqDecision File.
Proof. solve_decision. Defined.

End plugin.

(** ** The descriptors built by the generator *)

Record Constant := mkConstant {
  Constant_Name : string;
  Constant_Type : string;
  Constant_Value : string
}.

Record Enum := mkEnum {
  Enum_Name : string;
  Enum_Comment : string;
  Enum_Constants : list Constant
}.

Record ktType := mkKtType {
  ktType_Name : string;
  ktType_IsEnum : bool;
  ktType_IsArray : bool;
  ktType_IsNull : bool;
  ktType_DataType : string;
  ktType_Engine : string
}.

Record Field := mkField {
  Field_Name : string;
  Field_Type : ktType;
  Field_Comment : string
}.

(** [Table] is the zero identifier for a struct synthesized for a query. *)
Record Struct := mkStruct {
  Struct_Table : plugin.Identifier;
  Struct_Name : string;
  Struct_Fields : list Field;
  Struct_JDBCParamBindings : list Field;
  Struct_Comment : string
}.

(** [Struct] is a [*Struct] in Go: [None] is nil.  Nothing writes through
    the pointer after the descriptor is built, so the struct is held by
    value. *)
Record QueryValue := mkQueryValue {
  QueryValue_Emit : bool;
  QueryValue_Name : string;
  QueryValue_Struct : option Struct;
  QueryValue_Typ : ktType;
  QueryValue_JDBCParamBindCount : Z
}.

Record Params := mkParams {
  Params_Struct : Struct
}.

Record Query := mkQuery {
  Query_ClassName : string;
  Query_Cmd : string;
  Query_Comments : list string;
  Query_MethodName : string;
  Query_FieldName : string;
  Query_ConstantName : string;
  Query_SQL : string;
  Query_SourceName : string;
  Query_Ret : QueryValue;
  Query_Arg : Params
}.

Record goColumn := mkGoColumn {
  goColumn_id : Z;
  goColumn_Column : plugin.Column
}.

Record ktTmplCtx := mkKtTmplCtx {
  ktTmplCtx_Q : string;
  ktTmplCtx_Package : string;
  ktTmplCtx_Enums : list Enum;
  ktTmplCtx_DataClasses : list Struct;
  ktTmplCtx_Queries : list Query;
  ktTmplCtx_Settings : plugin.Settings;
  ktTmplCtx_SqlcVersion : string;
  ktTmplCtx_SourceName : string;
  ktTmplCtx_EmitJSONTags : bool;
  ktTmplCtx_EmitPreparedQueries : bool;
  ktTmplCtx_EmitInterface : bool
}.

(** The importer of [imports.go], which the templates call back. *)
Record importer := mkImporter {
  importer_Settings : plugin.Settings;
  importer_Enums : list Enum;
  importer_DataClasses : list Struct;
  importer_Queries : list Query
}.

(** The three templates of the generator.  Their text is rendered by Go's
    [text/template], outside this development. *)
Inductive template := ktModelsTmpl | ktSqlTmpl | ktIfaceTmpl.

#[global] Instance ktType_eq_dec : EqDecision ktType.
Proof. solve_decision. Defined.

#[global] Instance Field_eq_dec : EqDecision Field.
Proof. solve_decision. Defined.

#[global] Instance Struct_eq_dec : EqDecision Struct.
Proof. solve_decision. Defined.

(** The zero values [ktType{}] and [QueryValue{}]. *)
Definition ktType_zero : ktType := mkKtType "" false false false "" "".
Definition QueryValue_zero : QueryValue := mkQueryValue false "" None ktType_zero 0.
Definition Identifier_zero : plugin.Identifier := plugin.mkIdentifier "" "" "".

(** A Go [error] is its message; a call that returns [(T, error)] returns
    a [result]. *)
Definition error := string.

Inductive result (A : Type) :=
| Ok (a : A)
| Err (e : error).
Arguments Ok {A} a.
Arguments Err {A} e.

(** A call that returns or panics with a message. *)
Inductive outcome (A : Type) :=
| Returns (a : A)
| Panics (msg : string).
Arguments Returns {A} a.
Arguments Panics {A} msg.

(** ** What [gen.go] calls and this development leaves open

    [sort_Slice] is Go's [sort.Slice] (not stable; its contract is
    [SortSliceLaws] below).  The others are functions and constants of the
    repository that live in other packages or files: [sdk.LowerTitle],
    [sdk.DataType], [sdk.SameTableName], [inflection.Singular] (its
    [SingularParams] passed as two arguments), [metadata.CmdCopyFrom], the
    per-engine type tables behind [mysqlType] and [postgresType], and the
    rendering of a template by [text/template] with the importer's
    callbacks. *)
Class External := {
  sort_Slice : forall {A : Type}, (A -> A -> bool) -> list A -> list A;
  sdk_LowerTitle : string -> string;
  sdk_DataType : plugin.Identifier -> string;
  sdk_SameTableName : option plugin.Identifier -> plugin.Identifier -> string -> bool;
  inflection_Singular : string -> list string -> string;
  metadata_CmdCopyFrom : string;
  mysqlTable : plugin.CodeGenRequest -> plugin.Identifier -> option (string * bool);
  postgresTable : plugin.CodeGenRequest -> plugin.Identifier -> option (string * bool);
  template_Execute : template -> importer -> ktTmplCtx -> result string
}.

(** The contract of [sort.Slice] for the orders the generator sorts by (a
    string key compared with [<]): the result is a rearrangement of the
    input, ordered by the key. *)
Class SortSliceLaws (E : External) : Prop := {
  sort_Slice_Permutation :
    forall (A : Type) (less : A -> A -> bool) (l : list A),
      sort_Slice less l ≡ₚ l;
  sort_Slice_Sorted :
    forall (A : Type) (key : A -> string) (l : list A),
      StronglySorted (fun a b => String.le (key a) (key b))
        (sort_Slice (fun a b => String.ltb (key a) (key b)) l)
}.

(** ** Methods of the descriptors *)

Definition QueryValue_EmitStruct (v : QueryValue) : bool := QueryValue_Emit v.

Definition QueryValue_IsStruct (v : QueryValue) : bool :=
  bool_decide (QueryValue_Struct v <> None).

Definition QueryValue_isEmpty (v : QueryValue) : bool :=
  bool_decide (QueryValue_Typ v = ktType_zero)
  && bool_decide (QueryValue_Name v = "")
  && bool_decide (QueryValue_Struct v = None).

Definition ktType_String (t : ktType) : string :=
  let v := ktType_Name t in
  if ktType_IsArray t then "List<" +:+ v +:+ ">"
  else if ktType_IsNull t then v +:+ "?"
  else v.

Definition QueryValue_Type (v : QueryValue) : outcome string :=
  if bool_decide (QueryValue_Typ v <> ktType_zero)
  then Returns (ktType_String (QueryValue_Typ v))
  else
    match QueryValue_Struct v with
    | Some s => Returns (Struct_Name s)
    | None => Panics ("no type for QueryValue: " +:+ QueryValue_Name v)
    end.

Definition Params_isEmpty (v : Params) : bool :=
  bool_decide (length (Struct_Fields (Params_Struct v)) = 0%nat).

Definition ktType_IsTime (t : ktType) : bool :=
  bool_decide (ktType_Name t = "LocalDate")
  || bool_decide (ktType_Name t = "LocalDateTime")
  || bool_decide (ktType_Name t = "LocalTime")
  || bool_decide (ktType_Name t = "OffsetDateTime").

Definition ktType_IsInstant (t : ktType) : bool := bool_decide (ktType_Name t = "Instant").

Definition ktType_IsUUID (t : ktType) : bool := bool_decide (ktType_Name t = "UUID").

Definition ktType_jdbcType (t : ktType) : string :=
  if ktType_IsArray t then "Array"
  else if ktType_IsEnum t || ktType_IsTime t then "Object"
  else if ktType_IsInstant t then "Timestamp"
  else ktType_Name t.

Definition ktType_jdbcSetter (t : ktType) : string := "set" +:+ ktType_jdbcType t.

(** ** Enum constants *)

(** [ktIdentPattern.ReplaceAllString(s, repl)] for the pattern
    [[^a-zA-Z0-9_]+] and a [repl] without [$]: every maximal run of bytes
    outside the class becomes [repl].  A character outside ASCII is a run of
    bytes above 127, all outside the class, so runs of bytes and runs of
    characters coincide.  [inrun] tells that the previous byte belongs to
    the current run. *)
Fixpoint ktIdentPattern_ReplaceAllString_go (repl : string) (inrun : bool) (s : string)
  : string :=
  match s with
  | EmptyString => EmptyString
  | String c s' =>
      if is_word c then String c (ktIdentPattern_ReplaceAllString_go repl false s')
      else if inrun then ktIdentPattern_ReplaceAllString_go repl true s'
      else repl +:+ ktIdentPattern_ReplaceAllString_go repl true s'
  end.

Definition ktIdentPattern_ReplaceAllString (s repl : string) : string :=
  ktIdentPattern_ReplaceAllString_go repl false s.

Definition ktEnumValueName (value : string) : string :=
  let id := strings_Replace value "-" "_" in
  let id := strings_Replace id ":" "_" in
  let id := strings_Replace id "/" "_" in
  let id := ktIdentPattern_ReplaceAllString id "" in
  strings_ToUpper id.

(** ** Placeholder rewriting *)

(** The length of the digits of a placeholder that starts with the [$]
    just before [s]: [\d+\b] matches the whole run of digits at the head of
    [s], and only when the run is not empty and no word character follows
    it (a shorter run would end before a digit, which is no boundary). *)
Fixpoint placeholder_digits (s : string) : option nat :=
  match s with
  | EmptyString => None
  | String c s' =>
      if is_digit c then
        match placeholder_digits s' with
        | Some n => Some (S n)
        | None =>
            match s' with
            | EmptyString => Some 1%nat
            | String c' _ => if is_word c' then None else Some 1%nat
            end
        end
      else None
  end.

(** [postgresPlaceholderRegexp.ReplaceAllString(s, "?")] for the pattern
    [\B\$\d+\b]: matches are found from the left and do not overlap.
    [prev_word] tells that the byte before [s] is a word character ([\B]
    before the [$] holds when it is not, or at the start of the text);
    [skip] counts the digits of a match still to be dropped. *)
Fixpoint postgresPlaceholderRegexp_ReplaceAllString_go
  (skip : nat) (prev_word : bool) (s : string) : string :=
  match s with
  | EmptyString => EmptyString
  | String c s' =>
      match skip with
      | S k => postgresPlaceholderRegexp_ReplaceAllString_go k (is_word c) s'
      | O =>
          match
            (if bool_decide (c = "$"%char) && negb prev_word
             then placeholder_digits s' else None)
          with
          | Some n => String "?" (postgresPlaceholderRegexp_ReplaceAllString_go n false s')
          | None => String c (postgresPlaceholderRegexp_ReplaceAllString_go O (is_word c) s')
          end
      end
  end.

Definition postgresPlaceholderRegexp_ReplaceAllString (s : string) : string :=
  postgresPlaceholderRegexp_ReplaceAllString_go O false s.

Definition jdbcSQL (s engine : string) : string :=
  if bool_decide (engine = "postgresql")
  then postgresPlaceholderRegexp_ReplaceAllString s
  else s.

(** ** The generator *)

Section Generator.

Context {E : External}.

(** [settings.Rename[name]]. *)
Definition Settings_rename (settings : plugin.Settings) (name : string) : string :=
  default "" (plugin.Settings_Rename settings !! name).

Definition dataClassName (name : string) (settings : plugin.Settings) : string :=
  let rename := Settings_rename settings name in
  if bool_decide (rename <> "") then rename
  else foldl (fun out p => out +:+ strings_Title p) "" (strings_Split name "_").

Definition memberName (name : string) (settings : plugin.Settings) : string :=
  sdk_LowerTitle (dataClassName name settings).

(** The schemas skipped by [buildEnums] and [buildDataClasses]. *)
Definition skipped_schema (name : string) : bool :=
  bool_decide (name = "pg_catalog") || bool_decide (name = "information_schema").

Definition by_name {A : Type} (name : A -> string) (a b : A) : bool :=
  String.ltb (name a) (name b).

Definition buildEnums_enum (req : plugin.CodeGenRequest)
  (schema : plugin.Schema) (enum : plugin.Enum) : Enum :=
  let enumName :=
    if bool_decide (plugin.Schema_Name schema
                    = plugin.Catalog_DefaultSchema (plugin.CodeGenRequest_Catalog req))
    then plugin.Enum_Name enum
    else plugin.Schema_Name schema +:+ "_" +:+ plugin.Enum_Name enum in
  let name := dataClassName enumName (plugin.CodeGenRequest_Settings req) in
  mkEnum name (plugin.Enum_Comment enum)
    (foldl (fun constants v => constants ++ [mkConstant (ktEnumValueName v) name v])
       [] (plugin.Enum_Vals enum)).

Definition buildEnums (req : plugin.CodeGenRequest) : list Enum :=
  let enums :=
    foldl (fun enums schema =>
             if skipped_schema (plugin.Schema_Name schema) then enums
             else foldl (fun enums enum => enums ++ [buildEnums_enum req schema enum])
                    enums (plugin.Schema_Enums schema))
      [] (plugin.Catalog_Schemas (plugin.CodeGenRequest_Catalog req)) in
  if bool_decide (0 < length enums)%nat
  then sort_Slice (by_name Enum_Name) enums
  else enums.

(** *** Type resolution *)

(** Modelled from the spec: [mysqlType] and [postgresType] are defined in
    [mysql_type.go] and [postgresql_type.go], which are missing.  Section
    4.1 of the specification: each engine has a mapping table from the raw
    type of the column, and a raw type the table does not know resolves to
    the generic fallback.  The tables are [mysqlTable] and
    [postgresTable]. *)
Definition engineType
  (table : plugin.CodeGenRequest -> plugin.Identifier -> option (string * bool))
  (req : plugin.CodeGenRequest) (col : plugin.Column) : string * bool :=
  default ("Any", false) (table req (plugin.Column_Type col)).

Definition mysqlType := engineType mysqlTable.
Definition postgresType := engineType postgresTable.

Definition Engine (req : plugin.CodeGenRequest) : string :=
  plugin.Settings_Engine (plugin.CodeGenRequest_Settings req).

Definition ktInnerType (req : plugin.CodeGenRequest) (col : plugin.Column) : string * bool :=
  if bool_decide (Engine req = "mysql") then mysqlType req col
  else if bool_decide (Engine req = "postgresql") then postgresType req col
  else ("Any", false).

Definition makeType (req : plugin.CodeGenRequest) (col : plugin.Column) : ktType :=
  let '(typ, isEnum) := ktInnerType req col in
  {| ktType_Name := typ;
     ktType_IsEnum := isEnum;
     ktType_IsArray := plugin.Column_IsArray col;
     ktType_IsNull := negb (plugin.Column_NotNull col);
     ktType_DataType := sdk_DataType (plugin.Column_Type col);
     ktType_Engine := Engine req |}.

(** *** Table structs *)

Definition buildDataClasses_table (req : plugin.CodeGenRequest)
  (schema : plugin.Schema) (table : plugin.Table) : Struct :=
  let settings := plugin.CodeGenRequest_Settings req in
  let rel := plugin.Identifier_Name (plugin.Table_Rel table) in
  let tableName :=
    if bool_decide (plugin.Schema_Name schema
                    = plugin.Catalog_DefaultSchema (plugin.CodeGenRequest_Catalog req))
    then rel
    else plugin.Schema_Name schema +:+ "_" +:+ rel in
  let structName := dataClassName tableName settings in
  let structName :=
    if negb (plugin.KotlinCode_EmitExactTableNames (plugin.Settings_Kotlin settings))
    then inflection_Singular structName
           (plugin.KotlinCode_InflectionExcludeTableNames (plugin.Settings_Kotlin settings))
    else structName in
  {| Struct_Table := plugin.mkIdentifier "" (plugin.Schema_Name schema) rel;
     Struct_Name := structName;
     Struct_Fields :=
       foldl (fun fields column =>
                fields ++ [mkField (memberName (plugin.Column_Name column) settings)
                             (makeType req column) (plugin.Column_Comment column)])
         [] (plugin.Table_Columns table);
     Struct_JDBCParamBindings := [];
     Struct_Comment := plugin.Table_Comment table |}.

Definition buildDataClasses (req : plugin.CodeGenRequest) : list Struct :=
  let structs :=
    foldl (fun structs schema =>
             if skipped_schema (plugin.Schema_Name schema) then structs
             else foldl (fun structs table => structs ++ [buildDataClasses_table req schema table])
                    structs (plugin.Schema_Tables schema))
      [] (plugin.Catalog_Schemas (plugin.CodeGenRequest_Catalog req)) in
  if bool_decide (0 < length structs)%nat
  then sort_Slice (by_name Struct_Name) structs
  else structs.

(** *** Query structs *)

(** The variables of the loop of [ktColumnsToStruct]: the struct under
    construction and the two maps [idSeen] and [nameSeen]. *)
Record ktColumnsToStruct_vars := mkVars {
  vars_gs : Struct;
  vars_idSeen : gmap Z Field;
  vars_nameSeen : gmap string Z
}.

Definition ktColumnsToStruct_init (name : string) : ktColumnsToStruct_vars :=
  mkVars (mkStruct Identifier_zero name [] [] "") ∅ ∅.

(** One iteration of the loop, for the column [c]. *)
Definition ktColumnsToStruct_step (req : plugin.CodeGenRequest)
  (namer : plugin.Column -> Z -> string)
  (st : ktColumnsToStruct_vars) (c : goColumn) : ktColumnsToStruct_vars :=
  let gs := vars_gs st in
  match vars_idSeen st !! goColumn_id c with
  | Some binding =>
      mkVars
        (mkStruct (Struct_Table gs) (Struct_Name gs) (Struct_Fields gs)
           (Struct_JDBCParamBindings gs ++ [binding]) (Struct_Comment gs))
        (vars_idSeen st) (vars_nameSeen st)
  | None =>
      let cname := plugin.Column_Name (goColumn_Column c) in
      let fieldName :=
        memberName (namer (goColumn_Column c) (goColumn_id c))
          (plugin.CodeGenRequest_Settings req) in
      let v := default 0 (vars_nameSeen st !! cname) in
      let fieldName :=
        if bool_decide (0 < v) then fieldName +:+ "_" +:+ fmt_d (v + 1) else fieldName in
      let field := mkField fieldName (makeType req (goColumn_Column c)) "" in
      mkVars
        (mkStruct (Struct_Table gs) (Struct_Name gs) (Struct_Fields gs ++ [field])
           (Struct_JDBCParamBindings gs ++ [field]) (Struct_Comment gs))
        (<[goColumn_id c := field]> (vars_idSeen st))
        (<[cname := v + 1]> (vars_nameSeen st))
  end.

Definition ktColumnsToStruct (req : plugin.CodeGenRequest) (name : string)
  (columns : list goColumn) (namer : plugin.Column -> Z -> string) : Struct :=
  vars_gs (foldl (ktColumnsToStruct_step req namer) (ktColumnsToStruct_init name) columns).

Definition ktArgName (name : string) : string :=
  match strings_Split name "_" with
  | [] => ""
  | p :: ps => foldl (fun out p => out +:+ strings_Title p) (strings_ToLower p) ps
  end.

Definition ktParamName (c : plugin.Column) (number : Z) : string :=
  if bool_decide (plugin.Column_Name c <> "") then ktArgName (plugin.Column_Name c)
  else "dollar_" +:+ fmt_d number.

Definition ktColumnName (c : plugin.Column) (pos : Z) : string :=
  if bool_decide (plugin.Column_Name c <> "") then plugin.Column_Name c
  else "column_" +:+ fmt_d (pos + 1).

(** *** Queries *)

(** The inner loop of the struct search in [buildQueries]: [same] after the
    loop over the fields of [s].  The loop runs only when [s] has as many
    fields as the query has columns, so [columns !! i] is never [None]. *)
Definition sameFields (req : plugin.CodeGenRequest) (columns : list plugin.Column)
  (s : Struct) : bool :=
  foldl (fun same '(i, f) =>
           match columns !! i with
           | Some c =>
               let sameName :=
                 bool_decide (Field_Name f
                              = memberName (ktColumnName c (Z.of_nat i))
                                  (plugin.CodeGenRequest_Settings req)) in
               let sameType := bool_decide (Field_Type f = makeType req c) in
               let sameTable :=
                 sdk_SameTableName (plugin.Column_Table c) (Struct_Table s)
                   (plugin.Catalog_DefaultSchema (plugin.CodeGenRequest_Catalog req)) in
               if negb sameName || negb sameType || negb sameTable then false else same
           | None => false
           end)
    true (imap (fun i f => (i, f)) (Struct_Fields s)).

(** Does the search stop at [s]? *)
Definition sameStruct (req : plugin.CodeGenRequest) (columns : list plugin.Column)
  (s : Struct) : bool :=
  bool_decide (length (Struct_Fields s) = length columns) && sameFields req columns s.

(** The return descriptor of a query, by the number of its columns. *)
Definition buildQueries_Ret (req : plugin.CodeGenRequest) (structs : list Struct)
  (className : string) (columns : list plugin.Column) : QueryValue :=
  match columns with
  | [] => QueryValue_zero
  | [c] => mkQueryValue false "results" None (makeType req c) 0
  | _ =>
      match find (sameStruct req columns) structs with
      | Some s => mkQueryValue false "results" (Some s) ktType_zero 0
      | None =>
          let columns' := imap (fun i c => mkGoColumn (Z.of_nat i) c) columns in
          let gs := ktColumnsToStruct req (className +:+ "Row") columns' ktColumnName in
          mkQueryValue true "results" (Some gs) ktType_zero 0
      end
  end.

(** The body of the loop of [buildQueries] for a query that is neither
    skipped nor refused. *)
Definition buildQueries_query (req : plugin.CodeGenRequest) (structs : list Struct)
  (query : plugin.Query) : Query :=
  let name := plugin.Query_Name query in
  let className := strings_Title name in
  let cols :=
    foldl (fun cols p =>
             cols ++ [mkGoColumn (plugin.Param_Number p) (plugin.Param_Column p)])
      [] (plugin.Query_Params query) in
  let params := ktColumnsToStruct req (className +:+ "Bindings") cols ktParamName in
  {| Query_ClassName := className;
     Query_Cmd := plugin.Query_Cmd query;
     Query_Comments := plugin.Query_Comments query;
     Query_MethodName := sdk_LowerTitle name;
     Query_FieldName := sdk_LowerTitle name +:+ "Stmt";
     Query_ConstantName := sdk_LowerTitle name;
     Query_SQL := jdbcSQL (plugin.Query_Text query) (Engine req);
     Query_SourceName := plugin.Query_Filename query;
     Query_Ret := buildQueries_Ret req structs className (plugin.Query_Columns query);
     Query_Arg := mkParams params |}.

(** The loop of [buildQueries]: [qs] holds the queries built so far. *)
Fixpoint buildQueries_loop (req : plugin.CodeGenRequest) (structs : list Struct)
  (queries : list plugin.Query) (qs : list Query) : result (list Query) :=
  match queries with
  | [] => Ok qs
  | query :: queries' =>
      if bool_decide (plugin.Query_Name query = "") then
        buildQueries_loop req structs queries' qs
      else if bool_decide (plugin.Query_Cmd query = "") then
        buildQueries_loop req structs queries' qs
      else if bool_decide (plugin.Query_Cmd query = metadata_CmdCopyFrom) then
        Err "Support for CopyFrom in Kotlin is not implemented"
      else
        buildQueries_loop req structs queries' (qs ++ [buildQueries_query req structs query])
  end.

Definition buildQueries (req : plugin.CodeGenRequest) (structs : list Struct)
  : result (list Query) :=
  match buildQueries_loop req structs (plugin.CodeGenRequest_Queries req) [] with
  | Err e => Err e
  | Ok qs => Ok (sort_Slice (by_name Query_MethodName) qs)
  end.

(** *** Output files *)

Definition newline : string := String "010" "".

Definition ktFormat (s : string) : string :=
  let '(_, lines) :=
    foldl (fun '(skipNextSpace, lines) l =>
             let isSpace := only_space l in
             (isSpace, if negb isSpace || negb skipNextSpace then lines ++ [l] else lines))
      (false, []) (strings_Split s newline) in
  strings_Join lines newline +:+ newline.

(** The closure [execute] of [Generate]: [output] is the map it fills. *)
Definition execute (i : importer) (tctx : ktTmplCtx) (output : gmap string string)
  (name : string) (t : template) : result (gmap string string) :=
  let tctx :=
    mkKtTmplCtx (ktTmplCtx_Q tctx) (ktTmplCtx_Package tctx) (ktTmplCtx_Enums tctx)
      (ktTmplCtx_DataClasses tctx) (ktTmplCtx_Queries tctx) (ktTmplCtx_Settings tctx)
      (ktTmplCtx_SqlcVersion tctx) name (ktTmplCtx_EmitJSONTags tctx)
      (ktTmplCtx_EmitPreparedQueries tctx) (ktTmplCtx_EmitInterface tctx) in
  match template_Execute t i tctx with
  | Err err => Err err
  | Ok b =>
      let name := if negb (strings_HasSuffix name ".kt") then name +:+ ".kt" else name in
      Ok (<[name := ktFormat b]> output)
  end.

(** [Generate] up to the map [output] of file names to file contents. *)
Definition Generate_output (req : plugin.CodeGenRequest) : result (gmap string string) :=
  let enums := buildEnums req in
  let structs := buildDataClasses req in
  match buildQueries req structs with
  | Err err => Err err
  | Ok queries =>
      let settings := plugin.CodeGenRequest_Settings req in
      let i := mkImporter settings enums structs queries in
      let tctx :=
        mkKtTmplCtx (String "034" (String "034" (String "034" "")))
          (plugin.KotlinCode_Package (plugin.Settings_Kotlin settings))
          enums structs queries settings (plugin.CodeGenRequest_SqlcVersion req)
          "" false false false in
      match execute i tctx ∅ "Models.kt" ktModelsTmpl with
      | Err err => Err err
      | Ok output =>
          match execute i tctx output "Queries.kt" ktIfaceTmpl with
          | Err err => Err err
          | Ok output =>
              match execute i tctx output "QueriesImpl.kt" ktSqlTmpl with
              | Err err => Err err
              | Ok output => Ok output
              end
          end
      end
  end.

(** [Generate] returns a response and an error, one of them nil.  The
    files of the response are appended while ranging over the map
    [output]; Go leaves the order of that iteration open, so the response
    may list the files in any order. *)
Inductive Generate (req : plugin.CodeGenRequest)
  : option plugin.CodeGenResponse * option error -> Prop :=
| Generate_err (err : error) :
    Generate_output req = Err err ->
    Generate req (None, Some err)
| Generate_resp (output : gmap string string) (files : list plugin.File) :
    Generate_output req = Ok output ->
    files ≡ₚ map (fun '(filename, code) => plugin.mkFile filename code) (map_to_list output) ->
    Generate req (Some (plugin.mkCodeGenResponse files), None).

End Generator.

(** ** A reference instance of [External]

    The theorems below hold for every instance of [External].  To run the
    generator on a concrete request, this instance fills the open places:
    the helpers of package [sdk] as their names and the specification
    describe them, insertion sort for [sort.Slice] (what Go runs on a slice
    of at most twelve elements), and stand-ins for the type tables, the
    singular form and the template engine. *)

Module Ref.

Fixpoint insert {A : Type} (less : A -> A -> bool) (x : A) (l : list A) : list A :=
  match l with
  | [] => [x]
  | y :: l' => if less x y then x :: l else y :: insert less x l'
  end.

Definition insertionSort {A : Type} (less : A -> A -> bool) (l : list A) : list A :=
  foldl (fun sorted x => insert less x sorted) [] l.

(** Lower-cases the first byte. *)
Definition LowerTitle (s : string) : string :=
  match s with
  | EmptyString => EmptyString
  | String c s' => String (to_lower c) s'
  end.

Definition DataType (n : plugin.Identifier) : string :=
  if bool_decide (plugin.Identifier_Schema n <> "")
  then plugin.Identifier_Schema n +:+ "." +:+ plugin.Identifier_Name n
  else plugin.Identifier_Name n.

(** Modelled from the spec: [sdk.SameTableName] is missing.  Section 4.4.1:
    the owning table of the column equals the owning table of the struct,
    an empty schema standing for the default schema. *)
Definition SameTableName (tableID : option plugin.Identifier) (f : plugin.Identifier)
  (defaultSchema : string) : bool :=
  match tableID with
  | None => false
  | Some t =>
      let schema :=
        if bool_decide (plugin.Identifier_Schema t = "") then defaultSchema
        else plugin.Identifier_Schema t in
      bool_decide (plugin.Identifier_Catalog t = plugin.Identifier_Catalog f)
      && bool_decide (schema = plugin.Identifier_Schema f)
      && bool_decide (plugin.Identifier_Name t = plugin.Identifier_Name f)
  end.

(** A stand-in for [inflection.Singular]: drops one final [s] unless the
    name is excluded. *)
Definition Singular (name : string) (exclusions : list string) : string :=
  if bool_decide (name ∈ exclusions) then name
  else
    match String.rev name with
    | String "s" r => String.rev r
    | _ => name
    end.

(** The enum of the catalog that a raw type names, as a class name. *)
Definition enumType (req : plugin.CodeGenRequest) (columnType : string)
  : option (string * bool) :=
  let catalog := plugin.CodeGenRequest_Catalog req in
  let settings := plugin.CodeGenRequest_Settings req in
  foldl (fun found schema =>
           foldl (fun found enum =>
                    match found with
                    | Some _ => found
                    | None =>
                        if bool_decide (columnType = plugin.Enum_Name enum) then
                          if bool_decide (plugin.Schema_Name schema
                                          = plugin.Catalog_DefaultSchema catalog)
                          then Some (dataClassName (plugin.Enum_Name enum) settings, true)
                          else Some (dataClassName (plugin.Schema_Name schema +:+ "_"
                                                    +:+ plugin.Enum_Name enum) settings, true)
                        else None
                    end)
             found (plugin.Schema_Enums schema))
    None (plugin.Catalog_Schemas catalog).

(** Stand-ins for the type tables, with the types of the end-to-end
    example of the specification. *)
Definition postgres (req : plugin.CodeGenRequest) (t : plugin.Identifier)
  : option (string * bool) :=
  let columnType := DataType t in
  if bool_decide (columnType = "uuid") then Some ("UUID", false)
  else if bool_decide (columnType = "text") then Some ("String", false)
  else if bool_decide (columnType = "integer") then Some ("Int", false)
  else enumType req columnType.

Definition mysql (req : plugin.CodeGenRequest) (t : plugin.Identifier)
  : option (string * bool) :=
  let columnType := DataType t in
  if bool_decide (columnType = "text") then Some ("String", false)
  else if bool_decide (columnType = "int") then Some ("Int", false)
  else enumType req columnType.

(** A stand-in for the template engine: it renders the first line of the
    templates and never fails. *)
Definition Execute (t : template) (i : importer) (tctx : ktTmplCtx) : result string :=
  Ok ("// Code generated by sqlc. DO NOT EDIT." +:+ newline).

Definition external : External := {|
  sort_Slice := @insertionSort;
  sdk_LowerTitle := LowerTitle;
  sdk_DataType := DataType;
  sdk_SameTableName := SameTableName;
  inflection_Singular := Singular;
  metadata_CmdCopyFrom := ":copyfrom";
  mysqlTable := mysql;
  postgresTable := postgres;
  template_Execute := Execute
|}.

(** *** Requests *)

Definition ident (name : string) : plugin.Identifier := plugin.mkIdentifier "" "" name.

Definition column (name type : string) (notNull : bool) (table : option plugin.Identifier)
  : plugin.Column :=
  plugin.mkColumn name notNull false "" table (ident type).

Definition settings (engine : string) : plugin.Settings :=
  plugin.mkSettings engine ∅ (plugin.mkKotlinCode false [] "com.example").

Definition request (engine : string) (schemas : list plugin.Schema)
  (queries : list plugin.Query) : plugin.CodeGenRequest :=
  plugin.mkCodeGenRequest (settings engine) (plugin.mkCatalog "public" schemas) queries "v1".

(** The end-to-end example of the specification: table [users] and enum
    [user_status]. *)
Definition users : option plugin.Identifier := Some (plugin.mkIdentifier "" "public" "users").

Definition users_columns : list plugin.Column :=
  [column "id" "uuid" true users; column "email" "text" false users;
   column "status" "user_status" true users].

Definition users_table : plugin.Table :=
  plugin.mkTable (plugin.mkIdentifier "" "" "users") users_columns "".

Definition users_schema : plugin.Schema :=
  plugin.mkSchema "public" [users_table]
    [plugin.mkEnum "user_status" ["active"; "inactive"] ""].

Definition get_users : plugin.Query :=
  plugin.mkQuery "SELECT id, email, status FROM users WHERE id = $1" "GetUsers" ":one"
    users_columns [plugin.mkParam 1 (column "id" "uuid" true users)] [] "query.sql".

Definition users_request : plugin.CodeGenRequest :=
  request "postgresql" [users_schema] [get_users].

End Ref.

(** ** Definitions that follow the words of the specification *)

(** Section 4.3: the separators [-], [:] and [/] become an underscore,
    every remaining character outside [[A-Za-z0-9_]] is dropped, and the
    result is upper-cased. *)
Definition separator_to_underscore (c : ascii) : ascii :=
  if bool_decide (c = "-"%char) || bool_decide (c = ":"%char) || bool_decide (c = "/"%char)
  then "_"%char else c.

Definition enum_identifier (raw : string) : string :=
  string_map to_upper (string_filter is_word (string_map separator_to_underscore raw)).

(** The last byte of [s] is a word character; the first byte of [s] is. *)
Fixpoint ends_with_word (s : string) : bool :=
  match s with
  | EmptyString => false
  | String c EmptyString => is_word c
  | String _ s' => ends_with_word s'
  end.

Definition starts_with_word (s : string) : bool :=
  match s with
  | EmptyString => false
  | String c _ => is_word c
  end.

(** Whether the byte before the text that follows [pre] is a word
    character, when the byte before [pre] is one iff [prev_word]. *)
Definition word_before (prev_word : bool) (pre : string) : bool :=
  match pre with
  | EmptyString => prev_word
  | _ => ends_with_word pre
  end.

(** The queries that the loop of [buildQueries] does not skip. *)
Definition kept_query (query : plugin.Query) : bool :=
  negb (bool_decide (plugin.Query_Name query = ""))
  && negb (bool_decide (plugin.Query_Cmd query = "")).

(** The error of [buildQueries]. *)
Definition CopyFrom_unsupported : error :=
  "Support for CopyFrom in Kotlin is not implemented".

(** Section 4.4.1, the match of a list of result columns with a struct:
    as many fields as columns, and at every position the same field name,
    the same type descriptor, and the table of the column the same as the
    table of the struct (as [sdk.SameTableName] compares them, given the
    default schema). *)
Definition matches_struct `{E : External} (req : plugin.CodeGenRequest)
  (columns : list plugin.Column) (s : Struct) : Prop :=
  length (Struct_Fields s) = length columns
  /\ forall (i : nat) (f : Field) (c : plugin.Column),
       Struct_Fields s !! i = Some f ->
       columns !! i = Some c ->
       Field_Name f = memberName (ktColumnName c (Z.of_nat i)) (plugin.CodeGenRequest_Settings req)
       /\ Field_Type f = makeType req c
       /\ sdk_SameTableName (plugin.Column_Table c) (Struct_Table s)
            (plugin.Catalog_DefaultSchema (plugin.CodeGenRequest_Catalog req)) = true.

(** The columns that [buildQueries] hands to [ktColumnsToStruct] for the
    parameters of a query, and for its result columns. *)
Definition param_columns (params : list plugin.Param) : list goColumn :=
  map (fun p => mkGoColumn (plugin.Param_Number p) (plugin.Param_Column p)) params.

Definition result_columns (columns : list plugin.Column) : list goColumn :=
  imap (fun i c => mkGoColumn (Z.of_nat i) c) columns.

(** ** Reading the loop of [ktColumnsToStruct] *)

(** The columns at the first usage of their number, in order. *)
Definition first_usages (columns : list goColumn) : list goColumn :=
  foldl (fun firsts c =>
           if bool_decide (goColumn_id c ∈ map goColumn_id firsts) then firsts
           else firsts ++ [c])
    [] columns.

(** How many of the columns [cs] carry the column name [name]. *)
Definition named (name : string) (cs : list goColumn) : Z :=
  Z.of_nat (length (List.filter
                      (fun c => bool_decide (plugin.Column_Name (goColumn_Column c) = name))
                      cs)).

(** The field name after [v] earlier fields of the same column name: the
    second such field gets the suffix [_2], the third [_3], and so on. *)
Definition suffixed (fieldName : string) (v : Z) : string :=
  if bool_decide (0 < v) then fieldName +:+ "_" +:+ fmt_d (v + 1) else fieldName.

(** The field that the column [c] creates as the [k]-th of the first
    usages [firsts]. *)
Definition field_of `{E : External} (req : plugin.CodeGenRequest)
  (namer : plugin.Column -> Z -> string) (firsts : list goColumn) (k : nat) (c : goColumn)
  : Field :=
  mkField
    (suffixed (memberName (namer (goColumn_Column c) (goColumn_id c))
                 (plugin.CodeGenRequest_Settings req))
       (named (plugin.Column_Name (goColumn_Column c)) (take k firsts)))
    (makeType req (goColumn_Column c)) "".

(** The state of the loop after the columns [done]. *)
Record loop_inv `{E : External} (req : plugin.CodeGenRequest)
  (namer : plugin.Column -> Z -> string) (name : string) (done : list goColumn)
  (st : ktColumnsToStruct_vars) : Prop := {
  inv_Table : Struct_Table (vars_gs st) = Identifier_zero;
  inv_Name : Struct_Name (vars_gs st) = name;
  inv_Comment : Struct_Comment (vars_gs st) = "";
  inv_Fields :
    Struct_Fields (vars_gs st)
    = imap (field_of req namer (first_usages done)) (first_usages done);
  inv_idSeen :
    forall k c, first_usages done !! k = Some c ->
      vars_idSeen st !! goColumn_id c = Some (field_of req namer (first_usages done) k c);
  inv_idSeen_None :
    forall x, vars_idSeen st !! x = None <-> x ∉ map goColumn_id (first_usages done);
  inv_nameSeen :
    forall n, default 0 (vars_nameSeen st !! n) = named n (first_usages done);
  inv_Bindings_length : length (Struct_JDBCParamBindings (vars_gs st)) = length done;
  inv_Bindings :
    forall i c, done !! i = Some c ->
      exists f, Struct_JDBCParamBindings (vars_gs st) !! i = Some f
                /\ vars_idSeen st !! goColumn_id c = Some f
}.

(** ** Requests for the cases below *)

Module Cases.

(** The struct of table [users] and the query of the end-to-end example,
    built. *)
Definition User : Struct :=
  buildDataClasses_table (E:=Ref.external) Ref.users_request Ref.users_schema Ref.users_table.

Definition GetUsers : Query :=
  buildQueries_query (E:=Ref.external) Ref.users_request [User] Ref.get_users.

(** A bulk copy that carries no name. *)
Definition unnamed_copy : plugin.CodeGenRequest :=
  Ref.request "postgresql" []
    [plugin.mkQuery "INSERT INTO t (a) VALUES ($1)" "" ":copyfrom" [] [] [] "query.sql"].

(** A bulk copy after an ordinary query. *)
Definition named_copy : plugin.Query :=
  plugin.mkQuery "INSERT INTO users (id) VALUES ($1)" "CopyUsers" ":copyfrom" []
    [plugin.mkParam 1 (Ref.column "id" "uuid" true Ref.users)] [] "query.sql".

Definition copy_request : plugin.CodeGenRequest :=
  Ref.request "postgresql" [Ref.users_schema] [Ref.get_users; named_copy].

(** A table of one column and the query that selects it. *)
Definition t : option plugin.Identifier := Some (plugin.mkIdentifier "" "public" "t").

Definition t_schema : plugin.Schema :=
  plugin.mkSchema "public"
    [plugin.mkTable (plugin.mkIdentifier "" "" "t") [Ref.column "a" "text" true t] ""] [].

Definition get_a : plugin.Query :=
  plugin.mkQuery "SELECT a FROM t" "GetA" ":many" [Ref.column "a" "text" true t] [] []
    "query.sql".

Definition one_column_request : plugin.CodeGenRequest :=
  Ref.request "postgresql" [t_schema] [get_a].

Definition T : Struct :=
  buildDataClasses_table (E:=Ref.external) one_column_request t_schema
    (plugin.mkTable (plugin.mkIdentifier "" "" "t") [Ref.column "a" "text" true t] "").

(** A table with two columns whose names give the same member name, and a
    query that selects two such columns. *)
Definition clash_columns (table : option plugin.Identifier) : list plugin.Column :=
  [Ref.column "a_b" "text" true table; Ref.column "aB" "text" true table].

Definition clash_table : plugin.Table :=
  plugin.mkTable (plugin.mkIdentifier "" "" "t") (clash_columns t) "".

Definition clash_schema : plugin.Schema := plugin.mkSchema "public" [clash_table] [].

Definition get_clash : plugin.Query :=
  plugin.mkQuery "SELECT x.a_b, y.aB FROM x, y" "GetClash" ":many" (clash_columns None) []
    [] "query.sql".

(** Two result columns of the same name, from two tables. *)
Definition two_ids : list plugin.Column :=
  [Ref.column "id" "uuid" true Ref.users;
   Ref.column "id" "integer" true (Some (plugin.mkIdentifier "" "public" "orders"))].

Definition two_ids_row : Struct :=
  ktColumnsToStruct (E:=Ref.external) Ref.users_request "GetOrdersRow"
    (result_columns two_ids) ktColumnName.

(** A query that uses parameter 1 three times and parameter 2 once. *)
Definition four_usages : plugin.Query :=
  plugin.mkQuery "SELECT id FROM users WHERE id = $1 OR (email = $2 AND id <> $1) OR $1 IS NULL"
    "FindUser" ":one" [Ref.column "id" "uuid" true Ref.users]
    [plugin.mkParam 1 (Ref.column "id" "uuid" true Ref.users);
     plugin.mkParam 2 (Ref.column "email" "text" false Ref.users);
     plugin.mkParam 1 (Ref.column "id" "uuid" true Ref.users);
     plugin.mkParam 1 (Ref.column "" "uuid" true None)]
    [] "query.sql".

Definition clash_request : plugin.CodeGenRequest :=
  Ref.request "postgresql" [clash_schema] [get_clash].

End Cases.

(** ** Rendering helpers

    The functions that the templates call on the descriptors.
    [fmt.Sprintf] is spelled out: [%d] is [fmt_d], [%s] the string. *)

Definition dquote : string := String "034" "".

(** [n] spaces, as the inner loop of [indent] writes them. *)
Fixpoint spaces (n : nat) : string :=
  match n with
  | O => ""
  | S k => String " " (spaces k)
  end.

(** The indentation of line [i] in [indent]; a negative count writes
    nothing. *)
Definition indent_of (n firstIndent : Z) (i : nat) : nat :=
  Z.to_nat (if bool_decide (i = 0%nat) && negb (bool_decide (firstIndent = -1))
            then firstIndent else n).

Definition indent (s : string) (n firstIndent : Z) : string :=
  let lines := strings_Split s newline in
  foldl (fun buf '(i, l) =>
           let buf := if bool_decide (i <> 0%nat) then buf +:+ newline else buf in
           buf +:+ spaces (indent_of n firstIndent i) +:+ l)
    "" (imap (fun i l => (i, l)) lines).

Definition jdbcSet (t : ktType) (idx : Z) (name : string) : string :=
  if ktType_IsEnum t && ktType_IsArray t then
    "stmt.setArray(" +:+ fmt_d idx +:+ ", conn.createArrayOf(" +:+ dquote
    +:+ ktType_DataType t +:+ dquote +:+ ", " +:+ name
    +:+ ".map { v -> v.value }.toTypedArray()))"
  else if ktType_IsEnum t then
    if bool_decide (ktType_Engine t = "postgresql")
    then "stmt.setObject(" +:+ fmt_d idx +:+ ", " +:+ name +:+ ".value, " +:+ "Types.OTHER"
         +:+ ")"
    else "stmt.setString(" +:+ fmt_d idx +:+ ", " +:+ name +:+ ".value)"
  else if ktType_IsArray t then
    "stmt.setArray(" +:+ fmt_d idx +:+ ", conn.createArrayOf(" +:+ dquote
    +:+ ktType_DataType t +:+ dquote +:+ ", " +:+ name +:+ ".toTypedArray()))"
  else if ktType_IsTime t then
    "stmt.setObject(" +:+ fmt_d idx +:+ ", " +:+ name +:+ ")"
  else if ktType_IsInstant t then
    "stmt.setTimestamp(" +:+ fmt_d idx +:+ ", Timestamp.from(" +:+ name +:+ "))"
  else if ktType_IsUUID t then
    "stmt.setObject(" +:+ fmt_d idx +:+ ", " +:+ name +:+ ")"
  else
    "stmt.set" +:+ ktType_Name t +:+ "(" +:+ fmt_d idx +:+ ", " +:+ name +:+ ")".

Definition jdbcGet (t : ktType) (idx : Z) : string :=
  if ktType_IsEnum t && ktType_IsArray t then
    "(results.getArray(" +:+ fmt_d idx +:+ ").array as Array<String>).map { v -> "
    +:+ ktType_Name t +:+ ".lookup(v)!! }.toList()"
  else if ktType_IsEnum t then
    ktType_Name t +:+ ".lookup(results.getString(" +:+ fmt_d idx +:+ "))!!"
  else if ktType_IsArray t then
    "(results.getArray(" +:+ fmt_d idx +:+ ").array as Array<" +:+ ktType_Name t
    +:+ ">).toList()"
  else if ktType_IsTime t then
    "results.getObject(" +:+ fmt_d idx +:+ ", " +:+ ktType_Name t +:+ "::class.java)"
  else if ktType_IsInstant t then
    "results.getTimestamp(" +:+ fmt_d idx +:+ ").toInstant()"
  else if ktType_IsUUID t then
    let nullCast := if ktType_IsNull t then "?" else "" in
    "results.getObject(" +:+ fmt_d idx +:+ ") as" +:+ nullCast +:+ " " +:+ ktType_Name t
  else
    "results.get" +:+ ktType_Name t +:+ "(" +:+ fmt_d idx +:+ ")".

Definition Params_Args (v : Params) : string :=
  if Params_isEmpty v then ""
  else
    let out :=
      foldl (fun out f => out ++ [Field_Name f +:+ ": " +:+ ktType_String (Field_Type f)])
        [] (Struct_Fields (Params_Struct v)) in
    if bool_decide (length out < 3)%nat then strings_Join out ", "
    else newline +:+ indent (strings_Join out ("," +:+ newline)) 6 (-1).

Definition Params_Bindings (v : Params) : string :=
  if Params_isEmpty v then ""
  else
    let out :=
      foldl (fun out '(i, f) => out ++ [jdbcSet (Field_Type f) (Z.of_nat i + 1) (Field_Name f)])
        [] (imap (fun i f => (i, f)) (Struct_JDBCParamBindings (Params_Struct v))) in
    indent (strings_Join out newline) 10 0.

Definition QueryValue_ResultSet (v : QueryValue) : string :=
  match QueryValue_Struct v with
  | None => jdbcGet (QueryValue_Typ v) 1
  | Some s =>
      let out :=
        foldl (fun out '(i, f) => out ++ [jdbcGet (Field_Type f) (Z.of_nat i + 1)])
          [] (imap (fun i f => (i, f)) (Struct_Fields s)) in
      let ret := indent (strings_Join out ("," +:+ newline)) 4 (-1) in
      indent (Struct_Name s +:+ "(" +:+ newline +:+ ret +:+ newline +:+ ")") 12 0
  end.

(** ** Reading [ktFormat] *)

(** A string without the byte [a]. *)
Definition without (a : ascii) (s : string) : bool :=
  string_forallb (fun c => negb (bool_decide (c = a))) s.

(** The lines that the loop of [ktFormat] keeps; [skipNextSpace] as in the
    loop. *)
Fixpoint squeeze (skipNextSpace : bool) (lines : list string) : list string :=
  match lines with
  | [] => []
  | l :: rest =>
      let isSpace := only_space l in
      (if negb isSpace || negb skipNextSpace then [l] else []) ++ squeeze isSpace rest
  end.



(** ** Reading the rendered text *)

(** What follows element [i] of [n] elements joined by a comma and a
    newline, on its line: a comma, but for the last element. *)
Definition comma (i n : nat) : string :=
  if bool_decide (S i = n) then "" else ",".

(** ** Reading the names *)

(** The bytes of an enum constant: upper-case letters, digits and the
    underscore. *)
Definition is_constant_byte (c : ascii) : bool :=
  is_upper c || is_digit c || bool_decide (c = "_"%char).

(** ** Reading the builders *)

(** The structs of the tables of the catalog, schema by schema, before
    they are sorted; the enums likewise. *)
Definition catalog_structs `{E : External} (req : plugin.CodeGenRequest) : list Struct :=
  flat_map (fun schema =>
              if skipped_schema (plugin.Schema_Name schema) then []
              else map (buildDataClasses_table req schema) (plugin.Schema_Tables schema))
    (plugin.Catalog_Schemas (plugin.CodeGenRequest_Catalog req)).

Definition catalog_enums (req : plugin.CodeGenRequest) : list Enum :=
  flat_map (fun schema =>
              if skipped_schema (plugin.Schema_Name schema) then []
              else map (buildEnums_enum req schema) (plugin.Schema_Enums schema))
    (plugin.Catalog_Schemas (plugin.CodeGenRequest_Catalog req)).

(** * Properties *)

Example strings_Replace_ex : strings_Replace "a-b--c" "-" "_" = "a_b__c".
Proof. reflexivity. Qed.
Example strings_Split_ex : strings_Split "foo_bar__" "_" = ["foo"; "bar"; ""; ""].
Proof. reflexivity. Qed.
Example strings_Split_empty : strings_Split "" "_" = [""].
Proof. reflexivity. Qed.
Example strings_Title_ex : strings_Title "get users-by_id" = "Get Users-By_id".
Proof. reflexivity. Qed.
Example strings_HasSuffix_ex : strings_HasSuffix "Models.kt" ".kt" = true.
Proof. reflexivity. Qed.
Example only_space_ex : only_space (String " " (String "009" "")) = true.
Proof. reflexivity. Qed.
Example fmt_d_ex : fmt_d 12 = "12" /\ fmt_d (-3) = "-3".
Proof. split; reflexivity. Qed.
Example ktEnumValueName_ex1 : ktEnumValueName "in-progress" = "IN_PROGRESS".
Proof. reflexivity. Qed.
Example ktEnumValueName_ex2 : ktEnumValueName "a b.c" = "ABC".
Proof. reflexivity. Qed.
Example jdbcSQL_ex1 :
  jdbcSQL "SELECT * FROM t WHERE a = $1 AND b = $12" "postgresql"
  = "SELECT * FROM t WHERE a = ? AND b = ?".
Proof. reflexivity. Qed.
Example jdbcSQL_ex2 : jdbcSQL "a$1 $2x $3$4 ($5)" "postgresql" = "a$1 $2x ?$4 (?)".
Proof. reflexivity. Qed.
Example jdbcSQL_ex3 : jdbcSQL "WHERE a = $1" "mysql" = "WHERE a = $1".
Proof. reflexivity. Qed.

(** ** Loops that append *)

Lemma foldl_snoc_map {A B : Type} (f : A -> B) (l : list A) (init : list B) :
  foldl (fun acc x => acc ++ [f x]) init l = init ++ map f l.
Proof.
  revert init. induction l as [|x l IH]; intros init; simpl.
  - by rewrite app_nil_r.
  - by rewrite IH, <- app_assoc.
Qed.

(** ** Enum constants *)

Lemma prefix_empty (s : string) : String.prefix "" s = true.
Proof. by destruct s. Qed.

Lemma strings_Replace_byte (a b : ascii) (s : string) :
  strings_Replace s (String a "") (String b "")
  = string_map (fun x => if bool_decide (x = a) then b else x) s.
Proof.
  unfold strings_Replace. induction s as [|c s IH]; [done|].
  cbn [strings_Replace_go string_map String.prefix String.length].
  destruct (ascii_dec a c) as [->|Hne].
  - rewrite bool_decide_eq_true_2 by done.
    rewrite prefix_empty. change (1 - 1)%nat with 0%nat. by rewrite IH.
  - rewrite bool_decide_eq_false_2 by congruence. by rewrite IH.
Qed.

Lemma ktIdentPattern_delete (inrun : bool) (s : string) :
  ktIdentPattern_ReplaceAllString_go "" inrun s = string_filter is_word s.
Proof.
  revert inrun. induction s as [|c s IH]; intros inrun; [done|].
  simpl. destruct (is_word c); [by rewrite IH|].
  destruct inrun; simpl; by rewrite IH.
Qed.

Lemma string_map_map (f g : ascii -> ascii) (s : string) :
  string_map g (string_map f s) = string_map (fun c => g (f c)) s.
Proof. induction s as [|c s IH]; [done|]. simpl. by rewrite IH. Qed.

Lemma string_map_ext (f g : ascii -> ascii) (s : string) :
  (forall c, f c = g c) -> string_map f s = string_map g s.
Proof. intros Hfg. induction s as [|c s IH]; [done|]. simpl. by rewrite Hfg, IH. Qed.

Lemma ktEnumValueName_enum_identifier (raw : string) :
  ktEnumValueName raw = enum_identifier raw.
Proof.
  unfold ktEnumValueName, enum_identifier, strings_ToUpper, ktIdentPattern_ReplaceAllString.
  rewrite !strings_Replace_byte, ktIdentPattern_delete, !string_map_map.
  do 2 f_equal. apply string_map_ext. intros c. unfold separator_to_underscore.
  repeat case_bool_decide; simplify_eq; done.
Qed.

(** What reaches [strings.ToUpper] in [ktEnumValueName] is ASCII, where the
    model of [strings.ToUpper] is exact. *)
Lemma string_filter_forallb (p : ascii -> bool) (s : string) :
  string_forallb p (string_filter p s) = true.
Proof.
  induction s as [|c s IH]; [done|]. simpl.
  destruct (p c) eqn:Hc; [|done]. simpl. by rewrite Hc, IH.
Qed.

(** C7: the identifier of an enum constant is the raw value with [-], [:]
    and [/] replaced by [_], every other character outside [[A-Za-z0-9_]]
    deleted, and the rest upper-cased; the constants of a built enum store
    the raw values unchanged, in order; ["foo-bar:baz/qux"] yields
    [FOO_BAR_BAZ_QUX]. *)
Theorem enum_constant_identifier `{E : External} :
  (forall raw : string, ktEnumValueName raw = enum_identifier raw)
  /\ (forall req schema enum,
        let e := buildEnums_enum req schema enum in
        map Constant_Value (Enum_Constants e) = plugin.Enum_Vals enum
        /\ map Constant_Name (Enum_Constants e)
           = map enum_identifier (plugin.Enum_Vals enum)
        /\ Forall (fun c => Constant_Name c = enum_identifier (Constant_Value c))
             (Enum_Constants e))
  /\ ktEnumValueName "foo-bar:baz/qux" = "FOO_BAR_BAZ_QUX".
Proof.
  split; [exact ktEnumValueName_enum_identifier|]. split; [|reflexivity].
  intros req schema enum e. subst e. unfold buildEnums_enum. cbn [Enum_Constants].
  rewrite foldl_snoc_map, app_nil_l, !map_map. cbn [Constant_Value Constant_Name].
  split; [apply map_id|]. split.
  - apply map_ext. intros v. apply ktEnumValueName_enum_identifier.
  - apply Forall_forall. intros c [v [<- _]]%list_elem_of_In%in_map_iff. cbn.
    apply ktEnumValueName_enum_identifier.
Qed.

(** ** Placeholder rewriting *)

Lemma append_cons (c : ascii) (s r : string) : String c s +:+ r = String c (s +:+ r).
Proof. reflexivity. Qed.

Lemma append_empty (r : string) : "" +:+ r = r.
Proof. reflexivity. Qed.

Lemma is_digit_is_word (c : ascii) : is_digit c = true -> is_word c = true.
Proof. unfold is_word. intros ->. by rewrite orb_true_r. Qed.

Lemma not_word_not_digit (c : ascii) : is_word c = false -> is_digit c = false.
Proof. destruct (is_digit c) eqn:Hd; [|done]. by rewrite is_digit_is_word. Qed.

Lemma placeholder_digits_not_word (s : string) :
  starts_with_word s = false -> placeholder_digits s = None.
Proof. destruct s as [|c s]; [done|]. simpl. by intros ->%not_word_not_digit. Qed.

Lemma placeholder_digits_le (s : string) (n : nat) :
  placeholder_digits s = Some n -> (n <= String.length s)%nat.
Proof.
  revert n. induction s as [|c s IH]; intros n; [done|]. simpl.
  destruct (is_digit c); [|done].
  destruct (placeholder_digits s) as [m|].
  - intros [= <-]. specialize (IH m eq_refl). simpl. lia.
  - destruct s as [|c' s']; [intros [= <-]; simpl; lia|].
    destruct (is_word c'); [done|]. intros [= <-]. simpl. lia.
Qed.

(** Text that follows and does not start with a word character leaves the
    placeholders before it as they are. *)
Lemma placeholder_digits_app (s rest : string) :
  starts_with_word rest = false ->
  s <> "" ->
  placeholder_digits (s +:+ rest) = placeholder_digits s.
Proof.
  intros Hrest. induction s as [|c s IH]; [done|]. intros _.
  rewrite ?append_cons, ?append_empty; cbn [placeholder_digits].
  destruct (is_digit c); [|done].
  destruct s as [|c' s'].
  - rewrite ?append_cons, ?append_empty; cbn [placeholder_digits].
    rewrite (placeholder_digits_not_word rest Hrest).
    destruct rest as [|c' rest']; [done|]. simpl in Hrest. by rewrite Hrest.
  - rewrite IH by done. done.
Qed.

(** The digits of a placeholder, followed by text that does not start
    with a word character. *)
Lemma placeholder_digits_run (ds post : string) :
  ds <> "" ->
  string_forallb is_digit ds = true ->
  starts_with_word post = false ->
  placeholder_digits (ds +:+ post) = Some (String.length ds).
Proof.
  intros Hne Hds Hpost. induction ds as [|d ds IH]; [done|].
  simpl in Hds. apply andb_prop in Hds as [Hd Hds].
  rewrite ?append_cons, ?append_empty; cbn [placeholder_digits String.length]. rewrite Hd.
  destruct ds as [|d' ds'].
  - rewrite ?append_cons, ?append_empty; cbn [String.length].
    rewrite (placeholder_digits_not_word post Hpost).
    destruct post as [|c post']; [done|]. simpl in Hpost. by rewrite Hpost.
  - by rewrite IH.
Qed.

Lemma skip_digits (ds post : string) (prev_word : bool) :
  ds <> "" ->
  string_forallb is_digit ds = true ->
  postgresPlaceholderRegexp_ReplaceAllString_go (String.length ds) prev_word (ds +:+ post)
  = postgresPlaceholderRegexp_ReplaceAllString_go O true post.
Proof.
  intros Hne Hds. revert prev_word. induction ds as [|d ds IH]; [done|].
  intros prev_word. simpl in Hds. apply andb_prop in Hds as [Hd Hds].
  rewrite ?append_cons, ?append_empty; cbn [String.length postgresPlaceholderRegexp_ReplaceAllString_go].
  destruct ds as [|d' ds'].
  - rewrite ?append_cons, ?append_empty; cbn [String.length]. by rewrite is_digit_is_word.
  - by rewrite IH.
Qed.

Lemma rewrite_app (pre rest : string) (skip : nat) (prev_word : bool) :
  starts_with_word rest = false ->
  (skip <= String.length pre)%nat ->
  postgresPlaceholderRegexp_ReplaceAllString_go skip prev_word (pre +:+ rest)
  = postgresPlaceholderRegexp_ReplaceAllString_go skip prev_word pre
    +:+ postgresPlaceholderRegexp_ReplaceAllString_go O (word_before prev_word pre) rest.
Proof.
  intros Hrest. revert skip prev_word.
  induction pre as [|c pre IH]; intros skip prev_word Hskip.
  { simpl in Hskip. by replace skip with O by lia. }
  assert (Hwb : forall b, word_before b (String c pre) = word_before (is_word c) pre).
  { intros b. by destruct pre. }
  rewrite Hwb.
  rewrite ?append_cons, ?append_empty; cbn [postgresPlaceholderRegexp_ReplaceAllString_go].
  destruct skip as [|k].
  - destruct pre as [|c' pre'].
    + rewrite ?append_cons, ?append_empty. rewrite (placeholder_digits_not_word rest Hrest).
      cbn [placeholder_digits].
      replace (if bool_decide (c = "$"%char) && negb prev_word then None else None)
        with (@None nat) by (by destruct (_ && _)).
      by rewrite (IH O) by (simpl; lia).
    + rewrite placeholder_digits_app by done.
      destruct (if bool_decide (c = "$"%char) && negb prev_word
                then placeholder_digits (String c' pre') else None) as [n|] eqn:Hn.
      * assert (placeholder_digits (String c' pre') = Some n) as Hle.
        { destruct (_ && _); [done|discriminate]. }
        apply placeholder_digits_le in Hle.
        assert (is_word c = false) as Hc.
        { destruct (bool_decide (c = "$"%char)) eqn:Hdollar; [|done].
          apply bool_decide_eq_true in Hdollar as ->. done. }
        rewrite (IH n false) by done. by rewrite Hc.
      * by rewrite (IH O) by lia.
  - simpl in Hskip. by rewrite (IH k) by lia.
Qed.

Lemma rewrite_no_dollar (s : string) (prev_word : bool) :
  string_forallb (fun c => negb (bool_decide (c = "$"%char))) s = true ->
  postgresPlaceholderRegexp_ReplaceAllString_go O prev_word s = s.
Proof.
  revert prev_word. induction s as [|c s IH]; intros prev_word; [done|].
  simpl. intros [Hc Hs]%andb_prop. apply negb_true_iff in Hc. rewrite Hc. simpl.
  by rewrite IH.
Qed.

(** C8: for engine [postgresql] a dollar sign followed by digits, standing
    between bytes that are no word characters, is replaced by [?] wherever
    it stands, string literals included, and the text before it is
    rewritten as it would be alone; text without a dollar sign is left
    alone; for every other engine the text is returned unchanged. *)
Theorem jdbcSQL_placeholders :
  (forall pre ds post : string,
     ends_with_word pre = false ->
     ds <> "" ->
     string_forallb is_digit ds = true ->
     starts_with_word post = false ->
     jdbcSQL (pre +:+ String "$" (ds +:+ post)) "postgresql"
     = jdbcSQL pre "postgresql"
       +:+ String "?" (postgresPlaceholderRegexp_ReplaceAllString_go O true post))
  /\ (forall s : string,
        string_forallb (fun c => negb (bool_decide (c = "$"%char))) s = true ->
        jdbcSQL s "postgresql" = s)
  /\ jdbcSQL "SELECT '$1' FROM t WHERE id = $2 AND n > $10" "postgresql"
     = "SELECT '?' FROM t WHERE id = ? AND n > ?"
  /\ (forall s engine : string, engine <> "postgresql" -> jdbcSQL s engine = s).
Proof.
  split; [|split; [|split]].
  - intros pre ds post Hpre Hne Hds Hpost.
    unfold jdbcSQL. rewrite bool_decide_eq_true_2 by done.
    unfold postgresPlaceholderRegexp_ReplaceAllString.
    rewrite rewrite_app by (done || lia). f_equal.
    assert (word_before false pre = false) as -> by (by destruct pre).
    cbn [postgresPlaceholderRegexp_ReplaceAllString_go].
    rewrite bool_decide_eq_true_2 by done. cbn [andb negb].
    rewrite placeholder_digits_run by done. f_equal.
    by apply skip_digits.
  - intros s Hs. unfold jdbcSQL. rewrite bool_decide_eq_true_2 by done.
    by apply rewrite_no_dollar.
  - reflexivity.
  - intros s engine Hne. unfold jdbcSQL. by rewrite bool_decide_eq_false_2.
Qed.

Lemma jdbcSQL_placeholders_witness :
  jdbcSQL ("a = '" +:+ String "$" ("12" +:+ "' AND b")) "postgresql"
  = jdbcSQL "a = '" "postgresql"
    +:+ String "?" (postgresPlaceholderRegexp_ReplaceAllString_go O true "' AND b").
Proof.
  apply (proj1 jdbcSQL_placeholders); [reflexivity|discriminate|reflexivity|reflexivity].
Defined.

Section Properties.

Context {E : External}.

(** ** Type resolution *)

Lemma makeType_fields (req : plugin.CodeGenRequest) (col : plugin.Column) :
  makeType req col
  = mkKtType (ktInnerType req col).1 (ktInnerType req col).2
      (plugin.Column_IsArray col) (negb (plugin.Column_NotNull col))
      (sdk_DataType (plugin.Column_Type col)) (Engine req).
Proof. unfold makeType. by destruct (ktInnerType req col). Qed.

Lemma makeType_not_zero (req : plugin.CodeGenRequest) (col : plugin.Column) :
  makeType req col <> ktType_zero.
Proof.
  rewrite makeType_fields. unfold ktType_zero, ktInnerType. intros [= Hn _ _ _ _ He].
  revert Hn. rewrite He. by repeat (case_bool_decide; [done|]).
Qed.

(** C9: [makeType] returns a descriptor for every column (it has no error
    result), built from the column's flags, its data type and the engine;
    an engine other than [mysql] and [postgresql], and a raw type that the
    table of the engine does not know, resolve to [Any], not an enum; and
    within a request columns with the same raw type, nullability and
    array flag resolve to equal descriptors. *)
Theorem makeType_total (req : plugin.CodeGenRequest) (col : plugin.Column) :
  (exists typ isEnum,
     makeType req col
     = mkKtType typ isEnum (plugin.Column_IsArray col) (negb (plugin.Column_NotNull col))
         (sdk_DataType (plugin.Column_Type col)) (Engine req))
  /\ (Engine req <> "mysql" -> Engine req <> "postgresql" ->
      ktType_Name (makeType req col) = "Any" /\ ktType_IsEnum (makeType req col) = false)
  /\ (Engine req = "mysql" -> mysqlTable req (plugin.Column_Type col) = None ->
      ktType_Name (makeType req col) = "Any" /\ ktType_IsEnum (makeType req col) = false)
  /\ (Engine req = "postgresql" -> postgresTable req (plugin.Column_Type col) = None ->
      ktType_Name (makeType req col) = "Any" /\ ktType_IsEnum (makeType req col) = false)
  /\ (forall col' : plugin.Column,
        plugin.Column_Type col' = plugin.Column_Type col ->
        plugin.Column_NotNull col' = plugin.Column_NotNull col ->
        plugin.Column_IsArray col' = plugin.Column_IsArray col ->
        makeType req col' = makeType req col).
Proof.
  split; [rewrite makeType_fields; eauto|].
  split; [|split; [|split]].
  - intros Hm Hp. rewrite makeType_fields. unfold ktInnerType.
    by rewrite !bool_decide_eq_false_2.
  - intros Hm Hnone. rewrite makeType_fields. unfold ktInnerType, mysqlType, engineType.
    by rewrite bool_decide_eq_true_2, Hnone.
  - intros Hp Hnone. rewrite makeType_fields. unfold ktInnerType, postgresType, engineType.
    rewrite bool_decide_eq_false_2 by (rewrite Hp; discriminate).
    by rewrite bool_decide_eq_true_2, Hnone.
  - intros col' Ht Hn Ha. rewrite !makeType_fields.
    unfold ktInnerType, mysqlType, postgresType, engineType. by rewrite Ht, Hn, Ha.
Qed.

(** ** The loop of [buildQueries] *)

Lemma ktColumnsToStruct_step_Name req namer st c :
  Struct_Name (vars_gs (ktColumnsToStruct_step req namer st c)) = Struct_Name (vars_gs st).
Proof. unfold ktColumnsToStruct_step. by destruct (vars_idSeen st !! goColumn_id c). Qed.

Lemma ktColumnsToStruct_Name req name columns namer :
  Struct_Name (ktColumnsToStruct req name columns namer) = name.
Proof.
  unfold ktColumnsToStruct.
  assert (forall st, Struct_Name (vars_gs (foldl (ktColumnsToStruct_step req namer) st columns))
                     = Struct_Name (vars_gs st)) as H.
  { induction columns as [|c columns IH]; intros st; [done|].
    simpl. by rewrite IH, ktColumnsToStruct_step_Name. }
  by rewrite H.
Qed.

Lemma kept_query_true (query : plugin.Query) :
  kept_query query = true
  <-> plugin.Query_Name query <> "" /\ plugin.Query_Cmd query <> "".
Proof.
  unfold kept_query. rewrite andb_true_iff, !negb_true_iff, !bool_decide_eq_false. done.
Qed.

Lemma buildQueries_loop_Ok req structs queries qs0 qs :
  buildQueries_loop req structs queries qs0 = Ok qs ->
  qs = qs0 ++ map (buildQueries_query req structs) (List.filter kept_query queries).
Proof.
  revert qs0. induction queries as [|query queries IH]; intros qs0; simpl.
  - intros [= <-]. by rewrite app_nil_r.
  - unfold kept_query at 1.
    destruct (bool_decide (plugin.Query_Name query = "")); simpl; [apply IH|].
    destruct (bool_decide (plugin.Query_Cmd query = "")); simpl; [apply IH|].
    case_bool_decide; [done|].
    intros Hloop. apply IH in Hloop. by rewrite Hloop, <- app_assoc.
Qed.

Lemma buildQueries_loop_Err req structs queries qs0 e :
  buildQueries_loop req structs queries qs0 = Err e ->
  e = CopyFrom_unsupported
  /\ exists query, In query queries /\ kept_query query = true
                   /\ plugin.Query_Cmd query = metadata_CmdCopyFrom.
Proof.
  revert qs0. induction queries as [|query queries IH]; intros qs0; simpl; [done|].
  destruct (bool_decide (plugin.Query_Name query = "")) eqn:Hn.
  { intros (? & q & ? & ?)%IH. eauto. }
  destruct (bool_decide (plugin.Query_Cmd query = "")) eqn:Hc.
  { intros (? & q & ? & ?)%IH. eauto. }
  destruct (bool_decide (plugin.Query_Cmd query = metadata_CmdCopyFrom)) eqn:Hcopy.
  - intros [= <-]. split; [done|]. exists query.
    unfold kept_query. rewrite Hn, Hc. apply bool_decide_eq_true in Hcopy. auto.
  - intros (? & q & ? & ?)%IH. eauto.
Qed.

Lemma buildQueries_loop_CopyFrom req structs queries qs0 query :
  In query queries ->
  plugin.Query_Name query <> "" ->
  plugin.Query_Cmd query <> "" ->
  plugin.Query_Cmd query = metadata_CmdCopyFrom ->
  buildQueries_loop req structs queries qs0 = Err CopyFrom_unsupported.
Proof.
  intros Hin Hn Hc Hcopy. revert qs0.
  induction queries as [|q queries IH]; intros qs0; [done|]. simpl.
  destruct Hin as [->|Hin].
  - by rewrite (bool_decide_eq_false_2 _ Hn), (bool_decide_eq_false_2 _ Hc),
      (bool_decide_eq_true_2 _ Hcopy).
  - repeat case_bool_decide; auto.
Qed.

(** ** The match of columns with a struct *)

Lemma sameFields_from (req : plugin.CodeGenRequest) (columns : list plugin.Column)
  (s : Struct) (fields : list Field) (k : nat) (same : bool) :
  foldl (fun same '(i, f) =>
           match columns !! i with
           | Some c =>
               let sameName :=
                 bool_decide (Field_Name f
                              = memberName (ktColumnName c (Z.of_nat i))
                                  (plugin.CodeGenRequest_Settings req)) in
               let sameType := bool_decide (Field_Type f = makeType req c) in
               let sameTable :=
                 sdk_SameTableName (plugin.Column_Table c) (Struct_Table s)
                   (plugin.Catalog_DefaultSchema (plugin.CodeGenRequest_Catalog req)) in
               if negb sameName || negb sameType || negb sameTable then false else same
           | None => false
           end)
    same (imap (fun i f => ((k + i)%nat, f)) fields) = true
  <-> same = true
      /\ forall i f, fields !! i = Some f ->
           exists c, columns !! (k + i)%nat = Some c
             /\ Field_Name f = memberName (ktColumnName c (Z.of_nat (k + i)))
                                 (plugin.CodeGenRequest_Settings req)
             /\ Field_Type f = makeType req c
             /\ sdk_SameTableName (plugin.Column_Table c) (Struct_Table s)
                  (plugin.Catalog_DefaultSchema (plugin.CodeGenRequest_Catalog req)) = true.
Proof.
  revert k same. induction fields as [|f fields IH]; intros k same.
  { simpl. split; [intros ->; split; [done|]; intros i f; by rewrite lookup_nil|tauto]. }
  rewrite imap_cons. cbn [foldl].
  rewrite (imap_ext _ (fun i f => ((S k + i)%nat, f))) by (intros; simpl; f_equal; lia).
  rewrite IH. clear IH. rewrite Nat.add_0_r. split.
  - intros [Hsame Hrest].
    destruct (columns !! k) as [c|] eqn:Hc; [|done].
    destruct (bool_decide (Field_Name f = _)) eqn:Hn; [|done].
    destruct (bool_decide (Field_Type f = _)) eqn:Ht; [|done].
    destruct (sdk_SameTableName _ _ _) eqn:Htab; [|done].
    simpl in Hsame. split; [done|]. intros [|i] f' Hf'.
    + rewrite Nat.add_0_r. simpl in Hf'. injection Hf' as <-. exists c.
      apply bool_decide_eq_true in Hn, Ht. done.
    + simpl in Hf'. replace (k + S i)%nat with (S k + i)%nat by lia. by apply Hrest.
  - intros [-> Hall]. split.
    + destruct (Hall O f eq_refl) as (c & Hc & Hn & Ht & Htab).
      rewrite Nat.add_0_r in Hc, Hn. rewrite Hc.
      by rewrite (bool_decide_eq_true_2 _ Hn), (bool_decide_eq_true_2 _ Ht), Htab.
    + intros i f' Hf'. replace (S k + i)%nat with (k + S i)%nat by lia. by apply Hall.
Qed.

Lemma sameStruct_matches (req : plugin.CodeGenRequest) (columns : list plugin.Column)
  (s : Struct) :
  sameStruct req columns s = true <-> matches_struct req columns s.
Proof.
  unfold sameStruct, matches_struct, sameFields.
  rewrite andb_true_iff, bool_decide_eq_true.
  rewrite (imap_ext _ (fun i f => ((0 + i)%nat, f))) by done.
  rewrite sameFields_from. split.
  - intros [Hlen [_ Hall]]. split; [done|]. intros i f c Hf Hc.
    destruct (Hall i f Hf) as (c' & Hc' & ?). simpl in Hc'. by simplify_eq.
  - intros [Hlen Hall]. split; [done|]. split; [done|]. intros i f Hf. simpl.
    destruct (lookup_lt_is_Some_2 columns i) as [c Hc].
    { rewrite <- Hlen. by eapply lookup_lt_Some. }
    exists c. split; [done|]. by apply Hall.
Qed.

Lemma find_first {A : Type} (p : A -> bool) (l : list A) (x : A) :
  find p l = Some x ->
  p x = true /\ exists before after, l = before ++ x :: after
                                     /\ forall y, In y before -> p y = false.
Proof.
  induction l as [|a l IH]; [done|]. simpl. destruct (p a) eqn:Ha.
  - intros [= ->]. split; [done|]. by exists [], l.
  - intros [Hx (before & after & -> & Hbefore)]%IH. split; [done|].
    exists (a :: before), after. split; [done|]. intros y [<-|Hy]; auto.
Qed.

(** ** The return descriptor *)

Lemma buildQueries_Ret_cases (req : plugin.CodeGenRequest) (structs : list Struct)
  (className : string) (columns : list plugin.Column) :
  let ret := buildQueries_Ret req structs className columns in
  (columns = [] -> ret = QueryValue_zero)
  /\ (forall c, columns = [c] -> ret = mkQueryValue false "results" None (makeType req c) 0)
  /\ ((2 <= length columns)%nat ->
      match find (sameStruct req columns) structs with
      | Some s => ret = mkQueryValue false "results" (Some s) ktType_zero 0
      | None =>
          ret = mkQueryValue true "results"
                  (Some (ktColumnsToStruct req (className +:+ "Row")
                           (imap (fun i c => mkGoColumn (Z.of_nat i) c) columns)
                           ktColumnName))
                  ktType_zero 0
      end).
Proof.
  intros ret. subst ret. split; [by intros ->|]. split; [by intros c ->|].
  intros Hlen. destruct columns as [|c1 [|c2 columns]]; simpl in Hlen; [lia..|].
  unfold buildQueries_Ret. by destruct (find _ structs).
Qed.

End Properties.

(** ** The reference instance sorts *)

Lemma insert_Permutation {A : Type} (less : A -> A -> bool) (x : A) (l : list A) :
  Ref.insert less x l ≡ₚ x :: l.
Proof.
  induction l as [|y l IH]; [done|]. simpl. destruct (less x y); [done|].
  rewrite IH. apply Permutation_swap.
Qed.

Lemma insertionSort_Permutation {A : Type} (less : A -> A -> bool) (l : list A) :
  Ref.insertionSort less l ≡ₚ l.
Proof.
  unfold Ref.insertionSort.
  assert (forall sorted, foldl (fun sorted x => Ref.insert less x sorted) sorted l
                         ≡ₚ sorted ++ l) as H.
  { induction l as [|x l IH]; intros sorted; simpl; [by rewrite app_nil_r|].
    rewrite IH, insert_Permutation. simpl. apply Permutation_middle. }
  apply (H []).
Qed.

Lemma ltb_le (s1 s2 : string) : String.ltb s1 s2 = true -> String.le s1 s2.
Proof.
  unfold String.ltb, String.le, String.leb. by destruct (String.compare s1 s2).
Qed.

Lemma not_ltb_le (s1 s2 : string) : String.ltb s1 s2 = false -> String.le s2 s1.
Proof.
  unfold String.ltb, String.le, String.leb. rewrite (String.compare_antisym s2 s1).
  by destruct (String.compare s1 s2).
Qed.

Lemma insert_StronglySorted {A : Type} (key : A -> string) (x : A) (l : list A) :
  StronglySorted (fun a b => String.le (key a) (key b)) l ->
  StronglySorted (fun a b => String.le (key a) (key b))
    (Ref.insert (fun a b => String.ltb (key a) (key b)) x l).
Proof.
  induction 1 as [|y l Hl IH Hy]; simpl.
  - repeat constructor.
  - destruct (String.ltb (key x) (key y)) eqn:Hxy.
    + apply ltb_le in Hxy. constructor; [by constructor|]. constructor; [done|].
      eapply Forall_impl; [exact Hy|]. intros b Hb. simpl in *. by etrans.
    + apply not_ltb_le in Hxy. constructor; [done|].
      rewrite insert_Permutation. by constructor.
Qed.

Lemma insertionSort_StronglySorted {A : Type} (key : A -> string) (l : list A) :
  StronglySorted (fun a b => String.le (key a) (key b))
    (Ref.insertionSort (fun a b => String.ltb (key a) (key b)) l).
Proof.
  unfold Ref.insertionSort.
  assert (forall sorted,
             StronglySorted (fun a b => String.le (key a) (key b)) sorted ->
             StronglySorted (fun a b => String.le (key a) (key b))
               (foldl (fun sorted x => Ref.insert (fun a b => String.ltb (key a) (key b))
                                         x sorted) sorted l)) as H.
  { induction l as [|x l IH]; intros sorted Hsorted; [done|].
    simpl. by apply IH, insert_StronglySorted. }
  apply H. constructor.
Qed.

Lemma Ref_laws : SortSliceLaws Ref.external.
Proof.
  split.
  - intros A less l. apply insertionSort_Permutation.
  - intros A key l. apply insertionSort_StronglySorted.
Defined.

Section Sorted.

Context {E : External} {L : SortSliceLaws E}.

Lemma buildQueries_Ok_Permutation req structs qs :
  buildQueries req structs = Ok qs ->
  qs ≡ₚ map (buildQueries_query req structs)
          (List.filter kept_query (plugin.CodeGenRequest_Queries req)).
Proof.
  unfold buildQueries.
  destruct (buildQueries_loop req structs _ []) as [qs'|e] eqn:Hloop; [|done].
  intros [= <-]. apply buildQueries_loop_Ok in Hloop as ->.
  by rewrite sort_Slice_Permutation.
Qed.

Lemma buildQueries_Ok_In req structs qs gq :
  buildQueries req structs = Ok qs ->
  In gq qs
  <-> exists query, In query (plugin.CodeGenRequest_Queries req)
        /\ plugin.Query_Name query <> "" /\ plugin.Query_Cmd query <> ""
        /\ gq = buildQueries_query req structs query.
Proof.
  intros Hqs%buildQueries_Ok_Permutation.
  rewrite <- !list_elem_of_In, Hqs, list_elem_of_In, in_map_iff.
  split.
  - intros (query & <- & [Hin [Hn Hc]%kept_query_true]%filter_In). by exists query.
  - intros (query & Hin & Hn & Hc & ->). exists query. split; [done|].
    apply filter_In. split; [done|]. by apply kept_query_true.
Qed.

End Sorted.

(** ** Unsupported commands *)

Section Abort.

Context {E : External}.

(** C3, as amended: a query that has a name and the command [CopyFrom]
    aborts the run.  [buildQueries] returns the error whatever the structs
    are, and [Generate] returns a nil response with that error and nothing
    else. *)
Theorem CopyFrom_aborts (req : plugin.CodeGenRequest) (query : plugin.Query) :
  In query (plugin.CodeGenRequest_Queries req) ->
  plugin.Query_Name query <> "" ->
  plugin.Query_Cmd query <> "" ->
  plugin.Query_Cmd query = metadata_CmdCopyFrom ->
  (forall structs, buildQueries req structs = Err CopyFrom_unsupported)
  /\ Generate req (None, Some CopyFrom_unsupported)
  /\ (forall r, Generate req r -> r = (None, Some CopyFrom_unsupported)).
Proof.
  intros Hin Hn Hc Hcopy.
  assert (forall structs, buildQueries req structs = Err CopyFrom_unsupported) as Hbuild.
  { intros structs. unfold buildQueries.
    by rewrite (buildQueries_loop_CopyFrom req structs _ [] query). }
  assert (Generate_output req = Err CopyFrom_unsupported) as Hout.
  { unfold Generate_output. by rewrite Hbuild. }
  split; [done|]. split; [by constructor|].
  intros r Hr. destruct Hr as [err Herr|output files Hok _]; congruence.
Qed.

End Abort.

Lemma CopyFrom_aborts_witness :
  (forall structs,
     buildQueries (E:=Ref.external) Cases.copy_request structs = Err CopyFrom_unsupported)
  /\ Generate (E:=Ref.external) Cases.copy_request (None, Some CopyFrom_unsupported)
  /\ (forall r, Generate (E:=Ref.external) Cases.copy_request r ->
                r = (None, Some CopyFrom_unsupported)).
Proof.
  apply (CopyFrom_aborts (E:=Ref.external) Cases.copy_request Cases.named_copy).
  - simpl. auto.
  - discriminate.
  - discriminate.
  - reflexivity.
Defined.

(** C3 as stated fails: a query with the command [CopyFrom] and no name is
    skipped like any unnamed query, and the run goes on to its output. *)
Lemma unnamed_CopyFrom_skipped :
  (exists query,
     In query (plugin.CodeGenRequest_Queries Cases.unnamed_copy)
     /\ plugin.Query_Cmd query = metadata_CmdCopyFrom (External:=Ref.external))
  /\ buildQueries (E:=Ref.external) Cases.unnamed_copy
       (buildDataClasses (E:=Ref.external) Cases.unnamed_copy) = Ok []
  /\ exists resp, Generate (E:=Ref.external) Cases.unnamed_copy (Some resp, None).
Proof.
  split; [|split].
  - eexists. split; [left; reflexivity|reflexivity].
  - reflexivity.
  - eexists. eapply Generate_resp; [vm_compute; reflexivity|reflexivity].
Qed.

(** ** Return descriptors *)

Lemma NoDup_map_In {A B : Type} (f : A -> B) (l : list A) (a b : A) :
  NoDup (map f l) -> In a l -> In b l -> f a = f b -> a = b.
Proof.
  induction l as [|x l IH]; [done|]. simpl.
  intros [Hx Hnd]%NoDup_cons [<-|Ha] [<-|Hb] Heq; auto.
  - exfalso. apply Hx. rewrite Heq. by apply list_elem_of_In, in_map.
  - exfalso. apply Hx. rewrite <- Heq. by apply list_elem_of_In, in_map.
Qed.

Section Returns.

Context {E : External} {L : SortSliceLaws E}.

(** C4: every query of the list that [buildQueries] returns is built from
    a query of the request, and its return descriptor follows the number
    of result columns: none gives the empty descriptor; one gives the type
    of the column and no struct; two or more give a struct, either a
    struct of the list that matches, not emitted, or, when none matches, a
    new struct named after the class of the query with the suffix [Row],
    emitted. *)
Theorem return_descriptor_by_columns (req : plugin.CodeGenRequest) (structs : list Struct)
  (qs : list Query) (gq : Query) :
  buildQueries req structs = Ok qs ->
  In gq qs ->
  exists query,
    In query (plugin.CodeGenRequest_Queries req)
    /\ gq = buildQueries_query req structs query
    /\ (plugin.Query_Columns query = [] ->
        Query_Ret gq = QueryValue_zero /\ QueryValue_isEmpty (Query_Ret gq) = true)
    /\ (forall c, plugin.Query_Columns query = [c] ->
        Query_Ret gq = mkQueryValue false "results" None (makeType req c) 0
        /\ QueryValue_IsStruct (Query_Ret gq) = false)
    /\ ((2 <= length (plugin.Query_Columns query))%nat ->
        (exists s, In s structs
           /\ matches_struct req (plugin.Query_Columns query) s
           /\ Query_Ret gq = mkQueryValue false "results" (Some s) ktType_zero 0)
        \/ ((forall s, In s structs -> ~ matches_struct req (plugin.Query_Columns query) s)
            /\ exists gs,
                 Query_Ret gq = mkQueryValue true "results" (Some gs) ktType_zero 0
                 /\ Struct_Name gs = Query_ClassName gq +:+ "Row"
                 /\ gs = ktColumnsToStruct req (Query_ClassName gq +:+ "Row")
                           (imap (fun i c => mkGoColumn (Z.of_nat i) c)
                              (plugin.Query_Columns query))
                           ktColumnName)).
Proof.
  intros Hqs Hgq. apply (buildQueries_Ok_In req structs qs gq Hqs) in Hgq
    as (query & Hin & _ & _ & ->).
  exists query. split; [done|]. split; [done|].
  cbn [Query_Ret Query_ClassName buildQueries_query].
  destruct (buildQueries_Ret_cases req structs (strings_Title (plugin.Query_Name query))
              (plugin.Query_Columns query)) as (H0 & H1 & H2).
  split; [|split].
  - intros Hnil. by rewrite (H0 Hnil).
  - intros c Hc. by rewrite (H1 c Hc).
  - intros Hlen. specialize (H2 Hlen).
    destruct (find _ structs) as [s|] eqn:Hfind.
    + left. exists s. apply find_some in Hfind as [Hs Hsame].
      by rewrite <- sameStruct_matches.
    + right. split.
      * intros s Hs. rewrite <- sameStruct_matches.
        by rewrite (find_none _ _ Hfind s Hs).
      * eexists. split; [exact H2|]. split; [|done]. apply ktColumnsToStruct_Name.
Qed.

(** C2, as amended: when a query with two or more result columns matches
    a struct of the list, its return descriptor refers to a struct of the
    list and is not emitted.  The struct is the first of the list that
    matches, which is the given one when no other struct matches, as is
    the case when [sdk.SameTableName] accepts one table for a column and
    the structs of the list have distinct tables. *)
Theorem matching_struct_reused (req : plugin.CodeGenRequest) (structs : list Struct)
  (qs : list Query) (query : plugin.Query) (s : Struct) :
  buildQueries req structs = Ok qs ->
  In query (plugin.CodeGenRequest_Queries req) ->
  plugin.Query_Name query <> "" ->
  plugin.Query_Cmd query <> "" ->
  (2 <= length (plugin.Query_Columns query))%nat ->
  In s structs ->
  matches_struct req (plugin.Query_Columns query) s ->
  exists gq s',
    In gq qs
    /\ gq = buildQueries_query req structs query
    /\ Query_Ret gq = mkQueryValue false "results" (Some s') ktType_zero 0
    /\ matches_struct req (plugin.Query_Columns query) s'
    /\ (exists before after,
          structs = before ++ s' :: after
          /\ forall s0, In s0 before -> ~ matches_struct req (plugin.Query_Columns query) s0)
    /\ ((forall s0, In s0 structs ->
           matches_struct req (plugin.Query_Columns query) s0 -> s0 = s) ->
        s' = s)
    /\ ((forall t a b d, sdk_SameTableName t a d = true ->
                         sdk_SameTableName t b d = true -> a = b) ->
        NoDup (map Struct_Table structs) ->
        s' = s).
Proof.
  intros Hqs Hin Hn Hc Hlen Hs Hmatch.
  destruct (find (sameStruct req (plugin.Query_Columns query)) structs) as [s'|] eqn:Hfind.
  2:{ apply sameStruct_matches in Hmatch. by rewrite (find_none _ _ Hfind s Hs) in Hmatch. }
  exists (buildQueries_query req structs query), s'.
  split; [apply (buildQueries_Ok_In req structs qs _ Hqs); by exists query|].
  split; [done|].
  destruct (buildQueries_Ret_cases req structs (strings_Title (plugin.Query_Name query))
              (plugin.Query_Columns query)) as (_ & _ & H2).
  specialize (H2 Hlen). rewrite Hfind in H2. split; [exact H2|].
  pose proof (find_some _ _ Hfind) as [Hs' Hsame'].
  apply find_first in Hfind as [_ (before & after & -> & Hbefore)].
  assert (matches_struct req (plugin.Query_Columns query) s') as Hmatch'
    by (by apply sameStruct_matches).
  split; [done|]. split; [|split].
  - exists before, after. split; [done|]. intros s0 Hs0.
    rewrite <- sameStruct_matches. by rewrite (Hbefore s0 Hs0).
  - intros Hunique. by apply Hunique.
  - intros Hfun Hnodup. apply (NoDup_map_In Struct_Table (before ++ s' :: after)); try done.
    destruct Hmatch as [Hlens Hall], Hmatch' as [Hlens' Hall'].
    destruct (plugin.Query_Columns query) as [|c columns] eqn:Hcols; [simpl in Hlen; lia|].
    destruct (Struct_Fields s) as [|f fields] eqn:Hf; [done|].
    destruct (Struct_Fields s') as [|f' fields'] eqn:Hf'; [done|].
    destruct (Hall O f c eq_refl eq_refl) as (_ & _ & Htab).
    destruct (Hall' O f' c eq_refl eq_refl) as (_ & _ & Htab').
    symmetry. by eapply Hfun.
Qed.

(** C10: [QueryValue.Type] panics exactly when the descriptor has neither
    a type nor a struct, and no query built from a query with at least one
    result column has such a return descriptor. *)
Theorem QueryValue_Type_panics :
  (forall v : QueryValue,
     QueryValue_Typ v = ktType_zero -> QueryValue_Struct v = None ->
     QueryValue_Type v = Panics ("no type for QueryValue: " +:+ QueryValue_Name v))
  /\ (forall (v : QueryValue) (msg : string),
        QueryValue_Type v = Panics msg ->
        QueryValue_Typ v = ktType_zero /\ QueryValue_Struct v = None)
  /\ (forall req structs qs gq,
        buildQueries req structs = Ok qs ->
        In gq qs ->
        exists query,
          In query (plugin.CodeGenRequest_Queries req)
          /\ gq = buildQueries_query req structs query
          /\ (plugin.Query_Columns query <> [] ->
              exists name, QueryValue_Type (Query_Ret gq) = Returns name)).
Proof.
  split; [|split].
  - intros v Ht Hs. unfold QueryValue_Type.
    rewrite bool_decide_eq_false_2 by (intros H; by apply H). by rewrite Hs.
  - intros v msg. unfold QueryValue_Type. case_bool_decide as Ht; [done|].
    destruct (QueryValue_Struct v); [done|]. intros _. split; [|done].
    by destruct (decide (QueryValue_Typ v = ktType_zero)).
  - intros req structs qs gq Hqs Hgq.
    apply (buildQueries_Ok_In req structs qs gq Hqs) in Hgq as (query & Hin & _ & _ & ->).
    exists query. split; [done|]. split; [done|]. intros Hcols.
    cbn [Query_Ret buildQueries_query].
    destruct (buildQueries_Ret_cases req structs (strings_Title (plugin.Query_Name query))
                (plugin.Query_Columns query)) as (_ & H1 & H2).
    destruct (plugin.Query_Columns query) as [|c1 [|c2 columns]] eqn:Hq; [done|..].
    + rewrite (H1 c1 eq_refl). unfold QueryValue_Type. cbn [QueryValue_Typ].
      rewrite bool_decide_eq_true_2 by apply makeType_not_zero. eauto.
    + specialize (H2 ltac:(simpl; lia)).
      destruct (find _ structs); rewrite H2; unfold QueryValue_Type;
        cbn [QueryValue_Typ QueryValue_Struct];
        rewrite bool_decide_eq_false_2 by (intros H; by apply H); eauto.
Qed.

End Returns.

Lemma return_descriptor_by_columns_witness :
  exists query,
    In query (plugin.CodeGenRequest_Queries Ref.users_request)
    /\ Cases.GetUsers = buildQueries_query (E:=Ref.external) Ref.users_request [Cases.User] query
    /\ (plugin.Query_Columns query = [] ->
        Query_Ret Cases.GetUsers = QueryValue_zero
        /\ QueryValue_isEmpty (Query_Ret Cases.GetUsers) = true)
    /\ (forall c, plugin.Query_Columns query = [c] ->
        Query_Ret Cases.GetUsers
        = mkQueryValue false "results" None (makeType (E:=Ref.external) Ref.users_request c) 0
        /\ QueryValue_IsStruct (Query_Ret Cases.GetUsers) = false)
    /\ ((2 <= length (plugin.Query_Columns query))%nat ->
        (exists s, In s [Cases.User]
           /\ matches_struct (E:=Ref.external) Ref.users_request (plugin.Query_Columns query) s
           /\ Query_Ret Cases.GetUsers = mkQueryValue false "results" (Some s) ktType_zero 0)
        \/ ((forall s, In s [Cases.User] ->
               ~ matches_struct (E:=Ref.external) Ref.users_request
                   (plugin.Query_Columns query) s)
            /\ exists gs,
                 Query_Ret Cases.GetUsers = mkQueryValue true "results" (Some gs) ktType_zero 0
                 /\ Struct_Name gs = Query_ClassName Cases.GetUsers +:+ "Row"
                 /\ gs = ktColumnsToStruct (E:=Ref.external) Ref.users_request
                           (Query_ClassName Cases.GetUsers +:+ "Row")
                           (imap (fun i c => mkGoColumn (Z.of_nat i) c)
                              (plugin.Query_Columns query))
                           ktColumnName)).
Proof.
  apply (return_descriptor_by_columns (E:=Ref.external) (L:=Ref_laws)
           Ref.users_request [Cases.User] [Cases.GetUsers] Cases.GetUsers).
  - vm_compute. reflexivity.
  - left. reflexivity.
Defined.

Lemma matching_struct_reused_witness :
  In Cases.GetUsers [Cases.GetUsers]
  /\ Query_Ret Cases.GetUsers = mkQueryValue false "results" (Some Cases.User) ktType_zero 0.
Proof.
  destruct (matching_struct_reused (E:=Ref.external) (L:=Ref_laws)
              Ref.users_request [Cases.User] [Cases.GetUsers] Ref.get_users Cases.User)
    as (gq & s' & Hgq & -> & Hret & _ & _ & Hunique & _).
  - vm_compute. reflexivity.
  - left. reflexivity.
  - discriminate.
  - discriminate.
  - simpl. lia.
  - left. reflexivity.
  - apply sameStruct_matches. vm_compute. reflexivity.
  - split; [exact Hgq|]. rewrite <- Hunique; [exact Hret|].
    intros s0 [<-|[]] _. reflexivity.
Defined.

(** The reference reading of [sdk.SameTableName] names one table. *)
Lemma Ref_SameTableName_functional (t : option plugin.Identifier)
  (a b : plugin.Identifier) (d : string) :
  Ref.SameTableName t a d = true -> Ref.SameTableName t b d = true -> a = b.
Proof.
  unfold Ref.SameTableName. destruct t as [t|]; [|done].
  rewrite !andb_true_iff, !bool_decide_eq_true.
  intros [[Hc Hs] Hn] [[Hc' Hs'] Hn']. destruct a, b. simpl in *. congruence.
Qed.

(** C2 as stated fails: a query with one result column that matches the
    struct of a table returns the type of the column, not the struct. *)
Lemma one_column_match_not_reused :
  buildDataClasses (E:=Ref.external) Cases.one_column_request = [Cases.T]
  /\ matches_struct (E:=Ref.external) Cases.one_column_request
       (plugin.Query_Columns Cases.get_a) Cases.T
  /\ exists gq,
       buildQueries (E:=Ref.external) Cases.one_column_request [Cases.T] = Ok [gq]
       /\ QueryValue_Struct (Query_Ret gq) = None
       /\ ktType_Name (QueryValue_Typ (Query_Ret gq)) = "String".
Proof.
  split; [vm_compute; reflexivity|]. split.
  - apply sameStruct_matches. vm_compute. reflexivity.
  - eexists. split; [vm_compute; reflexivity|]. split.
    + reflexivity.
    + reflexivity.
Qed.

Lemma QueryValue_Type_panics_witness :
  exists query,
    In query (plugin.CodeGenRequest_Queries Ref.users_request)
    /\ Cases.GetUsers = buildQueries_query (E:=Ref.external) Ref.users_request [Cases.User] query
    /\ (plugin.Query_Columns query <> [] ->
        exists name, QueryValue_Type (Query_Ret Cases.GetUsers) = Returns name).
Proof.
  apply (proj2 (proj2 (QueryValue_Type_panics (E:=Ref.external) (L:=Ref_laws)))
           Ref.users_request [Cases.User] [Cases.GetUsers] Cases.GetUsers).
  - vm_compute. reflexivity.
  - left. reflexivity.
Defined.

Lemma makeType_total_witness :
  makeType (E:=Ref.external) Ref.users_request (Ref.column "b" "text" true None)
  = makeType (E:=Ref.external) Ref.users_request (Ref.column "a" "text" true Ref.users)
  /\ ktType_Name (makeType (E:=Ref.external) (Ref.request "sqlite" [] [])
                    (Ref.column "a" "text" true None)) = "Any".
Proof.
  split.
  - destruct (makeType_total (E:=Ref.external) Ref.users_request
                (Ref.column "a" "text" true Ref.users)) as (_ & _ & _ & _ & Hsame).
    apply Hsame; reflexivity.
  - destruct (makeType_total (E:=Ref.external) (Ref.request "sqlite" [] [])
                (Ref.column "a" "text" true None)) as (_ & Hany & _).
    apply Hany; discriminate.
Defined.

(** ** The loop of [ktColumnsToStruct] *)

Lemma first_usages_snoc (done : list goColumn) (c : goColumn) :
  first_usages (done ++ [c])
  = if bool_decide (goColumn_id c ∈ map goColumn_id (first_usages done))
    then first_usages done
    else first_usages done ++ [c].
Proof. unfold first_usages. by rewrite foldl_app. Qed.

Lemma first_usages_ids (columns : list goColumn) (x : Z) :
  x ∈ map goColumn_id (first_usages columns) <-> x ∈ map goColumn_id columns.
Proof.
  induction columns as [|c columns IH] using rev_ind; [done|].
  rewrite first_usages_snoc, map_app, elem_of_app, <- IH. simpl.
  case_bool_decide as Hc.
  - split; [auto|]. intros [?|Hx]; [done|]. apply list_elem_of_singleton in Hx. by subst.
  - by rewrite map_app, elem_of_app.
Qed.

Lemma first_usages_NoDup (columns : list goColumn) :
  NoDup (map goColumn_id (first_usages columns)).
Proof.
  induction columns as [|c columns IH] using rev_ind; [constructor|].
  rewrite first_usages_snoc. case_bool_decide as Hc; [done|].
  rewrite map_app. apply NoDup_app. split; [done|]. split.
  - intros x Hx Hx'. apply list_elem_of_singleton in Hx'. by subst.
  - apply NoDup_singleton.
Qed.

Lemma first_usages_distinct (columns : list goColumn) :
  NoDup (map goColumn_id columns) -> first_usages columns = columns.
Proof.
  induction columns as [|c columns IH] using rev_ind; [done|].
  rewrite map_app. intros (Hnd & Hc & _)%NoDup_app.
  rewrite first_usages_snoc, IH by done.
  rewrite bool_decide_eq_false_2; [done|].
  intros Hin. apply (Hc _ Hin). simpl. by left.
Qed.

Lemma named_snoc (n : string) (cs : list goColumn) (c : goColumn) :
  named n (cs ++ [c])
  = named n cs + (if bool_decide (plugin.Column_Name (goColumn_Column c) = n) then 1 else 0).
Proof.
  unfold named. rewrite List.filter_app, length_app. simpl.
  destruct (bool_decide _); simpl; lia.
Qed.

Lemma named_nonneg (n : string) (cs : list goColumn) : 0 <= named n cs.
Proof. unfold named. lia. Qed.

Lemma field_of_snoc `{E : External} req namer (firsts : list goColumn) (c' : goColumn)
  (k : nat) (c : goColumn) :
  (k <= length firsts)%nat ->
  field_of req namer (firsts ++ [c']) k c = field_of req namer firsts k c.
Proof. intros Hk. unfold field_of. by rewrite take_app_le. Qed.

Section Loop.

Context {E : External}.
Variables (req : plugin.CodeGenRequest) (namer : plugin.Column -> Z -> string).
Variable name : string.

Lemma loop_inv_init : loop_inv req namer name [] (ktColumnsToStruct_init name).
Proof.
  split; try done.
  - intros x. split; [intros _ Hx; by apply elem_of_nil in Hx|done].
Qed.

Lemma loop_inv_step (done : list goColumn) (st : ktColumnsToStruct_vars) (c : goColumn) :
  loop_inv req namer name done st ->
  loop_inv req namer name (done ++ [c]) (ktColumnsToStruct_step req namer st c).
Proof.
  intros [HTable HName HComment HFields HidSeen HidNone HnameSeen Hlen HBindings].
  destruct st as [[table sname fields bindings comment] idSeen nameSeen].
  cbn [vars_gs vars_idSeen vars_nameSeen Struct_Table Struct_Name Struct_Comment
       Struct_Fields Struct_JDBCParamBindings] in *.
  unfold ktColumnsToStruct_step.
  cbn [vars_gs vars_idSeen vars_nameSeen Struct_Table Struct_Name Struct_Comment
       Struct_Fields Struct_JDBCParamBindings].
  pose proof (first_usages_snoc done c) as Hfs.
  destruct (idSeen !! goColumn_id c) as [binding|] eqn:Hseen.
  - rewrite bool_decide_eq_true_2 in Hfs.
    2:{ destruct (decide (goColumn_id c ∈ map goColumn_id (first_usages done)))
          as [|Hnot]; [done|]. apply HidNone in Hnot. congruence. }
    split; cbn; rewrite ?Hfs; try done.
    + rewrite !length_app. simpl. lia.
    + intros i c0 [[_ Hi]|[-> <-]]%lookup_snoc_Some.
      * destruct (HBindings i c0 Hi) as (f & Hf & Hid). exists f.
        split; [|done]. apply lookup_snoc_Some. left.
        split; [by eapply lookup_lt_Some|done].
      * exists binding. split; [|done]. apply lookup_snoc_Some. right. split; [lia|done].
  - assert (goColumn_id c ∉ map goColumn_id (first_usages done)) as Hnew
      by (by apply HidNone).
    rewrite bool_decide_eq_false_2 in Hfs by done.
    set (fs := first_usages done) in *.
    set (field := mkField _ _ _).
    assert (field = field_of req namer (fs ++ [c]) (length fs) c) as Hfield.
    { unfold field, field_of, suffixed. by rewrite take_app_length, <- HnameSeen. }
    split; cbn; rewrite ?Hfs; try done.
    + rewrite imap_app. simpl. rewrite Nat.add_0_r, <- Hfield. f_equal.
      rewrite HFields. apply imap_ext. intros k c0 Hk. symmetry.
      apply field_of_snoc. apply lookup_lt_Some in Hk. lia.
    + intros k c0 [[_ Hk]|[-> <-]]%lookup_snoc_Some.
      * rewrite lookup_insert_ne.
        2:{ intros Heq. apply Hnew. rewrite Heq.
            apply list_elem_of_In, in_map, list_elem_of_In.
            by eapply list_elem_of_lookup_2. }
        rewrite field_of_snoc by (apply lookup_lt_Some in Hk; lia). by apply HidSeen.
      * rewrite lookup_insert_eq. by rewrite Hfield.
    + intros x. rewrite lookup_insert_None, HidNone, map_app, not_elem_of_app. simpl.
      rewrite list_elem_of_singleton. split; [intros [? ?]|intros [? ?]]; split; congruence.
    + intros n. rewrite named_snoc. case_bool_decide as Hn.
      * subst n. rewrite lookup_insert_eq. simpl. by rewrite <- HnameSeen.
      * rewrite lookup_insert_ne by done. rewrite HnameSeen. lia.
    + rewrite !length_app. simpl. lia.
    + intros i c0 [[_ Hi]|[-> <-]]%lookup_snoc_Some.
      * destruct (HBindings i c0 Hi) as (f & Hf & Hid). exists f. split.
        { apply lookup_snoc_Some. left. split; [by eapply lookup_lt_Some|done]. }
        rewrite lookup_insert_ne; [done|]. intros Heq. congruence.
      * exists field. rewrite lookup_insert_eq. split; [|done].
        apply lookup_snoc_Some. right. split; [lia|done].
Qed.

Lemma loop_inv_foldl (columns : list goColumn) :
  loop_inv req namer name columns
    (foldl (ktColumnsToStruct_step req namer) (ktColumnsToStruct_init name) columns).
Proof.
  induction columns as [|c columns IH] using rev_ind; [apply loop_inv_init|].
  rewrite foldl_app. by apply loop_inv_step.
Qed.

End Loop.

Lemma elem_of_map_lookup {A B : Type} (f : A -> B) (l : list A) (y : B) :
  y ∈ map f l <-> exists i x, l !! i = Some x /\ f x = y.
Proof.
  rewrite list_elem_of_In, in_map_iff. split.
  - intros (x & <- & [i Hi]%list_elem_of_In%list_elem_of_lookup). eauto.
  - intros (i & x & Hi & <-). exists x. split; [done|].
    apply list_elem_of_In. by eapply list_elem_of_lookup_2.
Qed.

(** A first usage is the first column of its number. *)
Lemma first_usages_lookup (columns : list goColumn) (k : nat) (c : goColumn) :
  first_usages columns !! k = Some c ->
  exists i, columns !! i = Some c
            /\ forall j cj, (j < i)%nat -> columns !! j = Some cj ->
                 goColumn_id cj <> goColumn_id c.
Proof.
  revert k c. induction columns as [|c' columns IH] using rev_ind; intros k c; [done|].
  rewrite first_usages_snoc.
  assert (forall k, first_usages columns !! k = Some c ->
            exists i, (columns ++ [c']) !! i = Some c
              /\ forall j cj, (j < i)%nat -> (columns ++ [c']) !! j = Some cj ->
                   goColumn_id cj <> goColumn_id c) as Hold.
  { intros k' (i & Hi & Hfirst)%IH. exists i.
    pose proof (lookup_lt_Some _ _ _ Hi) as Hlt.
    split; [by apply lookup_app_l_Some|].
    intros j cj Hj Hcj. apply (Hfirst j cj Hj).
    by rewrite lookup_app_l in Hcj by lia. }
  case_bool_decide as Hc'; [apply Hold|].
  intros [[_ Hk]|[-> <-]]%lookup_snoc_Some; [by eapply Hold|].
  exists (length columns). split; [by apply list_lookup_middle|].
  intros j cj Hj Hcj Heq. apply Hc'. rewrite <- Heq.
  apply first_usages_ids, elem_of_map_lookup. exists j, cj.
  by rewrite lookup_app_l in Hcj by lia.
Qed.

Section Structs.

Context {E : External}.

(** What [ktColumnsToStruct] returns: one field for each first usage, in
    order, and one binding for each column, which is the field of the first
    usage of its number. *)
Lemma ktColumnsToStruct_spec (req : plugin.CodeGenRequest) (name : string)
  (columns : list goColumn) (namer : plugin.Column -> Z -> string) :
  let gs := ktColumnsToStruct req name columns namer in
  let firsts := first_usages columns in
  Struct_Fields gs = imap (field_of req namer firsts) firsts
  /\ length (Struct_JDBCParamBindings gs) = length columns
  /\ forall i c, columns !! i = Some c ->
       exists k c0, firsts !! k = Some c0
         /\ goColumn_id c0 = goColumn_id c
         /\ Struct_Fields gs !! k = Some (field_of req namer firsts k c0)
         /\ Struct_JDBCParamBindings gs !! i = Some (field_of req namer firsts k c0).
Proof.
  intros gs firsts. subst gs firsts. unfold ktColumnsToStruct.
  destruct (loop_inv_foldl req namer name columns)
    as [_ _ _ HFields HidSeen _ _ Hlen HBindings].
  split; [done|]. split; [done|].
  intros i c Hi. destruct (HBindings i c Hi) as (f & Hf & Hid).
  assert (goColumn_id c ∈ map goColumn_id (first_usages columns)) as Hin.
  { apply first_usages_ids, elem_of_map_lookup. eauto. }
  apply elem_of_map_lookup in Hin as (k & c0 & Hk & Hc0).
  exists k, c0. split; [done|]. split; [done|].
  rewrite HFields, list_lookup_imap, Hk. split; [done|].
  rewrite Hf. f_equal. specialize (HidSeen k c0 Hk). rewrite Hc0 in HidSeen. congruence.
Qed.

Lemma first_usages_size (columns : list goColumn) :
  length (first_usages columns) = size (list_to_set (map goColumn_id columns) : gset Z).
Proof.
  rewrite <- (length_map goColumn_id).
  rewrite <- (size_list_to_set (C:=gset Z)) by apply first_usages_NoDup.
  f_equal. apply set_eq. intros x. rewrite !elem_of_list_to_set. apply first_usages_ids.
Qed.

End Structs.

(** ** Field names *)

Lemma append_empty_r (s : string) : s +:+ "" = s.
Proof. induction s as [|c s IH]; [done|]. by rewrite append_cons, IH. Qed.

Lemma suffixed_inj (fieldName : string) (v1 v2 : Z) :
  0 <= v1 -> 0 <= v2 -> suffixed fieldName v1 = suffixed fieldName v2 -> v1 = v2.
Proof.
  intros H1 H2. unfold suffixed. repeat case_bool_decide; [| | |lia].
  - intros Heq%(inj (String.append fieldName)). injection Heq as Heq.
    unfold fmt_d in Heq. rewrite !append_empty in Heq.
    apply (inj (pretty (A:=Z))) in Heq. lia.
  - rewrite <- (append_empty_r fieldName) at 2.
    intros Heq%(inj (String.append fieldName)). discriminate.
  - rewrite <- (append_empty_r fieldName) at 1.
    intros Heq%(inj (String.append fieldName)). discriminate.
Qed.

Lemma named_app (n : string) (l1 l2 : list goColumn) :
  named n (l1 ++ l2) = named n l1 + named n l2.
Proof. unfold named. rewrite List.filter_app, length_app. lia. Qed.

(** A later first usage of the same column name has met more columns of
    that name. *)
Lemma named_take_lt (firsts : list goColumn) (k1 k2 : nat) (c1 : goColumn) :
  (k1 < k2)%nat ->
  firsts !! k1 = Some c1 ->
  named (plugin.Column_Name (goColumn_Column c1)) (take k1 firsts)
  < named (plugin.Column_Name (goColumn_Column c1)) (take k2 firsts).
Proof.
  intros Hlt Hk1.
  rewrite <- (take_drop (S k1) (take k2 firsts)), take_take.
  replace (S k1 `min` k2)%nat with (S k1) by lia.
  rewrite (take_S_r _ _ _ Hk1), !named_app.
  pose proof (named_nonneg (plugin.Column_Name (goColumn_Column c1))
                (drop (S k1) (take k2 firsts))).
  assert (named (plugin.Column_Name (goColumn_Column c1)) [c1] = 1) as ->.
  { unfold named. simpl. by rewrite bool_decide_eq_true_2. }
  lia.
Qed.

Lemma lookup_map {A B : Type} (f : A -> B) (l : list A) (i : nat) :
  map f l !! i = f <$> l !! i.
Proof. apply list_lookup_fmap. Qed.

Lemma result_columns_NoDup (columns : list plugin.Column) :
  NoDup (map goColumn_id (result_columns columns)).
Proof.
  apply NoDup_alt. intros i j x. unfold result_columns.
  rewrite !lookup_map, !list_lookup_imap.
  destruct (columns !! i) as [ci|]; [|done]. destruct (columns !! j) as [cj|]; [|done].
  simpl. intros [= <-] [= Hij]. lia.
Qed.

Section Names.

Context {E : External}.

Lemma field_names_differ (req : plugin.CodeGenRequest)
  (namer : plugin.Column -> Z -> string) (firsts : list goColumn)
  (k1 k2 : nat) (c1 c2 : goColumn) :
  k1 <> k2 ->
  firsts !! k1 = Some c1 ->
  firsts !! k2 = Some c2 ->
  plugin.Column_Name (goColumn_Column c1) = plugin.Column_Name (goColumn_Column c2) ->
  memberName (namer (goColumn_Column c1) (goColumn_id c1)) (plugin.CodeGenRequest_Settings req)
  = memberName (namer (goColumn_Column c2) (goColumn_id c2)) (plugin.CodeGenRequest_Settings req) ->
  Field_Name (field_of req namer firsts k1 c1) <> Field_Name (field_of req namer firsts k2 c2).
Proof.
  intros Hne Hk1 Hk2 Hname Hbase. unfold field_of. cbn [Field_Name].
  rewrite Hbase, Hname. intros Heq%suffixed_inj; [|apply named_nonneg..].
  destruct (decide (k1 < k2)%nat) as [Hlt|Hge].
  - pose proof (named_take_lt firsts k1 k2 c1 Hlt Hk1) as H. rewrite Hname in H. lia.
  - pose proof (named_take_lt firsts k2 k1 c2 ltac:(lia) Hk2) as H. lia.
Qed.

(** C5, as amended: in a struct that [ktColumnsToStruct] builds for a
    query, the field of a column whose name [v] earlier fields share is the
    member name followed by [_] and [v + 1]; so two fields from columns of
    the same name and the same member name never share an identifier, and
    in particular the fields of two result columns with the same non-empty
    name differ. *)
Theorem repeated_column_names_suffixed (req : plugin.CodeGenRequest) (name : string)
  (columns : list goColumn) (namer : plugin.Column -> Z -> string) :
  let gs := ktColumnsToStruct req name columns namer in
  let firsts := first_usages columns in
  Struct_Fields gs = imap (field_of req namer firsts) firsts
  /\ (forall k1 k2 c1 c2 f1 f2,
        k1 <> k2 ->
        firsts !! k1 = Some c1 ->
        firsts !! k2 = Some c2 ->
        Struct_Fields gs !! k1 = Some f1 ->
        Struct_Fields gs !! k2 = Some f2 ->
        plugin.Column_Name (goColumn_Column c1) = plugin.Column_Name (goColumn_Column c2) ->
        memberName (namer (goColumn_Column c1) (goColumn_id c1))
          (plugin.CodeGenRequest_Settings req)
        = memberName (namer (goColumn_Column c2) (goColumn_id c2))
            (plugin.CodeGenRequest_Settings req) ->
        Field_Name f1 <> Field_Name f2)
  /\ (forall (results : list plugin.Column) i j ci cj fi fj,
        let row := ktColumnsToStruct req name (result_columns results) ktColumnName in
        i <> j ->
        results !! i = Some ci ->
        results !! j = Some cj ->
        plugin.Column_Name ci = plugin.Column_Name cj ->
        plugin.Column_Name ci <> "" ->
        Struct_Fields row !! i = Some fi ->
        Struct_Fields row !! j = Some fj ->
        Field_Name fi <> Field_Name fj).
Proof.
  intros gs firsts.
  assert (forall columns namer,
            let gs := ktColumnsToStruct req name columns namer in
            let firsts := first_usages columns in
            forall k1 k2 c1 c2 f1 f2,
              k1 <> k2 ->
              firsts !! k1 = Some c1 ->
              firsts !! k2 = Some c2 ->
              Struct_Fields gs !! k1 = Some f1 ->
              Struct_Fields gs !! k2 = Some f2 ->
              plugin.Column_Name (goColumn_Column c1)
              = plugin.Column_Name (goColumn_Column c2) ->
              memberName (namer (goColumn_Column c1) (goColumn_id c1))
                (plugin.CodeGenRequest_Settings req)
              = memberName (namer (goColumn_Column c2) (goColumn_id c2))
                  (plugin.CodeGenRequest_Settings req) ->
              Field_Name f1 <> Field_Name f2) as Hgeneral.
  { clear. intros columns namer gs firsts k1 k2 c1 c2 f1 f2 Hne Hk1 Hk2 Hf1 Hf2 Hname Hbase.
    destruct (ktColumnsToStruct_spec req name columns namer) as (HFields & _).
    fold gs firsts in HFields.
    rewrite HFields, list_lookup_imap in Hf1, Hf2. rewrite Hk1 in Hf1. rewrite Hk2 in Hf2.
    simpl in Hf1, Hf2. injection Hf1 as <-. injection Hf2 as <-.
    by apply field_names_differ. }
  split; [apply ktColumnsToStruct_spec|]. split; [apply Hgeneral|].
  intros results i j ci cj fi fj row Hne Hi Hj Hname Hnonempty Hfi Hfj.
  assert (first_usages (result_columns results) = result_columns results) as Hfirsts
    by apply first_usages_distinct, result_columns_NoDup.
  apply (Hgeneral (result_columns results) ktColumnName i j
           (mkGoColumn (Z.of_nat i) ci) (mkGoColumn (Z.of_nat j) cj)); try done.
  - rewrite Hfirsts. unfold result_columns. by rewrite list_lookup_imap, Hi.
  - rewrite Hfirsts. unfold result_columns. by rewrite list_lookup_imap, Hj.
  - cbn. unfold ktColumnName. rewrite <- Hname.
    by rewrite !bool_decide_eq_true_2.
Qed.

End Names.

Lemma repeated_column_names_suffixed_witness :
  exists fi fj,
    Struct_Fields Cases.two_ids_row !! 0%nat = Some fi
    /\ Struct_Fields Cases.two_ids_row !! 1%nat = Some fj
    /\ Field_Name fj = "id_2"
    /\ Field_Name fi <> Field_Name fj.
Proof.
  eexists. eexists. split; [vm_compute; reflexivity|]. split; [vm_compute; reflexivity|].
  split; [reflexivity|].
  refine (proj2 (proj2 (repeated_column_names_suffixed (E:=Ref.external)
                          Ref.users_request "GetOrdersRow" [] ktColumnName))
            Cases.two_ids 0%nat 1%nat _ _ _ _ _ _ _ _ _ _ _);
    try (vm_compute; reflexivity); discriminate.
Defined.

(** C5 as stated fails: the columns [a_b] and [aB] both get the member
    name [aB], in the struct of their table and in the row struct of a
    query, where no suffix tells them apart. *)
Lemma member_names_clash :
  (exists s,
     buildDataClasses (E:=Ref.external) Cases.clash_request = [s]
     /\ map Field_Name (Struct_Fields s) = ["aB"; "aB"])
  /\ (exists gq row,
        buildQueries (E:=Ref.external) Cases.clash_request
          (buildDataClasses (E:=Ref.external) Cases.clash_request) = Ok [gq]
        /\ Query_Ret gq = mkQueryValue true "results" (Some row) ktType_zero 0
        /\ Struct_Name row = "GetClashRow"
        /\ map Field_Name (Struct_Fields row) = ["aB"; "aB"]).
Proof.
  split.
  - eexists. split; [vm_compute; reflexivity|reflexivity].
  - eexists. eexists. split; [vm_compute; reflexivity|].
    split; [reflexivity|]. split; reflexivity.
Qed.

(** ** Argument structs *)

Section Arguments.

Context {E : External}.

Lemma buildQueries_query_Arg (req : plugin.CodeGenRequest) (structs : list Struct)
  (query : plugin.Query) :
  Params_Struct (Query_Arg (buildQueries_query req structs query))
  = ktColumnsToStruct req (strings_Title (plugin.Query_Name query) +:+ "Bindings")
      (param_columns (plugin.Query_Params query)) ktParamName.
Proof.
  unfold buildQueries_query, param_columns. cbn [Query_Arg Params_Struct].
  by rewrite foldl_snoc_map.
Qed.

(** C1: in the argument struct of a query, the first usage of each
    parameter number creates one field, named from the column of that
    usage ([dollar_] and the number when the column has no name) and
    suffixed when the column name repeats; every usage, first or later,
    appends one binding, which is the field of the first usage of its
    number.  So the fields are as many as the distinct numbers, the
    bindings as many as the usages, and a query that uses number 1 three
    times and number 2 once has 2 fields and 4 bindings. *)
Theorem argument_struct_bindings (req : plugin.CodeGenRequest) (structs : list Struct)
  (query : plugin.Query) :
  let params := plugin.Query_Params query in
  let gs := Params_Struct (Query_Arg (buildQueries_query req structs query)) in
  let firsts := first_usages (param_columns params) in
  (forall k c, firsts !! k = Some c ->
     exists i p, params !! i = Some p
       /\ c = mkGoColumn (plugin.Param_Number p) (plugin.Param_Column p)
       /\ forall j pj, (j < i)%nat -> params !! j = Some pj ->
            plugin.Param_Number pj <> plugin.Param_Number p)
  /\ NoDup (map goColumn_id firsts)
  /\ Struct_Fields gs = imap (field_of req ktParamName firsts) firsts
  /\ (forall k c f, firsts !! k = Some c -> Struct_Fields gs !! k = Some f ->
        Field_Type f = makeType req (goColumn_Column c)
        /\ exists v, 0 <= v
             /\ Field_Name f
                = suffixed
                    (memberName
                       (if bool_decide (plugin.Column_Name (goColumn_Column c) <> "")
                        then ktArgName (plugin.Column_Name (goColumn_Column c))
                        else "dollar_" +:+ fmt_d (goColumn_id c))
                       (plugin.CodeGenRequest_Settings req))
                    v)
  /\ length (Struct_Fields gs)
     = size (list_to_set (map plugin.Param_Number params) : gset Z)
  /\ length (Struct_JDBCParamBindings gs) = length params
  /\ (forall i p, params !! i = Some p ->
        exists k c f, firsts !! k = Some c
          /\ goColumn_id c = plugin.Param_Number p
          /\ Struct_Fields gs !! k = Some f
          /\ Struct_JDBCParamBindings gs !! i = Some f)
  /\ (forall i j pi pj,
        params !! i = Some pi -> params !! j = Some pj ->
        plugin.Param_Number pi = plugin.Param_Number pj ->
        Struct_JDBCParamBindings gs !! i = Struct_JDBCParamBindings gs !! j)
  /\ (map plugin.Param_Number params ≡ₚ [1; 1; 1; 2] ->
      length (Struct_Fields gs) = 2%nat /\ length (Struct_JDBCParamBindings gs) = 4%nat).
Proof.
  intros params gs firsts. subst gs firsts. rewrite buildQueries_query_Arg.
  destruct (ktColumnsToStruct_spec req
              (strings_Title (plugin.Query_Name query) +:+ "Bindings")
              (param_columns params) ktParamName) as (HFields & Hlen & HBindings).
  set (gs := ktColumnsToStruct _ _ _ _) in *.
  set (firsts := first_usages _) in *.
  assert (forall i, param_columns params !! i
                    = (fun p => mkGoColumn (plugin.Param_Number p) (plugin.Param_Column p))
                        <$> params !! i) as Hcols.
  { intros i. unfold param_columns. apply lookup_map. }
  assert (map goColumn_id (param_columns params) = map plugin.Param_Number params) as Hids.
  { unfold param_columns. by rewrite map_map. }
  assert (length (Struct_JDBCParamBindings gs) = length params) as Hlen'.
  { rewrite Hlen. unfold param_columns. apply length_map. }
  assert (length (Struct_Fields gs)
          = size (list_to_set (map plugin.Param_Number params) : gset Z)) as Hsize.
  { rewrite HFields, length_imap. unfold firsts. by rewrite first_usages_size, Hids. }
  assert (forall i p, params !! i = Some p ->
            exists k c, firsts !! k = Some c
              /\ goColumn_id c = plugin.Param_Number p
              /\ Struct_Fields gs !! k = Some (field_of req ktParamName firsts k c)
              /\ Struct_JDBCParamBindings gs !! i
                 = Some (field_of req ktParamName firsts k c)) as Husage.
  { intros i p Hp.
    destruct (HBindings i (mkGoColumn (plugin.Param_Number p) (plugin.Param_Column p)))
      as (k & c & ?); [by rewrite Hcols, Hp|]. by exists k, c. }
  split; [|split; [|split; [|split; [|split; [|split; [|split; [|split]]]]]]].
  - intros k c (i & Hi & Hfirst)%first_usages_lookup.
    rewrite Hcols in Hi. destruct (params !! i) as [p|] eqn:Hp; [|done].
    injection Hi as <-. exists i, p. split; [done|]. split; [done|].
    intros j pj Hj Hpj.
    apply (Hfirst j (mkGoColumn (plugin.Param_Number pj) (plugin.Param_Column pj)) Hj).
    by rewrite Hcols, Hpj.
  - apply first_usages_NoDup.
  - done.
  - intros k c f Hk Hf. rewrite HFields, list_lookup_imap, Hk in Hf.
    injection Hf as <-. split; [done|]. eexists. split; [apply named_nonneg|].
    unfold field_of, ktParamName. cbn [Field_Name]. reflexivity.
  - done.
  - done.
  - intros i p Hp. destruct (Husage i p Hp) as (k & c & ? & ? & ? & ?).
    by exists k, c, (field_of req ktParamName firsts k c).
  - intros i j pi pj Hpi Hpj Heq.
    destruct (Husage i pi Hpi) as (ki & ci & Hki & Hci & _ & ->).
    destruct (Husage j pj Hpj) as (kj & cj & Hkj & Hcj & _ & ->).
    assert (ki = kj) as ->.
    { eapply NoDup_lookup; [apply (first_usages_NoDup (param_columns params))|..].
      - fold firsts. by rewrite lookup_map, Hki.
      - fold firsts. rewrite lookup_map, Hkj. simpl. congruence. }
    congruence.
  - intros Hperm. rewrite Hsize, Hlen'.
    rewrite <- (length_map plugin.Param_Number params).
    rewrite (list_to_set_perm_L _ _ Hperm), (Permutation_length Hperm).
    split; reflexivity.
Qed.

End Arguments.

Lemma argument_struct_bindings_witness :
  length (Struct_Fields
            (Params_Struct
               (Query_Arg (buildQueries_query (E:=Ref.external) Ref.users_request
                             [Cases.User] Cases.four_usages)))) = 2%nat
  /\ length (Struct_JDBCParamBindings
               (Params_Struct
                  (Query_Arg (buildQueries_query (E:=Ref.external) Ref.users_request
                                [Cases.User] Cases.four_usages)))) = 4%nat.
Proof.
  apply (argument_struct_bindings (E:=Ref.external) Ref.users_request [Cases.User]
           Cases.four_usages).
  cbn. apply perm_skip. etrans; [apply perm_swap|]. apply perm_skip, perm_swap.
Defined.

(** ** Output order *)

Section Output.

Context {E : External}.

(** A run that succeeds fills the map with the three files. *)
Lemma Generate_output_files (req : plugin.CodeGenRequest) (output : gmap string string) :
  Generate_output req = Ok output ->
  exists models queries impl,
    map_to_list output
    ≡ₚ [("QueriesImpl.kt", impl); ("Queries.kt", queries); ("Models.kt", models)].
Proof.
  unfold Generate_output. destruct (buildQueries req _) as [qs|]; [|done].
  unfold execute.
  destruct (template_Execute ktModelsTmpl _ _) as [models|]; [|done].
  destruct (template_Execute ktIfaceTmpl _ _) as [queries|]; [|done].
  destruct (template_Execute ktSqlTmpl _ _) as [impl|]; [|done].
  change (strings_HasSuffix "Models.kt" ".kt") with true.
  change (strings_HasSuffix "Queries.kt" ".kt") with true.
  change (strings_HasSuffix "QueriesImpl.kt" ".kt") with true.
  cbn [negb]. intros [= <-].
  exists (ktFormat models), (ktFormat queries), (ktFormat impl).
  rewrite map_to_list_insert by (by rewrite !lookup_insert_ne, lookup_empty).
  rewrite map_to_list_insert by (by rewrite lookup_insert_ne, lookup_empty).
  rewrite map_to_list_insert by apply lookup_empty.
  by rewrite map_to_list_empty.
Qed.

Lemma Generate_total (req : plugin.CodeGenRequest) : exists r, Generate req r.
Proof.
  destruct (Generate_output req) as [output|err] eqn:Hout.
  - eexists. by eapply Generate_resp.
  - eexists. by apply Generate_err.
Qed.

End Output.

Section Determinism.

Context {E : External} {L : SortSliceLaws E}.

Lemma sorted_if_nonempty {A : Type} (key : A -> string) (l : list A) :
  StronglySorted (fun a b => String.le (key a) (key b))
    (if bool_decide (0 < length l)%nat then sort_Slice (by_name key) l else l).
Proof.
  case_bool_decide as Hlen.
  - apply (sort_Slice_Sorted A key l).
  - destruct l; [constructor|simpl in Hlen; lia].
Qed.

(** C6, as amended: the three descriptor lists are functions of the
    request, and they are sorted, enums and structs by name and queries by
    method name.  Two runs on the same request end the same way: both with
    the same error, or both with the three files [Models.kt], [Queries.kt]
    and [QueriesImpl.kt], with the same contents; the order of the files in
    the response is not fixed. *)
Theorem generation_deterministic (req : plugin.CodeGenRequest) :
  StronglySorted (fun a b => String.le (Enum_Name a) (Enum_Name b)) (buildEnums req)
  /\ StronglySorted (fun a b => String.le (Struct_Name a) (Struct_Name b))
       (buildDataClasses req)
  /\ (forall structs qs,
        buildQueries req structs = Ok qs ->
        StronglySorted (fun a b => String.le (Query_MethodName a) (Query_MethodName b)) qs)
  /\ (exists r, Generate req r)
  /\ (forall r1 r2, Generate req r1 -> Generate req r2 ->
        (exists err, r1 = (None, Some err) /\ r2 = (None, Some err))
        \/ (exists files1 files2 models queries impl,
              r1 = (Some (plugin.mkCodeGenResponse files1), None)
              /\ r2 = (Some (plugin.mkCodeGenResponse files2), None)
              /\ files1 ≡ₚ files2
              /\ files1 ≡ₚ [plugin.mkFile "Models.kt" models;
                            plugin.mkFile "Queries.kt" queries;
                            plugin.mkFile "QueriesImpl.kt" impl])).
Proof.
  split; [apply sorted_if_nonempty|]. split; [apply sorted_if_nonempty|].
  split; [|split; [apply Generate_total|]].
  - intros structs qs. unfold buildQueries.
    destruct (buildQueries_loop req structs _ []) as [qs'|]; [|done].
    intros [= <-]. apply (sort_Slice_Sorted Query Query_MethodName qs').
  - intros r1 r2 [err1 Herr1|output1 files1 Hout1 Hfiles1]
      [err2 Herr2|output2 files2 Hout2 Hfiles2]; try congruence.
    + left. exists err1. split; [done|]. congruence.
    + right. assert (output2 = output1) as -> by congruence.
      destruct (Generate_output_files req output1 Hout1) as (models & queries & impl & Hlist).
      exists files1, files2, models, queries, impl.
      split; [done|]. split; [done|]. split; [by rewrite Hfiles1, Hfiles2|].
      rewrite Hfiles1, Hlist. simpl. symmetry. apply (Permutation_rev [_; _; _]).
Qed.

End Determinism.

Lemma generation_deterministic_witness :
  exists r, Generate (E:=Ref.external) Ref.users_request r.
Proof.
  apply (generation_deterministic (E:=Ref.external) (L:=Ref_laws) Ref.users_request).
Defined.

(** C6 as stated fails: the response lists the files in the order in which
    Go ranges over a map, so two runs on the same request may return the
    same files in different orders. *)
Lemma file_order_not_fixed :
  exists models queries impl,
    Generate (E:=Ref.external) Ref.users_request
      (Some (plugin.mkCodeGenResponse [models; queries; impl]), None)
    /\ Generate (E:=Ref.external) Ref.users_request
         (Some (plugin.mkCodeGenResponse [impl; queries; models]), None)
    /\ plugin.File_Name models = "Models.kt"
    /\ plugin.File_Name queries = "Queries.kt"
    /\ plugin.File_Name impl = "QueriesImpl.kt".
Proof.
  assert (exists output, Generate_output (E:=Ref.external) Ref.users_request = Ok output)
    as [output Hout] by (eexists; vm_compute; reflexivity).
  destruct (Generate_output_files _ _ Hout) as (models & queries & impl & Hlist).
  exists (plugin.mkFile "Models.kt" models), (plugin.mkFile "Queries.kt" queries),
    (plugin.mkFile "QueriesImpl.kt" impl).
  split; [|split; [|done]].
  - eapply Generate_resp; [exact Hout|]. rewrite Hlist. simpl.
    apply (Permutation_rev [_; _; _]).
  - eapply Generate_resp; [exact Hout|]. by rewrite Hlist.
Qed.

(** * Further properties *)

(** ** Splitting and joining *)

Lemma append_assoc (a b c : string) : (a +:+ b) +:+ c = a +:+ (b +:+ c).
Proof. induction a as [|x a IH]; [done|]. by rewrite !append_cons, IH. Qed.

Lemma rev_app_append (s1 s2 : string) : String.rev_app s1 s2 = String.rev s1 +:+ s2.
Proof.
  unfold String.rev. revert s2. induction s1 as [|c s1 IH]; intros s2; [done|].
  simpl. by rewrite IH, (IH (String c "")), append_assoc.
Qed.

Lemma rev_cons (c : ascii) (s : string) : String.rev (String c s) = String.rev s +:+ String c "".
Proof. unfold String.rev at 1. simpl. apply rev_app_append. Qed.

Lemma rev_append (a b : string) : String.rev (a +:+ b) = String.rev b +:+ String.rev a.
Proof.
  induction a as [|x a IH].
  - by rewrite append_empty, append_empty_r.
  - by rewrite append_cons, !rev_cons, IH, append_assoc.
Qed.

Lemma rev_rev (s : string) : String.rev (String.rev s) = s.
Proof.
  induction s as [|c s IH]; [done|]. by rewrite rev_cons, rev_append, IH.
Qed.

Lemma without_append (a : ascii) (s1 s2 : string) :
  without a (s1 +:+ s2) = without a s1 && without a s2.
Proof.
  unfold without. induction s1 as [|c s1 IH]; [done|].
  rewrite append_cons. simpl. by rewrite IH, andb_assoc.
Qed.

Lemma without_rev (a : ascii) (s : string) : without a (String.rev s) = without a s.
Proof.
  induction s as [|c s IH]; [done|].
  rewrite rev_cons, without_append, IH. unfold without. simpl.
  by rewrite andb_true_r, andb_comm.
Qed.

Lemma prefix_byte (a c : ascii) (s : string) :
  String.prefix (String a "") (String c s) = bool_decide (a = c).
Proof.
  simpl. destruct (ascii_dec a c) as [->|Hne].
  - by rewrite prefix_empty, bool_decide_eq_true_2.
  - by rewrite bool_decide_eq_false_2.
Qed.

Section SplitByte.

Variable a : ascii.

Abbreviation sep := (String a "").

Lemma Split_go_nonempty (cur s : string) : strings_Split_go sep O cur s <> [].
Proof.
  revert cur. induction s as [|c s IH]; intros cur; [done|].
  cbn [strings_Split_go]. rewrite prefix_byte. by case_bool_decide.
Qed.

Lemma Join_cons (x : string) (l : list string) :
  l <> [] -> strings_Join (x :: l) sep = x +:+ sep +:+ strings_Join l sep.
Proof. by destruct l. Qed.

(** Joining the pieces gives the text back. *)
Lemma Join_Split_go (cur s : string) :
  strings_Join (strings_Split_go sep O cur s) sep = String.rev cur +:+ s.
Proof.
  revert cur. induction s as [|c s IH]; intros cur.
  - simpl. by rewrite append_empty_r.
  - cbn [strings_Split_go]. rewrite prefix_byte. case_bool_decide as Hc.
    + subst c. change (String.length sep - 1)%nat with O.
      rewrite Join_cons by apply Split_go_nonempty. by rewrite IH.
    + rewrite IH, rev_cons, append_assoc. done.
Qed.

Lemma Join_Split (s : string) : strings_Join (strings_Split s sep) sep = s.
Proof. unfold strings_Split. by rewrite Join_Split_go. Qed.

(** No piece contains the separator. *)
Lemma Split_go_without (cur s : string) :
  without a cur = true ->
  Forall (fun p => without a p = true) (strings_Split_go sep O cur s).
Proof.
  revert cur. induction s as [|c s IH]; intros cur Hcur.
  - constructor; [by rewrite without_rev|constructor].
  - cbn [strings_Split_go]. rewrite prefix_byte. case_bool_decide as Hc.
    + constructor; [by rewrite without_rev|]. by apply IH.
    + apply IH. unfold without in *. simpl. rewrite Hcur.
      by rewrite bool_decide_eq_false_2 by congruence.
Qed.

Lemma Split_without (s : string) :
  Forall (fun p => without a p = true) (strings_Split s sep).
Proof. by apply Split_go_without. Qed.

(** Reading a piece without separator moves it to [cur]. *)
Lemma Split_go_piece (p rest cur : string) :
  without a p = true ->
  strings_Split_go sep O cur (p +:+ rest)
  = strings_Split_go sep O (String.rev_app p cur) rest.
Proof.
  revert cur. induction p as [|c p IH]; intros cur Hp; [done|].
  unfold without in Hp. simpl in Hp. apply andb_prop in Hp as [Hc Hp].
  apply negb_true_iff, bool_decide_eq_false in Hc.
  rewrite append_cons. cbn [strings_Split_go]. rewrite prefix_byte.
  rewrite bool_decide_eq_false_2 by congruence. by rewrite IH.
Qed.

(** Splitting the join of pieces without separator gives the pieces
    back. *)
Lemma Split_go_Join (l : list string) (p cur : string) :
  Forall (fun p => without a p = true) (p :: l) ->
  strings_Split_go sep O cur (strings_Join (p :: l) sep)
  = (String.rev cur +:+ p) :: l.
Proof.
  revert p cur. induction l as [|q l IH]; intros p cur Hall.
  - apply Forall_cons_1 in Hall as [Hp _]. simpl.
    rewrite <- (append_empty_r p) at 1. rewrite Split_go_piece by done. simpl.
    by rewrite rev_app_append, rev_append, rev_rev.
  - apply Forall_cons_1 in Hall as [Hp Hall].
    rewrite Join_cons by done. rewrite Split_go_piece by done.
    rewrite append_cons, append_empty. cbn [strings_Split_go]. rewrite prefix_byte.
    rewrite bool_decide_eq_true_2 by done. change (String.length sep - 1)%nat with O.
    rewrite IH by done. rewrite append_empty.
    by rewrite rev_app_append, rev_append, rev_rev.
Qed.

Lemma Split_Join (l : list string) :
  l <> [] ->
  Forall (fun p => without a p = true) l ->
  strings_Split (strings_Join l sep) sep = l.
Proof.
  destruct l as [|p l]; [done|]. intros _ Hall. unfold strings_Split.
  by rewrite Split_go_Join.
Qed.

End SplitByte.

(** ** Formatting *)

Lemma Join_snoc (sep : string) (l : list string) (x : string) :
  l <> [] -> strings_Join (l ++ [x]) sep = strings_Join l sep +:+ sep +:+ x.
Proof.
  induction l as [|y l IH]; [done|]. intros _. destruct l as [|z l]; [done|].
  change ((y :: z :: l) ++ [x]) with (y :: ((z :: l) ++ [x])).
  change (strings_Join (y :: (z :: l) ++ [x]) sep)
    with (y +:+ sep +:+ strings_Join ((z :: l) ++ [x]) sep).
  rewrite IH by done.
  change (strings_Join (y :: z :: l) sep) with (y +:+ sep +:+ strings_Join (z :: l) sep).
  by rewrite !append_assoc.
Qed.

Lemma ktFormat_loop (lines : list string) (skipNextSpace : bool) (kept : list string) :
  (foldl (fun '(skipNextSpace, lines) l =>
            let isSpace := only_space l in
            (isSpace, if negb isSpace || negb skipNextSpace then lines ++ [l] else lines))
     (skipNextSpace, kept) lines).2
  = kept ++ squeeze skipNextSpace lines.
Proof.
  revert skipNextSpace kept. induction lines as [|l lines IH]; intros skip kept.
  - simpl. by rewrite app_nil_r.
  - cbn [foldl squeeze]. rewrite IH.
    destruct (negb (only_space l) || negb skip); [by rewrite <- app_assoc|done].
Qed.

Lemma ktFormat_squeeze (s : string) :
  ktFormat s
  = strings_Join (squeeze false (strings_Split s newline)) newline +:+ newline.
Proof.
  unfold ktFormat.
  pose proof (ktFormat_loop (strings_Split s newline) false []) as H.
  destruct (foldl _ _ _) as [skip lines]. simpl in H. by rewrite H.
Qed.








(** ** Indentation *)

Lemma indent_Join (s : string) (n firstIndent : Z) :
  indent s n firstIndent
  = strings_Join
      (imap (fun i l => spaces (indent_of n firstIndent i) +:+ l) (strings_Split s newline))
      newline.
Proof.
  unfold indent. induction (strings_Split s newline) as [|l lines IH] using rev_ind; [done|].
  rewrite !imap_app, foldl_app, IH. cbn [imap foldl]. rewrite Nat.add_0_r.
  destruct lines as [|l0 lines].
  - simpl. by rewrite append_empty.
  - rewrite bool_decide_eq_true_2 by done.
    rewrite Join_snoc by done. by rewrite !append_assoc.
Qed.

Lemma spaces_without_newline (n : nat) : without "010" (spaces n) = true.
Proof. induction n as [|n IH]; [done|]. done. Qed.

Lemma imap_id {A : Type} (l : list A) : imap (fun _ x => x) l = l.
Proof. induction l as [|x l IH]; [done|]. rewrite imap_cons. by f_equal. Qed.

(** X2: [indent] works line by line: the lines of the result are the
    lines of the text, each after its indentation ([firstIndent] spaces
    for the first line unless [firstIndent] is -1, [n] spaces otherwise, a
    negative count giving none); so it neither adds nor removes lines, and
    without indentation it returns the text. *)
Theorem indent_lines (s : string) (n firstIndent : Z) :
  strings_Split (indent s n firstIndent) newline
  = imap (fun i l => spaces (indent_of n firstIndent i) +:+ l) (strings_Split s newline)
  /\ length (strings_Split (indent s n firstIndent) newline)
     = length (strings_Split s newline)
  /\ (n <= 0 -> firstIndent <= 0 -> indent s n firstIndent = s).
Proof.
  assert (strings_Split (indent s n firstIndent) newline
          = imap (fun i l => spaces (indent_of n firstIndent i) +:+ l)
              (strings_Split s newline)) as Hlines.
  { rewrite indent_Join. apply Split_Join.
    - intros Himap. apply (Split_go_nonempty "010" "" s).
      unfold strings_Split, newline in Himap. by destruct (strings_Split_go _ _ _ _).
    - apply Forall_forall. intros p Hp.
      apply list_elem_of_lookup in Hp as [i Hi]. rewrite list_lookup_imap in Hi.
      destruct (strings_Split s newline !! i) as [l|] eqn:Hl; [|done].
      injection Hi as <-. rewrite without_append, spaces_without_newline. simpl.
      pose proof (Split_without "010" s) as Hall.
      rewrite Forall_forall in Hall. apply Hall.
      by eapply list_elem_of_lookup_2. }
  split; [done|]. split; [by rewrite Hlines, length_imap|].
  intros Hn Hf. rewrite indent_Join.
  rewrite (imap_ext _ (fun _ l => l)).
  - rewrite imap_id. apply Join_Split.
  - intros i l _. unfold indent_of.
    replace (Z.to_nat _) with O; [done|].
    destruct (_ && _); lia.
Qed.

(** ** Names *)

Lemma constant_byte_of_word (c : ascii) :
  is_word c = true -> is_constant_byte (to_upper c) = true.
Proof. destruct c as [[] [] [] [] [] [] [] []]; vm_compute; done. Qed.

Lemma constant_byte_fixed (c : ascii) :
  is_constant_byte c = true ->
  separator_to_underscore c = c /\ is_word c = true /\ to_upper c = c.
Proof. destruct c as [[] [] [] [] [] [] [] []]; vm_compute; done. Qed.

Lemma string_map_length (f : ascii -> ascii) (s : string) :
  String.length (string_map f s) = String.length s.
Proof. induction s as [|c s IH]; [done|]. simpl. by rewrite IH. Qed.

Lemma string_filter_length (p : ascii -> bool) (s : string) :
  (String.length (string_filter p s) <= String.length s)%nat.
Proof. induction s as [|c s IH]; [done|]. simpl. destruct (p c); simpl; lia. Qed.

Lemma enum_identifier_fixed (s : string) :
  string_forallb is_constant_byte s = true -> enum_identifier s = s.
Proof.
  unfold enum_identifier. induction s as [|c s IH]; [done|]. simpl.
  intros [Hc Hs]%andb_prop. destruct (constant_byte_fixed c Hc) as (-> & -> & Hup).
  simpl. by rewrite Hup, IH.
Qed.

(** X3: the identifier of an enum constant consists of upper-case
    letters, digits and underscores only, is never longer than the raw
    value, and deriving an identifier from an identifier changes nothing. *)
Theorem ktEnumValueName_bytes (value : string) :
  string_forallb is_constant_byte (ktEnumValueName value) = true
  /\ (String.length (ktEnumValueName value) <= String.length value)%nat
  /\ ktEnumValueName (ktEnumValueName value) = ktEnumValueName value.
Proof.
  rewrite !ktEnumValueName_enum_identifier.
  assert (string_forallb is_constant_byte (enum_identifier value) = true) as Hbytes.
  { unfold enum_identifier.
    induction (string_map separator_to_underscore value) as [|c s IH]; [done|].
    simpl. destruct (is_word c) eqn:Hc; [|done]. simpl.
    by rewrite constant_byte_of_word, IH. }
  split; [done|]. split.
  - unfold enum_identifier. rewrite string_map_length.
    etrans; [apply string_filter_length|]. by rewrite string_map_length.
  - by apply enum_identifier_fixed.
Qed.

Lemma append_nonempty (a b : string) : a <> "" -> a +:+ b <> "".
Proof. by destruct a. Qed.

(** X4: a column without a name gets a name from its position, and these
    names tell the positions apart: two nameless result columns get the
    same generated name only at the same position, two nameless
    parameters only with the same number; a result column never gets the
    empty name, and a named one keeps its name. *)
Theorem generated_names_distinct :
  (forall c pos, ktColumnName c pos <> "")
  /\ (forall c pos, plugin.Column_Name c <> "" -> ktColumnName c pos = plugin.Column_Name c)
  /\ (forall c1 c2 pos1 pos2,
        plugin.Column_Name c1 = "" -> plugin.Column_Name c2 = "" ->
        ktColumnName c1 pos1 = ktColumnName c2 pos2 -> pos1 = pos2)
  /\ (forall c1 c2 number1 number2,
        plugin.Column_Name c1 = "" -> plugin.Column_Name c2 = "" ->
        ktParamName c1 number1 = ktParamName c2 number2 -> number1 = number2).
Proof.
  split; [|split; [|split]].
  - intros c pos. unfold ktColumnName. case_bool_decide; [done|]. by apply append_nonempty.
  - intros c pos Hc. unfold ktColumnName. by rewrite bool_decide_eq_true_2.
  - intros c1 c2 pos1 pos2 H1 H2. unfold ktColumnName.
    rewrite !bool_decide_eq_false_2 by (intros H; by apply H).
    intros Heq%(inj (String.append "column_")). unfold fmt_d in Heq.
    apply (inj (pretty (A:=Z))) in Heq. lia.
  - intros c1 c2 n1 n2 H1 H2. unfold ktParamName.
    rewrite !bool_decide_eq_false_2 by (intros H; by apply H).
    intros Heq%(inj (String.append "dollar_")). unfold fmt_d in Heq.
    by apply (inj (pretty (A:=Z))) in Heq.
Qed.







(** ** Builders *)

Lemma foldl_nested {A B C : Type} (skip : A -> bool) (items : A -> list B)
  (g : A -> B -> C) (l : list A) (init : list C) :
  foldl (fun acc x =>
           if skip x then acc else foldl (fun acc y => acc ++ [g x y]) acc (items x))
    init l
  = init ++ flat_map (fun x => if skip x then [] else map (g x) (items x)) l.
Proof.
  revert init. induction l as [|x l IH]; intros init; simpl.
  - by rewrite app_nil_r.
  - rewrite IH. destruct (skip x); [done|]. by rewrite foldl_snoc_map, app_assoc.
Qed.

Lemma skipped_schema_false (name : string) :
  skipped_schema name = false <-> name <> "pg_catalog" /\ name <> "information_schema".
Proof.
  unfold skipped_schema. rewrite orb_false_iff, !bool_decide_eq_false. done.
Qed.

Section Builders.

Context {E : External} {L : SortSliceLaws E}.

Lemma sort_if_nonempty_Permutation {A : Type} (key : A -> string) (l : list A) :
  (if bool_decide (0 < length l)%nat then sort_Slice (by_name key) l else l) ≡ₚ l.
Proof. case_bool_decide; [apply sort_Slice_Permutation|done]. Qed.

(** X6: [buildDataClasses] returns one struct for every table of every
    schema other than [pg_catalog] and [information_schema], and no other
    struct.  The struct carries the schema and the name of its table, one
    field for each column in the order of the columns, named by
    [memberName], typed by [makeType] and with the comment of the column,
    and no binding. *)
Theorem buildDataClasses_tables (req : plugin.CodeGenRequest) :
  buildDataClasses req ≡ₚ catalog_structs req
  /\ length (buildDataClasses req) = length (catalog_structs req)
  /\ forall s, In s (buildDataClasses req) ->
       exists schema table,
         In schema (plugin.Catalog_Schemas (plugin.CodeGenRequest_Catalog req))
         /\ plugin.Schema_Name schema <> "pg_catalog"
         /\ plugin.Schema_Name schema <> "information_schema"
         /\ In table (plugin.Schema_Tables schema)
         /\ Struct_Table s
            = plugin.mkIdentifier "" (plugin.Schema_Name schema)
                (plugin.Identifier_Name (plugin.Table_Rel table))
         /\ Struct_Fields s
            = map (fun column =>
                     mkField (memberName (plugin.Column_Name column)
                                (plugin.CodeGenRequest_Settings req))
                       (makeType req column) (plugin.Column_Comment column))
                (plugin.Table_Columns table)
         /\ Struct_JDBCParamBindings s = []
         /\ Struct_Comment s = plugin.Table_Comment table.
Proof.
  assert (buildDataClasses req ≡ₚ catalog_structs req) as Hperm.
  { unfold buildDataClasses, catalog_structs.
    rewrite (foldl_nested (fun schema => skipped_schema (plugin.Schema_Name schema))
               plugin.Schema_Tables (buildDataClasses_table req)).
    apply (sort_if_nonempty_Permutation Struct_Name). }
  split; [done|]. split; [by rewrite Hperm|].
  intros s Hs. apply list_elem_of_In in Hs. rewrite Hperm in Hs.
  apply list_elem_of_In, in_flat_map in Hs as (schema & Hschema & Hs).
  destruct (skipped_schema (plugin.Schema_Name schema)) eqn:Hskip; [done|].
  apply skipped_schema_false in Hskip as [H1 H2].
  apply in_map_iff in Hs as (table & <- & Htable).
  exists schema, table. split; [done|]. split; [done|]. split; [done|]. split; [done|].
  split; [done|]. split; [|done].
  unfold buildDataClasses_table. cbn [Struct_Fields]. by rewrite foldl_snoc_map.
Qed.

(** X7: [buildEnums] returns one enum for every enum type of every schema
    other than [pg_catalog] and [information_schema], and no other enum.
    The enum of the default schema is named after the type alone, an enum
    of another schema after the schema and the type; it has one constant
    for each value, and every constant carries the name of its enum as
    its type. *)
Theorem buildEnums_enums (req : plugin.CodeGenRequest) :
  buildEnums req ≡ₚ catalog_enums req
  /\ length (buildEnums req) = length (catalog_enums req)
  /\ forall e, In e (buildEnums req) ->
       exists schema enum,
         In schema (plugin.Catalog_Schemas (plugin.CodeGenRequest_Catalog req))
         /\ plugin.Schema_Name schema <> "pg_catalog"
         /\ plugin.Schema_Name schema <> "information_schema"
         /\ In enum (plugin.Schema_Enums schema)
         /\ Enum_Name e
            = dataClassName
                (if bool_decide (plugin.Schema_Name schema
                                 = plugin.Catalog_DefaultSchema
                                     (plugin.CodeGenRequest_Catalog req))
                 then plugin.Enum_Name enum
                 else plugin.Schema_Name schema +:+ "_" +:+ plugin.Enum_Name enum)
                (plugin.CodeGenRequest_Settings req)
         /\ Enum_Comment e = plugin.Enum_Comment enum
         /\ length (Enum_Constants e) = length (plugin.Enum_Vals enum)
         /\ Forall (fun c => Constant_Type c = Enum_Name e) (Enum_Constants e).
Proof.
  assert (buildEnums req ≡ₚ catalog_enums req) as Hperm.
  { unfold buildEnums, catalog_enums.
    rewrite (foldl_nested (fun schema => skipped_schema (plugin.Schema_Name schema))
               plugin.Schema_Enums (buildEnums_enum req)).
    apply (sort_if_nonempty_Permutation Enum_Name). }
  split; [done|]. split; [by rewrite Hperm|].
  intros e He. apply list_elem_of_In in He. rewrite Hperm in He.
  apply list_elem_of_In, in_flat_map in He as (schema & Hschema & He).
  destruct (skipped_schema (plugin.Schema_Name schema)) eqn:Hskip; [done|].
  apply skipped_schema_false in Hskip as [H1 H2].
  apply in_map_iff in He as (enum & <- & Henum).
  exists schema, enum. split; [done|]. split; [done|]. split; [done|]. split; [done|].
  unfold buildEnums_enum. cbn [Enum_Name Enum_Comment Enum_Constants].
  rewrite foldl_snoc_map, app_nil_l.
  split; [done|]. split; [done|]. split; [apply length_map|].
  apply Forall_forall. by intros c [v [<- _]]%list_elem_of_In%in_map_iff.
Qed.

(** X8: [buildQueries] fails for one reason only.  Its error is the
    [CopyFrom] error and comes from a query with a name whose command is
    [CopyFrom]; when the request has no such query it returns one built
    query for every query that has a name and a command. *)
Theorem buildQueries_result (req : plugin.CodeGenRequest) (structs : list Struct) :
  (forall e, buildQueries req structs = Err e ->
     e = CopyFrom_unsupported
     /\ exists query, In query (plugin.CodeGenRequest_Queries req)
          /\ plugin.Query_Name query <> ""
          /\ plugin.Query_Cmd query = metadata_CmdCopyFrom)
  /\ ((forall query, In query (plugin.CodeGenRequest_Queries req) ->
         plugin.Query_Name query <> "" -> plugin.Query_Cmd query <> "" ->
         plugin.Query_Cmd query <> metadata_CmdCopyFrom) ->
      exists qs,
        buildQueries req structs = Ok qs
        /\ qs ≡ₚ map (buildQueries_query req structs)
                   (List.filter kept_query (plugin.CodeGenRequest_Queries req))
        /\ length qs = length (List.filter kept_query (plugin.CodeGenRequest_Queries req))).
Proof.
  split.
  - intros e. unfold buildQueries.
    destruct (buildQueries_loop req structs _ []) as [qs|e'] eqn:Hloop; [done|].
    intros [= <-]. apply buildQueries_loop_Err in Hloop
      as (-> & query & Hin & [Hn Hc]%kept_query_true & Hcopy).
    split; [done|]. by exists query.
  - intros Hnone.
    destruct (buildQueries req structs) as [qs|e] eqn:Hbuild.
    + exists qs. pose proof (buildQueries_Ok_Permutation req structs qs Hbuild) as Hperm.
      split; [done|]. split; [done|]. by rewrite Hperm, length_map.
    + exfalso. revert Hbuild. unfold buildQueries.
      destruct (buildQueries_loop req structs _ []) as [qs|e'] eqn:Hloop; [done|].
      intros _. apply buildQueries_loop_Err in Hloop
        as (_ & query & Hin & [Hn Hc]%kept_query_true & Hcopy).
      by apply (Hnone query).
Qed.

End Builders.

Section Descriptor.

Context {E : External}.

(** X9: the return descriptor of a built query tells the number of result
    columns: it is empty exactly when the query has none, it holds a struct
    exactly when the query has two or more, and a descriptor that asks for
    its struct to be emitted holds one.  The count
    [JDBCParamBindCount] is never set. *)
Theorem return_descriptor_shape (req : plugin.CodeGenRequest) (structs : list Struct)
  (query : plugin.Query) :
  let ret := Query_Ret (buildQueries_query req structs query) in
  (QueryValue_isEmpty ret = true <-> plugin.Query_Columns query = [])
  /\ (QueryValue_IsStruct ret = true <-> (2 <= length (plugin.Query_Columns query))%nat)
  /\ (QueryValue_EmitStruct ret = true -> QueryValue_IsStruct ret = true)
  /\ QueryValue_JDBCParamBindCount ret = 0.
Proof.
  intros ret. subst ret. cbn [Query_Ret buildQueries_query].
  destruct (buildQueries_Ret_cases req structs (strings_Title (plugin.Query_Name query))
              (plugin.Query_Columns query)) as (H0 & H1 & H2).
  assert (forall emit s,
            QueryValue_isEmpty (mkQueryValue emit "results" s ktType_zero 0) = false)
    as Hresults by (by intros emit [s|]).
  destruct (plugin.Query_Columns query) as [|c1 [|c2 columns]] eqn:Hcols.
  - rewrite (H0 eq_refl). split; [done|]. split; [|done].
    split; [done|]. simpl. lia.
  - rewrite (H1 c1 eq_refl). split; [|split; [|done]].
    + unfold QueryValue_isEmpty. cbn [QueryValue_Typ QueryValue_Name].
      rewrite (bool_decide_eq_false_2 (_ = ktType_zero)) by apply makeType_not_zero.
      done.
    + split; [done|]. simpl. lia.
  - specialize (H2 ltac:(simpl; lia)).
    destruct (find _ structs); rewrite H2, Hresults;
      (split; [done|]); (split; [|done]); (split; [simpl; lia|done]).
Qed.

End Descriptor.

(** ** Query structs *)

Section Structure.

Context {E : External}.

Lemma ktColumnsToStruct_step_sublist req namer st c :
  Struct_Fields (vars_gs st) `sublist_of` Struct_JDBCParamBindings (vars_gs st) ->
  Struct_Fields (vars_gs (ktColumnsToStruct_step req namer st c))
    `sublist_of` Struct_JDBCParamBindings (vars_gs (ktColumnsToStruct_step req namer st c)).
Proof.
  intros Hsub. unfold ktColumnsToStruct_step.
  destruct (vars_idSeen st !! goColumn_id c); cbn.
  - by apply sublist_inserts_r.
  - by apply sublist_app.
Qed.

Lemma ktColumnsToStruct_sublist req name columns namer :
  Struct_Fields (ktColumnsToStruct req name columns namer)
    `sublist_of` Struct_JDBCParamBindings (ktColumnsToStruct req name columns namer).
Proof.
  unfold ktColumnsToStruct.
  assert (forall st,
            Struct_Fields (vars_gs st) `sublist_of` Struct_JDBCParamBindings (vars_gs st) ->
            Struct_Fields (vars_gs (foldl (ktColumnsToStruct_step req namer) st columns))
              `sublist_of`
              Struct_JDBCParamBindings
                (vars_gs (foldl (ktColumnsToStruct_step req namer) st columns))) as H.
  { induction columns as [|c columns IH]; intros st Hst; [done|].
    simpl. by apply IH, ktColumnsToStruct_step_sublist. }
  by apply H.
Qed.

Lemma ktColumnsToStruct_nil req name columns namer :
  length (Struct_JDBCParamBindings (ktColumnsToStruct req name columns namer))
  = length columns
  /\ (Struct_Fields (ktColumnsToStruct req name columns namer) = [] <-> columns = []).
Proof.
  destruct (ktColumnsToStruct_spec req name columns namer) as (HFields & Hlen & HBindings).
  split; [done|]. split.
  - intros Hnil. destruct columns as [|c columns]; [done|].
    destruct (HBindings O c eq_refl) as (k & c0 & _ & _ & Hk & _).
    by rewrite Hnil in Hk.
  - intros ->. done.
Qed.

(** X10: in a struct built by [ktColumnsToStruct] the fields are a
    subsequence of the bindings and every binding is one of the fields;
    there is one binding for each column, and no field exactly when there
    is no column.  The struct has the given name, no table and no
    comments.  When the columns have distinct numbers, as the result
    columns of a query have, the bindings are the fields, one for each
    column, with the types of the columns in order. *)
Theorem ktColumnsToStruct_structure (req : plugin.CodeGenRequest) (name : string)
  (columns : list goColumn) (namer : plugin.Column -> Z -> string) :
  let gs := ktColumnsToStruct req name columns namer in
  Struct_Fields gs `sublist_of` Struct_JDBCParamBindings gs
  /\ (forall f, f ∈ Struct_JDBCParamBindings gs -> f ∈ Struct_Fields gs)
  /\ length (Struct_JDBCParamBindings gs) = length columns
  /\ (length (Struct_Fields gs) <= length columns)%nat
  /\ (Struct_Fields gs = [] <-> columns = [])
  /\ Struct_Name gs = name
  /\ Struct_Table gs = Identifier_zero
  /\ Struct_Comment gs = ""
  /\ Forall (fun f => Field_Comment f = "") (Struct_Fields gs)
  /\ (NoDup (map goColumn_id columns) ->
      Struct_JDBCParamBindings gs = Struct_Fields gs
      /\ map Field_Type (Struct_Fields gs)
         = map (fun c => makeType req (goColumn_Column c)) columns).
Proof.
  intros gs.
  destruct (ktColumnsToStruct_spec req name columns namer) as (HFields & Hlen & HBindings).
  pose proof (ktColumnsToStruct_sublist req name columns namer) as Hsub.
  destruct (loop_inv_foldl req namer name columns) as [HTable HName HComment _ _ _ _ _ _].
  fold (ktColumnsToStruct req name columns namer) in HTable, HName, HComment.
  fold gs in HFields, Hlen, HBindings, Hsub, HTable, HName, HComment.
  split; [done|]. split; [|split; [done|split; [|split; [|split; [done|split; [done|
    split; [done|split]]]]]]].
  - intros f [i Hi]%list_elem_of_lookup.
    destruct (lookup_lt_is_Some_2 columns i) as [c Hc].
    { rewrite <- Hlen. by eapply lookup_lt_Some. }
    destruct (HBindings i c Hc) as (k & c0 & _ & _ & Hk & Hb).
    rewrite Hb in Hi. injection Hi as <-. by eapply list_elem_of_lookup_2.
  - rewrite <- Hlen. by apply sublist_length.
  - apply ktColumnsToStruct_nil.
  - rewrite HFields. apply Forall_forall.
    intros f [i Hi]%list_elem_of_lookup. rewrite list_lookup_imap in Hi.
    destruct (first_usages columns !! i); [|done]. by injection Hi as <-.
  - intros Hnd. pose proof (first_usages_distinct columns Hnd) as Hfs.
    rewrite Hfs in HFields, HBindings.
    assert (forall i c, columns !! i = Some c ->
              Struct_JDBCParamBindings gs !! i = Some (field_of req namer columns i c)) as Hb.
    { intros i c Hc. destruct (HBindings i c Hc) as (k & c0 & Hk & Hid & _ & ->).
      assert (k = i) as ->.
      { eapply NoDup_lookup; [exact Hnd|..].
        - by rewrite lookup_map, Hk.
        - rewrite lookup_map, Hc. simpl. by rewrite Hid. }
      congruence. }
    split.
    + apply list_eq. intros i. rewrite HFields, list_lookup_imap.
      destruct (columns !! i) as [c|] eqn:Hc; [by rewrite (Hb i c Hc)|].
      apply lookup_ge_None. rewrite Hlen. by apply lookup_ge_None.
    + apply list_eq. intros i. rewrite !lookup_map, HFields, list_lookup_imap.
      by destruct (columns !! i).
Qed.

(** ** Arguments and bindings as text *)

Lemma append_empty_inv (a b : string) : a +:+ b = "" -> a = "" /\ b = "".
Proof. destruct a; [done|]. by rewrite append_cons. Qed.

Lemma jdbcSet_nonempty (t : ktType) (idx : Z) (name : string) : jdbcSet t idx name <> "".
Proof. unfold jdbcSet. repeat case_match; by apply append_nonempty. Qed.

Lemma Join_nonempty (x : string) (l : list string) (sep : string) :
  x <> "" -> strings_Join (x :: l) sep <> "".
Proof. intros Hx. destruct l; [done|]. by apply append_nonempty. Qed.

Lemma indent_nonempty (s : string) (n firstIndent : Z) :
  s <> "" -> indent s n firstIndent <> "".
Proof.
  intros Hs Hindent. apply Hs. rewrite indent_Join in Hindent.
  rewrite <- (Join_Split "010" s). fold newline.
  destruct (strings_Split s newline) as [|l [|l' lines]]; [done| |].
  - rewrite imap_cons in Hindent. simpl in Hindent.
    by apply append_empty_inv in Hindent as [_ ->].
  - rewrite !imap_cons in Hindent.
    change (strings_Join (?x :: ?y :: ?l) ?sep)
      with (x +:+ sep +:+ strings_Join (y :: l) sep) in Hindent.
    by apply append_empty_inv in Hindent as [_ [? _]%append_empty_inv].
Qed.

(** X11: [Args] and [Bindings] guard on the fields of the argument struct
    and then render the fields and the bindings.  For a built query the
    guard never hides a binding: the argument struct has no field exactly
    when the query has no parameter, and then, and only then, [Args] and
    [Bindings] return the empty text. *)
Theorem Params_empty (req : plugin.CodeGenRequest) (structs : list Struct)
  (query : plugin.Query) :
  let arg := Query_Arg (buildQueries_query req structs query) in
  (Params_isEmpty arg = true <-> plugin.Query_Params query = [])
  /\ (Struct_JDBCParamBindings (Params_Struct arg) = [] <-> plugin.Query_Params query = [])
  /\ (Params_Args arg = "" <-> plugin.Query_Params query = [])
  /\ (Params_Bindings arg = "" <-> plugin.Query_Params query = []).
Proof.
  intros arg.
  assert (arg = mkParams (Params_Struct arg)) as Harg by (by destruct arg).
  pose proof (buildQueries_query_Arg req structs query) as Hgs. fold arg in Hgs.
  destruct (ktColumnsToStruct_nil req
              (strings_Title (plugin.Query_Name query) +:+ "Bindings")
              (param_columns (plugin.Query_Params query)) ktParamName)
    as [Hlen Hnil].
  rewrite <- Hgs in Hlen, Hnil.
  assert (param_columns (plugin.Query_Params query) = [] <-> plugin.Query_Params query = [])
    as Hparams by (unfold param_columns; by destruct (plugin.Query_Params query)).
  rewrite Hparams in Hnil.
  assert (Params_isEmpty arg = true <-> plugin.Query_Params query = []) as Hempty.
  { unfold Params_isEmpty. rewrite bool_decide_eq_true, <- Hnil.
    by destruct (Struct_Fields (Params_Struct arg)). }
  assert (Struct_JDBCParamBindings (Params_Struct arg) = []
          <-> plugin.Query_Params query = []) as Hb.
  { rewrite <- Hparams.
    destruct (Struct_JDBCParamBindings (Params_Struct arg)),
      (param_columns (plugin.Query_Params query)); done. }
  split; [done|]. split; [done|]. split.
  - unfold Params_Args. destruct (Params_isEmpty arg) eqn:He.
    { split; [intros _; by apply Hempty|done]. }
    split; [|intros Hq; apply Hempty in Hq; congruence].
    intros Htext. exfalso. revert Htext. rewrite foldl_snoc_map, app_nil_l.
    destruct (Struct_Fields (Params_Struct arg)) as [|f fields] eqn:Hf.
    { unfold Params_isEmpty in He. by rewrite Hf in He. }
    case_bool_decide.
    + apply Join_nonempty. intros [_ [? _]%append_empty_inv]%append_empty_inv. done.
    + by apply append_nonempty.
  - unfold Params_Bindings. destruct (Params_isEmpty arg) eqn:He.
    { split; [intros _; by apply Hempty|done]. }
    split; [|intros Hq; apply Hempty in Hq; congruence].
    intros Htext. exfalso. revert Htext. apply indent_nonempty.
    destruct (Struct_JDBCParamBindings (Params_Struct arg)) as [|f fields] eqn:Hf.
    { destruct Hb as [Hb _]. specialize (Hb eq_refl). apply Hempty in Hb. congruence. }
    rewrite imap_cons. cbn [foldl app].
    assert (forall l init, init <> [] ->
              foldl (fun out '(i, f) =>
                       out ++ [jdbcSet (Field_Type f) (Z.of_nat i + 1) (Field_Name f)])
                init l <> [] /\
              hd_error (foldl (fun out '(i, f) =>
                       out ++ [jdbcSet (Field_Type f) (Z.of_nat i + 1) (Field_Name f)])
                init l) = hd_error init) as Hfold.
    { clear. intros l. induction l as [|[i f] l IH]; intros init Hinit; [done|].
      simpl. destruct (IH (init ++ [jdbcSet (Field_Type f) (Z.of_nat i + 1) (Field_Name f)]))
        as [Hne Hhd]; [by destruct init|].
      split; [done|]. rewrite Hhd. by destruct init. }
    destruct (Hfold (imap ((fun i f => (i, f)) ∘ S) fields)
                [jdbcSet (Field_Type f) (Z.of_nat 0 + 1) (Field_Name f)]) as [Hne Hhd]; [done|].
    destruct (foldl _ _ _) as [|x out]; [done|]. injection Hhd as ->.
    apply Join_nonempty, jdbcSet_nonempty.
Qed.

End Structure.

(** ** Placeholders *)

Lemma placeholder_digits_pos (s : string) (n : nat) :
  placeholder_digits s = Some n -> (1 <= n)%nat.
Proof.
  revert n. induction s as [|c s IH]; intros n; [done|]. simpl.
  destruct (is_digit c); [|done].
  destruct (placeholder_digits s) as [m|].
  - intros [= <-]. lia.
  - destruct s as [|c' s']; [by intros [= <-]|]. destruct (is_word c'); [done|].
    by intros [= <-].
Qed.

Lemma rewrite_length (s : string) (skip : nat) (prev_word : bool) :
  (String.length (postgresPlaceholderRegexp_ReplaceAllString_go skip prev_word s)
   <= String.length s - skip)%nat.
Proof.
  revert skip prev_word. induction s as [|c s IH]; intros skip prev_word; [done|].
  cbn [postgresPlaceholderRegexp_ReplaceAllString_go]. destruct skip as [|k].
  - destruct (if bool_decide (c = "$"%char) && negb prev_word
              then placeholder_digits s else None) as [n|] eqn:Hn.
    + assert (placeholder_digits s = Some n) as Hd.
      { destruct (bool_decide (c = "$"%char) && negb prev_word); [done|discriminate]. }
      pose proof (placeholder_digits_pos s n Hd). pose proof (placeholder_digits_le s n Hd).
      pose proof (IH n false). cbn [String.length]. lia.
    + pose proof (IH O (is_word c)). cbn [String.length]. lia.
  - pose proof (IH k (is_word c)). cbn [String.length]. lia.
Qed.

Lemma rewrite_same_length (s : string) (prev_word : bool) :
  String.length (postgresPlaceholderRegexp_ReplaceAllString_go O prev_word s)
  = String.length s ->
  postgresPlaceholderRegexp_ReplaceAllString_go O prev_word s = s.
Proof.
  revert prev_word. induction s as [|c s IH]; intros prev_word; [done|].
  cbn [postgresPlaceholderRegexp_ReplaceAllString_go].
  destruct (if bool_decide (c = "$"%char) && negb prev_word
            then placeholder_digits s else None) as [n|] eqn:Hn.
  - assert (placeholder_digits s = Some n) as Hd.
    { destruct (bool_decide (c = "$"%char) && negb prev_word); [done|discriminate]. }
    pose proof (placeholder_digits_pos s n Hd). pose proof (placeholder_digits_le s n Hd).
    pose proof (rewrite_length s n false). cbn [String.length]. lia.
  - cbn [String.length]. intros [= Hlen]. by rewrite IH.
Qed.

(** X12: [jdbcSQL] never makes the statement longer, and it returns a text
    of the same length only when it returns the statement itself: every
    placeholder that it rewrites makes the text shorter.  A dollar sign
    that follows a word character, as the second one of [$1$2] does, is
    no placeholder: it is kept, and the text after it is rewritten as it
    would be alone. *)
Theorem jdbcSQL_shortens (s engine : string) :
  (String.length (jdbcSQL s engine) <= String.length s)%nat
  /\ (String.length (jdbcSQL s engine) = String.length s -> jdbcSQL s engine = s)
  /\ (forall pre rest : string,
        ends_with_word pre = true ->
        jdbcSQL (pre +:+ String "$" rest) "postgresql"
        = jdbcSQL pre "postgresql" +:+ String "$" (jdbcSQL rest "postgresql")).
Proof.
  unfold jdbcSQL. split; [|split].
  - case_bool_decide; [|done]. unfold postgresPlaceholderRegexp_ReplaceAllString.
    pose proof (rewrite_length s O false). lia.
  - case_bool_decide; [|done]. apply rewrite_same_length.
  - intros pre rest Hpre. rewrite !bool_decide_eq_true_2 by done.
    unfold postgresPlaceholderRegexp_ReplaceAllString.
    rewrite rewrite_app by (done || lia). f_equal.
    assert (word_before false pre = true) as -> by (by destruct pre).
    done.
Qed.

(** ** Tables and the queries that select them *)

Section Tables.

Context {E : External}.

(** X13: a table whose columns carry names and the table's own name is
    matched by its own data class: a query that returns the columns of the
    table, two or more, gets a data class of the catalog as its return
    type and no class of its own. *)
Theorem table_struct_matches (req : plugin.CodeGenRequest) (schema : plugin.Schema)
  (table : plugin.Table) :
  Forall (fun c =>
            plugin.Column_Name c <> ""
            /\ sdk_SameTableName (plugin.Column_Table c)
                 (plugin.mkIdentifier "" (plugin.Schema_Name schema)
                    (plugin.Identifier_Name (plugin.Table_Rel table)))
                 (plugin.Catalog_DefaultSchema (plugin.CodeGenRequest_Catalog req)) = true)
    (plugin.Table_Columns table) ->
  matches_struct req (plugin.Table_Columns table) (buildDataClasses_table req schema table)
  /\ forall (structs : list Struct) (className : string),
       In (buildDataClasses_table req schema table) structs ->
       (2 <= length (plugin.Table_Columns table))%nat ->
       exists s,
         In s structs
         /\ buildQueries_Ret req structs className (plugin.Table_Columns table)
            = mkQueryValue false "results" (Some s) ktType_zero 0.
Proof.
  intros Hcolumns.
  assert (matches_struct req (plugin.Table_Columns table)
            (buildDataClasses_table req schema table)) as Hmatch.
  { unfold matches_struct, buildDataClasses_table. cbn [Struct_Fields Struct_Table].
    rewrite foldl_snoc_map, app_nil_l. split; [by rewrite length_map|].
    intros i f c Hf Hc. rewrite lookup_map, Hc in Hf. injection Hf as <-.
    cbn [Field_Name Field_Type].
    rewrite Forall_forall in Hcolumns.
    destruct (Hcolumns c) as [Hname Htable]; [by eapply list_elem_of_lookup_2|].
    split; [|done]. unfold ktColumnName. by rewrite bool_decide_eq_true_2. }
  split; [done|]. intros structs className Hin Hlen.
  destruct (buildQueries_Ret_cases req structs className (plugin.Table_Columns table))
    as (_ & _ & Hret). specialize (Hret Hlen).
  destruct (find (sameStruct req (plugin.Table_Columns table)) structs) as [s|] eqn:Hfind.
  - exists s. split; [|done]. by apply find_some in Hfind as [? _].
  - apply (find_none _ _ Hfind) in Hin. apply sameStruct_matches in Hmatch. congruence.
Qed.

(** ** The response *)

Lemma Generate_output_cases (req : plugin.CodeGenRequest) :
  match buildQueries req (buildDataClasses req) with
  | Err e => Generate_output req = Err e
  | Ok queries =>
      (exists e t i tctx,
         Generate_output req = Err e
         /\ template_Execute t i tctx = Err e
         /\ ktTmplCtx_Enums tctx = buildEnums req
         /\ ktTmplCtx_DataClasses tctx = buildDataClasses req
         /\ ktTmplCtx_Queries tctx = queries)
      \/ (exists output,
            Generate_output req = Ok output
            /\ map fst (map_to_list output) ≡ₚ ["QueriesImpl.kt"; "Queries.kt"; "Models.kt"]
            /\ forall filename code, output !! filename = Some code ->
                 exists t i tctx text,
                   template_Execute t i tctx = Ok text
                   /\ ktTmplCtx_SourceName tctx = filename
                   /\ ktTmplCtx_Enums tctx = buildEnums req
                   /\ ktTmplCtx_DataClasses tctx = buildDataClasses req
                   /\ ktTmplCtx_Queries tctx = queries
                   /\ code = ktFormat text)
  end.
Proof.
  unfold Generate_output. destruct (buildQueries req _) as [qs|]; [|done].
  unfold execute.
  destruct (template_Execute ktModelsTmpl _ _) as [models|e] eqn:Hmodels;
    [|left; eexists e, _, _, _; split; [done|split; [exact Hmodels|done]]].
  change (strings_HasSuffix "Models.kt" ".kt") with true. cbn [negb].
  destruct (template_Execute ktIfaceTmpl _ _) as [queries|e] eqn:Hqueries;
    [|left; eexists e, _, _, _; split; [done|split; [exact Hqueries|done]]].
  change (strings_HasSuffix "Queries.kt" ".kt") with true. cbn [negb].
  destruct (template_Execute ktSqlTmpl _ _) as [impl|e] eqn:Himpl;
    [|left; eexists e, _, _, _; split; [done|split; [exact Himpl|done]]].
  change (strings_HasSuffix "QueriesImpl.kt" ".kt") with true. cbn [negb].
  right. eexists. split; [done|]. split.
  - rewrite map_to_list_insert by (by rewrite !lookup_insert_ne, lookup_empty).
    rewrite map_to_list_insert by (by rewrite lookup_insert_ne, lookup_empty).
    rewrite map_to_list_insert by apply lookup_empty.
    by rewrite map_to_list_empty.
  - intros filename code Hcode.
    apply lookup_insert_Some in Hcode as [[<- <-]|[_ Hcode]];
      [eexists _, _, _, _; split; [exact Himpl|done]|].
    apply lookup_insert_Some in Hcode as [[<- <-]|[_ Hcode]];
      [eexists _, _, _, _; split; [exact Hqueries|done]|].
    apply lookup_insert_Some in Hcode as [[<- <-]|[_ Hcode]];
      [eexists _, _, _, _; split; [exact Hmodels|done]|].
    by rewrite lookup_empty in Hcode.
Qed.

(** X14: [Generate] returns an error of [buildQueries] as it is.
    Otherwise it returns either the error of a template and no response,
    or a response and no error.  The response holds the three files
    [Models.kt], [Queries.kt] and [QueriesImpl.kt], in some order; the
    content of each is what [ktFormat] makes of the text that a template
    returned for the enums, data classes and queries of the builders under
    the name of the file, and it ends with a newline. *)
Theorem Generate_response (req : plugin.CodeGenRequest)
  (resp : option plugin.CodeGenResponse) (err : option error) :
  Generate req (resp, err) ->
  match buildQueries req (buildDataClasses req) with
  | Err e => resp = None /\ err = Some e
  | Ok queries =>
      (resp = None
       /\ exists e t i tctx,
            err = Some e
            /\ template_Execute t i tctx = Err e
            /\ ktTmplCtx_Enums tctx = buildEnums req
            /\ ktTmplCtx_DataClasses tctx = buildDataClasses req
            /\ ktTmplCtx_Queries tctx = queries)
      \/ (err = None
          /\ exists files,
               resp = Some (plugin.mkCodeGenResponse files)
               /\ map plugin.File_Name files ≡ₚ ["QueriesImpl.kt"; "Queries.kt"; "Models.kt"]
               /\ Forall (fun f =>
                            (exists t i tctx text,
                               template_Execute t i tctx = Ok text
                               /\ ktTmplCtx_SourceName tctx = plugin.File_Name f
                               /\ ktTmplCtx_Enums tctx = buildEnums req
                               /\ ktTmplCtx_DataClasses tctx = buildDataClasses req
                               /\ ktTmplCtx_Queries tctx = queries
                               /\ plugin.File_Contents f = ktFormat text)
                            /\ exists body, plugin.File_Contents f = body +:+ newline)
                    files)
  end.
Proof.
  intros Hgen. pose proof (Generate_output_cases req) as Hcases.
  destruct (buildQueries req (buildDataClasses req)) as [queries|e].
  - destruct Hcases as [(e & t & i & tctx & Hout & Hrest)|(output & Hout & Hnames & Hfiles)].
    + left. inversion Hgen as [err' Hout'|output' files' Hout' Hperm]; subst;
        rewrite Hout in Hout'; [|done].
      injection Hout' as <-. split; [done|]. by exists e, t, i, tctx.
    + right. inversion Hgen as [err' Hout'|output' files' Hout' Hperm]; subst;
        rewrite Hout in Hout'; [done|].
      injection Hout' as <-. split; [done|]. exists files'. split; [done|]. split.
      * etrans; [apply Permutation_map, Hperm|]. rewrite <- Hnames, map_map.
        erewrite map_ext; [done|]. by intros [filename code].
      * apply Forall_forall. intros f Hf. rewrite Hperm in Hf.
        apply list_elem_of_fmap in Hf as ([filename code] & -> & Hf).
        apply elem_of_map_to_list in Hf.
        destruct (Hfiles filename code Hf) as (t & i & tctx & text & Htext & Hrest).
        split; [by exists t, i, tctx, text|].
        cbn [plugin.File_Contents].
        destruct Hrest as (_ & _ & _ & _ & ->). rewrite ktFormat_squeeze. by eexists.
  - inversion Hgen as [err' Hout'|output' files' Hout' Hperm]; subst;
      rewrite Hcases in Hout'; [|done].
    by injection Hout' as <-.
Qed.

End Tables.

(** ** The rendered text, line by line *)

Lemma pretty_N_go_without (x : N) (s : string) :
  without "010" s = true -> without "010" (pretty_N_go x s) = true.
Proof.
  revert s. induction (N.lt_wf_0 x) as [x _ IH]. intros s Hs.
  destruct (decide (x = 0%N)) as [->|Hx]; [by rewrite pretty_N_go_0|].
  rewrite pretty_N_go_step by lia. apply IH.
  - apply N.div_lt; lia.
  - unfold without in *. cbn [string_forallb]. rewrite Hs, andb_true_r.
    unfold pretty_N_char. by repeat case_match.
Qed.

Lemma fmt_d_without (n : Z) : without "010" (fmt_d n) = true.
Proof.
  unfold fmt_d, pretty, pretty_Z.
  assert (forall p : positive, without "010" (pretty p) = true) as Hpos.
  { intros p. unfold pretty, pretty_positive, pretty, pretty_N.
    case_decide; [done|]. by apply pretty_N_go_without. }
  destruct n as [|p|p]; [done|apply Hpos|].
  rewrite without_append. by rewrite Hpos.
Qed.

Lemma jdbcGet_without (t : ktType) (idx : Z) :
  without "010" (ktType_Name t) = true -> without "010" (jdbcGet t idx) = true.
Proof.
  intros Ht. unfold jdbcGet.
  repeat case_match; rewrite ?without_append, ?Ht, ?fmt_d_without; done.
Qed.

Lemma jdbcSet_without (t : ktType) (idx : Z) (name : string) :
  without "010" (ktType_Name t) = true ->
  without "010" (ktType_DataType t) = true ->
  without "010" name = true ->
  without "010" (jdbcSet t idx name) = true.
Proof.
  intros Ht Hd Hn. unfold jdbcSet.
  repeat case_match; rewrite ?without_append, ?Ht, ?Hd, ?Hn, ?fmt_d_without; done.
Qed.

Lemma ktType_String_without (t : ktType) :
  without "010" (ktType_Name t) = true -> without "010" (ktType_String t) = true.
Proof.
  intros Ht. unfold ktType_String.
  repeat case_match; rewrite ?without_append, ?Ht; done.
Qed.

Lemma comma_without (i n : nat) : without "010" (comma i n) = true.
Proof. unfold comma. by case_bool_decide. Qed.

Lemma foldl_snoc_imap {A B : Type} (g : nat -> A -> B) (l : list A) (init : list B) :
  foldl (fun out '(i, x) => out ++ [g i x]) init (imap (fun i x => (i, x)) l)
  = init ++ imap g l.
Proof.
  assert (forall k init,
            foldl (fun out '(i, x) => out ++ [g i x]) init
              (imap (fun i x => ((k + i)%nat, x)) l)
            = init ++ imap (fun i => g (k + i)%nat) l) as H.
  { induction l as [|x l IH]; intros k init'.
    - simpl. by rewrite app_nil_r.
    - rewrite !imap_cons. cbn [foldl].
      rewrite (imap_ext _ (fun i x => ((S k + i)%nat, x))) by (intros; simpl; f_equal; lia).
      rewrite IH, <- app_assoc. cbn [app]. do 2 f_equal.
      apply imap_ext. intros i y _. simpl. f_equal. lia. }
  apply (H O).
Qed.

Lemma imap_imap {A B C : Type} (f : nat -> B -> C) (g : nat -> A -> B) (l : list A) :
  imap f (imap g l) = imap (fun i x => f i (g i x)) l.
Proof.
  revert f g. induction l as [|x l IH]; intros f g; [done|].
  rewrite !imap_cons. f_equal. apply IH.
Qed.

Lemma Join_comma (l : list string) :
  strings_Join l ("," +:+ newline)
  = strings_Join (imap (fun i x => x +:+ comma i (length l)) l) newline.
Proof.
  induction l as [|x l IH]; [done|]. destruct l as [|y l].
  - simpl. by rewrite append_empty_r.
  - change (strings_Join (x :: y :: l) ("," +:+ newline))
      with (x +:+ ("," +:+ newline) +:+ strings_Join (y :: l) ("," +:+ newline)).
    rewrite IH. rewrite (imap_cons _ x (y :: l)).
    rewrite (imap_ext ((fun i x0 => x0 +:+ comma i (length (x :: y :: l))) ∘ S)
               (fun i x0 => x0 +:+ comma i (length (y :: l))) (y :: l)).
    2:{ intros i z _. unfold comma, compose. f_equal. cbn [length].
        apply (f_equal (fun b : bool => if b then "" else ",")).
        apply bool_decide_ext. lia. }
    set (rest := imap _ (y :: l)).
    assert (rest <> []) as Hrest by done.
    rewrite (Join_cons "010") by done. fold newline.
    unfold comma at 1. rewrite bool_decide_eq_false_2 by (cbn [length]; lia).
    by rewrite !append_assoc.
Qed.

Lemma indent_Join_lines (lines : list string) (n firstIndent : Z) :
  lines <> [] ->
  Forall (fun l => without "010" l = true) lines ->
  indent (strings_Join lines newline) n firstIndent
  = strings_Join (imap (fun i l => spaces (indent_of n firstIndent i) +:+ l) lines) newline.
Proof.
  intros Hne Hall. rewrite indent_Join. unfold newline.
  by rewrite (Split_Join "010" lines Hne Hall).
Qed.

Lemma Forall_imap {A B : Type} (P : B -> Prop) (f : nat -> A -> B) (l : list A) :
  (forall i x, l !! i = Some x -> P (f i x)) -> Forall P (imap f l).
Proof.
  intros H. apply Forall_forall. intros y [i Hi]%list_elem_of_lookup.
  rewrite list_lookup_imap in Hi. destruct (l !! i) as [x|] eqn:Hx; [|done].
  injection Hi as <-. by apply H.
Qed.

Lemma imap_nonempty {A B : Type} (f : nat -> A -> B) (l : list A) :
  l <> [] -> imap f l <> [].
Proof. by destruct l. Qed.

Lemma Forall_lookup_1' {A : Type} (P : A -> Prop) (l : list A) (i : nat) (x : A) :
  Forall P l -> l !! i = Some x -> P x.
Proof. intros Hall Hx. eapply Forall_forall; [exact Hall|]. by eapply list_elem_of_lookup_2. Qed.

(** X15: the text of [ResultSet] for a struct with fields, line by line:
    the name of the struct and an opening parenthesis, one line for each
    field of the struct, in the order of the fields, and the closing
    parenthesis.  The line of field [i] reads column [i + 1] of the result
    set with [jdbcGet] at the type of the field, after 16 spaces and before
    a comma, which the last field does not have. *)
Theorem ResultSet_lines (v : QueryValue) (s : Struct) :
  QueryValue_Struct v = Some s ->
  Struct_Fields s <> [] ->
  without "010" (Struct_Name s) = true ->
  Forall (fun f => without "010" (ktType_Name (Field_Type f)) = true) (Struct_Fields s) ->
  strings_Split (QueryValue_ResultSet v) newline
  = (Struct_Name s +:+ "(")
      :: imap (fun i f =>
                 spaces 16 +:+ jdbcGet (Field_Type f) (Z.of_nat i + 1)
                 +:+ comma i (length (Struct_Fields s)))
           (Struct_Fields s)
      ++ [spaces 12 +:+ ")"].
Proof.
  intros Hs Hne Hname Htypes. unfold QueryValue_ResultSet. rewrite Hs.
  rewrite (foldl_snoc_imap (fun i f => jdbcGet (Field_Type f) (Z.of_nat i + 1))), app_nil_l.
  rewrite Join_comma, length_imap, imap_imap.
  rewrite indent_Join_lines; [|by apply imap_nonempty|]; cycle 1.
  { apply Forall_imap. intros i f Hf. rewrite without_append, comma_without, andb_true_r.
    apply jdbcGet_without. by apply (Forall_lookup_1' _ _ i f Htypes). }
  rewrite imap_imap.
  set (M := imap _ (Struct_Fields s)).
  assert (M <> []) as HM by (by apply imap_nonempty).
  assert (Forall (fun l => without "010" l = true) M) as HMall.
  { apply Forall_imap. intros i f Hf.
    rewrite !without_append, comma_without, spaces_without_newline, andb_true_r.
    apply jdbcGet_without. by apply (Forall_lookup_1' _ _ i f Htypes). }
  replace (Struct_Name s +:+ "(" +:+ newline +:+ strings_Join M newline +:+ newline +:+ ")")
    with (strings_Join ((Struct_Name s +:+ "(") :: M ++ [")"]) newline).
  2:{ rewrite (Join_cons "010") by (by destruct M). fold newline.
      rewrite Join_snoc by done. by rewrite !append_assoc. }
  assert (Forall (fun l => without "010" l = true) ((Struct_Name s +:+ "(") :: M ++ [")"]))
    as Hall.
  { constructor; [by rewrite without_append, Hname|].
    apply Forall_app. split; [done|]. by repeat constructor. }
  rewrite indent_Join_lines by done.
  unfold newline at 2. rewrite (Split_Join "010"); [|done|]; cycle 1.
  { apply Forall_imap. intros i l Hl.
    rewrite without_append, spaces_without_newline.
    by apply (Forall_lookup_1' _ _ i l Hall). }
  rewrite imap_cons, imap_app. cbn [imap]. unfold M. rewrite imap_imap, length_imap.
  f_equal. f_equal.
  apply imap_ext. intros i f _. by destruct i.
Qed.

(** X16: the text of [Bindings] and [Args] for an argument struct with
    fields, line by line.  [Bindings] has one line for each binding of the
    struct, in order: the line of binding [i] sets parameter [i + 1] with
    [jdbcSet] from the field of that name, after ten spaces but for the
    first line.  [Args] of three or more fields has an empty first line
    and then one line for each field: its name, a colon and its type,
    after six spaces and before a comma, which the last field does not
    have. *)
Theorem Params_lines (v : Params) :
  Struct_Fields (Params_Struct v) <> [] ->
  Forall (fun f =>
            without "010" (Field_Name f) = true
            /\ without "010" (ktType_Name (Field_Type f)) = true
            /\ without "010" (ktType_DataType (Field_Type f)) = true)
    (Struct_Fields (Params_Struct v) ++ Struct_JDBCParamBindings (Params_Struct v)) ->
  (Struct_JDBCParamBindings (Params_Struct v) <> [] ->
   strings_Split (Params_Bindings v) newline
   = imap (fun i f =>
             (if bool_decide (i = 0%nat) then "" else spaces 10)
             +:+ jdbcSet (Field_Type f) (Z.of_nat i + 1) (Field_Name f))
       (Struct_JDBCParamBindings (Params_Struct v)))
  /\ ((3 <= length (Struct_Fields (Params_Struct v)))%nat ->
      strings_Split (Params_Args v) newline
      = "" :: imap (fun i f =>
                      spaces 6 +:+ Field_Name f +:+ ": " +:+ ktType_String (Field_Type f)
                      +:+ comma i (length (Struct_Fields (Params_Struct v))))
                (Struct_Fields (Params_Struct v))).
Proof.
  intros Hne [Hfields Hbindings]%Forall_app.
  assert (Params_isEmpty v = false) as Hempty.
  { unfold Params_isEmpty. apply bool_decide_eq_false.
    by destruct (Struct_Fields (Params_Struct v)). }
  split.
  - intros Hb. unfold Params_Bindings. rewrite Hempty.
    rewrite (foldl_snoc_imap
               (fun i f => jdbcSet (Field_Type f) (Z.of_nat i + 1) (Field_Name f))), app_nil_l.
    assert (Forall (fun l => without "010" l = true)
              (imap (fun i f => jdbcSet (Field_Type f) (Z.of_nat i + 1) (Field_Name f))
                 (Struct_JDBCParamBindings (Params_Struct v)))) as Hall.
    { apply Forall_imap. intros i f Hf.
      destruct (Forall_lookup_1' _ _ i f Hbindings Hf) as (? & ? & ?).
      by apply jdbcSet_without. }
    rewrite indent_Join_lines; [|by apply imap_nonempty|done].
    unfold newline at 2. rewrite (Split_Join "010"); [|by do 2 apply imap_nonempty|]; cycle 1.
    { apply Forall_imap. intros i l Hl. rewrite without_append, spaces_without_newline.
      by apply (Forall_lookup_1' _ _ i l Hall). }
    rewrite imap_imap. apply imap_ext. intros i f _. cbn.
    unfold indent_of. destruct i; done.
  - intros Hlen. unfold Params_Args. rewrite Hempty.
    rewrite foldl_snoc_map, app_nil_l, length_map.
    rewrite bool_decide_eq_false_2 by lia.
    rewrite Join_comma, length_map.
    set (P := imap _ (map _ _)).
    assert (P <> []) as HP.
    { apply imap_nonempty. by destruct (Struct_Fields (Params_Struct v)). }
    assert (Forall (fun l => without "010" l = true) P) as HPall.
    { apply Forall_imap. intros i l Hl. rewrite lookup_map in Hl.
      destruct (Struct_Fields (Params_Struct v) !! i) as [f|] eqn:Hf; [|done].
      injection Hl as <-.
      destruct (Forall_lookup_1' _ _ i f Hfields Hf) as (? & ? & ?).
      rewrite !without_append, comma_without, andb_true_r.
      rewrite ktType_String_without by done. by rewrite H. }
    rewrite indent_Join_lines by done.
    set (M := imap _ P).
    replace (newline +:+ strings_Join M newline)
      with (strings_Join ("" :: M) newline).
    2:{ rewrite (Join_cons "010") by (by apply imap_nonempty). by rewrite append_empty. }
    unfold newline at 2. rewrite (Split_Join "010"); [|done|]; cycle 1.
    { constructor; [done|]. apply Forall_imap. intros i l Hl.
      rewrite without_append, spaces_without_newline.
      by apply (Forall_lookup_1' _ _ i l HPall). }
    f_equal. unfold M, P. rewrite imap_imap.
    apply list_eq. intros i. rewrite !list_lookup_imap, lookup_map.
    destruct (Struct_Fields (Params_Struct v) !! i) as [f|]; [|done].
    cbn. rewrite !append_assoc. by destruct i.
Qed.

(** ** The reference request *)

Lemma buildDataClasses_tables_witness :
  buildDataClasses (E:=Ref.external) Ref.users_request
  ≡ₚ catalog_structs (E:=Ref.external) Ref.users_request
  /\ length (buildDataClasses (E:=Ref.external) Ref.users_request)
     = length (catalog_structs (E:=Ref.external) Ref.users_request).
Proof.
  destruct (buildDataClasses_tables (E:=Ref.external) (L:=Ref_laws) Ref.users_request)
    as (Hperm & Hlen & _).
  exact (conj Hperm Hlen).
Defined.

Lemma buildEnums_enums_witness :
  buildEnums (E:=Ref.external) Ref.users_request
  ≡ₚ catalog_enums Ref.users_request
  /\ length (buildEnums (E:=Ref.external) Ref.users_request)
     = length (catalog_enums Ref.users_request).
Proof.
  destruct (buildEnums_enums (E:=Ref.external) (L:=Ref_laws) Ref.users_request)
    as (Hperm & Hlen & _).
  exact (conj Hperm Hlen).
Defined.

Lemma buildQueries_result_witness :
  exists qs,
    buildQueries (E:=Ref.external) Ref.users_request [Cases.User] = Ok qs
    /\ qs ≡ₚ [Cases.GetUsers].
Proof.
  destruct (proj2 (buildQueries_result (E:=Ref.external) (L:=Ref_laws)
                     Ref.users_request [Cases.User]))
    as (qs & Hqs & Hperm & _).
  - intros query [<-|[]] _ _. discriminate.
  - exists qs. exact (conj Hqs Hperm).
Defined.

Lemma table_struct_matches_witness :
  matches_struct (E:=Ref.external) Ref.users_request Ref.users_columns Cases.User.
Proof.
  refine (proj1 (table_struct_matches (E:=Ref.external) Ref.users_request
                   Ref.users_schema Ref.users_table _)).
  repeat constructor; discriminate.
Defined.

Lemma Generate_response_witness :
  exists files,
    Generate (E:=Ref.external) Ref.users_request
      (Some (plugin.mkCodeGenResponse files), None)
    /\ map plugin.File_Name files ≡ₚ ["QueriesImpl.kt"; "Queries.kt"; "Models.kt"].
Proof.
  assert (exists output, Generate_output (E:=Ref.external) Ref.users_request = Ok output)
    as [output Hout] by (eexists; vm_compute; reflexivity).
  assert (Generate (E:=Ref.external) Ref.users_request
            (Some (plugin.mkCodeGenResponse
                     (map (fun '(filename, code) => plugin.mkFile filename code)
                        (map_to_list output))), None)) as Hgen
    by (eapply Generate_resp; [exact Hout|reflexivity]).
  eexists. split; [exact Hgen|].
  pose proof (Generate_response (E:=Ref.external) Ref.users_request _ _ Hgen) as Hresp.
  destruct (buildQueries (E:=Ref.external) Ref.users_request
              (buildDataClasses (E:=Ref.external) Ref.users_request)) as [queries|e].
  - destruct Hresp as [[Hnone _]|[_ (files & Hfiles & Hnames & _)]]; [discriminate|].
    injection Hfiles as <-. exact Hnames.
  - destruct Hresp as [Hnone _]. discriminate.
Defined.

Lemma ResultSet_lines_witness :
  strings_Split
    (QueryValue_ResultSet (mkQueryValue false "results" (Some Cases.User) ktType_zero 0))
    newline
  = (Struct_Name Cases.User +:+ "(")
      :: imap (fun i f =>
                 spaces 16 +:+ jdbcGet (Field_Type f) (Z.of_nat i + 1)
                 +:+ comma i (length (Struct_Fields Cases.User)))
           (Struct_Fields Cases.User)
      ++ [spaces 12 +:+ ")"].
Proof.
  apply (ResultSet_lines (mkQueryValue false "results" (Some Cases.User) ktType_zero 0)
           Cases.User).
  - reflexivity.
  - discriminate.
  - reflexivity.
  - repeat constructor.
Defined.

Lemma Params_lines_witness :
  strings_Split (Params_Bindings (Query_Arg Cases.GetUsers)) newline
  = imap (fun i f =>
            (if bool_decide (i = 0%nat) then "" else spaces 10)
            +:+ jdbcSet (Field_Type f) (Z.of_nat i + 1) (Field_Name f))
      (Struct_JDBCParamBindings (Params_Struct (Query_Arg Cases.GetUsers))).
Proof.
  refine (proj1 (Params_lines (Query_Arg Cases.GetUsers) _ _) _).
  - discriminate.
  - repeat constructor.
  - discriminate.
Defined.
